(** * Glider flight core: seeded noise, world placement, flight integrator

    A shallow embedding of [js/noise.js], the [World] class and
    [js/physics.js].

    Number model.  A JavaScript number that the code only ever uses as an
    integer (a generator state, a table index, an id) is a [Z]; every other
    number is a real [R] with exact arithmetic, and [Math.sqrt], [Math.cos],
    [Math.sin], [Math.exp], [Math.acos], [Math.floor] are the real functions
    [sqrt], [cos], [sin], [exp], [acos], [Zfloor].  Rounding of doubles, NaN
    and the infinities are outside the model.  Integer products are exact in
    a double up to 2^53; the statements about the generator say so where
    they depend on it. *)

From Stdlib Require Import ZArith List Reals Lra Lia Bool String.
From stdpp Require Import base list gmap strings.

Open Scope R_scope.

(** ** Comparisons on numbers, as booleans *)

Definition Rltb (a b : R) : bool := if Rlt_dec a b then true else false.
Definition Rleb (a b : R) : bool := if Rle_dec a b then true else false.
Definition Rgtb (a b : R) : bool := Rltb b a.

(** ** A state monad for code that draws from one generator *)

Definition Rng (A : Type) : Type := Z -> A * Z.

Definition ret {A} (a : A) : Rng A := fun s => (a, s).

Definition bind {A B} (c : Rng A) (k : A -> Rng B) : Rng B :=
  fun s => let (a, s') := c s in k a s'.

Notation "'let*' x ':=' c 'in' k" := (bind c (fun x => k))
  (at level 10, x name, c at level 100, k at level 200).

(** ** SeededRandom (js/noise.js) *)

Module SeededRandom.

Definition A : Z := 16807.
Definition M : Z := 2147483647.

(** [this.seed = (this.seed * 16807 + 0) % 2147483647]: the remainder of
    JavaScript takes the sign of the dividend, as [Z.rem] does. *)
Definition step (seed : Z) : Z := Z.rem (seed * A + 0) M.

(** [next()]: advances the state and returns [(seed - 1) / 2147483646]. *)
Definition next : Rng R :=
  fun seed => let s := step seed in (IZR (s - 1) / 2147483646, s).

Definition nextRange (min max : R) : Rng R :=
  let* r := next in ret (min + r * (max - min)).

Definition nextInt (min max : R) : Rng Z :=
  let* r := nextRange min max in ret (Zfloor r).

(** The state after [n] draws and the value of the [n]-th draw, [n >= 1]. *)
Fixpoint state_after (n : nat) (seed : Z) : Z :=
  match n with
  | O => seed
  | S n' => state_after n' (step seed)
  end.

Definition nth_value (n : nat) (seed : Z) : R :=
  fst (next (state_after (pred n) seed)).

(** Seeds of the minimal-standard generator: positive, not a multiple of
    the modulus. *)
Definition regular (s : Z) : Prop := (0 < s /\ s mod M <> 0)%Z.

End SeededRandom.

(** ** PerlinNoise (js/noise.js) *)

Module PerlinNoise.

(** A noise field: the 512-entry permutation table ([Uint8Array]) and the
    256 gradient vectors.  Both are fixed by [_init]. *)
Record t : Type := mk {
  seed : Z;
  perm : list Z;
  grad : list (R * R)
}.

(** Reading a [Uint8Array] at an integer index: [None] stands for
    [undefined], the result out of range. *)
Definition u8_get (p : list Z) (i : Z) : option Z :=
  if (i <? 0)%Z then None else p !! Z.to_nat i.

(** Writing a [Uint8Array]: out of range the write is dropped, and
    [undefined] is stored as 0. *)
Definition u8_set (p : list Z) (i : Z) (v : option Z) : list Z :=
  if (i <? 0)%Z then p else <[ Z.to_nat i := default 0%Z v ]> p.

(** [[p[i], p[j]] = [p[j], p[i]]]: both reads first, then the write to
    [p[i]], then the write to [p[j]]. *)
Definition swap (p : list Z) (i j : Z) : list Z :=
  let a := u8_get p j in
  let b := u8_get p i in
  u8_set (u8_set p i a) j b.

(** [for (let i = 0; i < 256; i++) p[i] = i]. *)
Definition identity_table : list Z := map Z.of_nat (seq 0 256).

(** The Fisher-Yates loop, [for (let i = 255; i > 0; i--)]; the argument
    is the current [i]. *)
Fixpoint shuffle (i : nat) (p : list Z) : Rng (list Z) :=
  match i with
  | O => ret p
  | S i' =>
      let* j := SeededRandom.nextInt 0 (IZR (Z.of_nat i + 1)) in
      shuffle i' (swap p (Z.of_nat i) j)
  end.

(** [for (let i = 0; i < 512; i++) this.perm[i] = p[i & 255]]. *)
Definition double_table (p : list Z) : list Z :=
  map (fun i => default 0%Z (u8_get p (Z.land (Z.of_nat i) 255))) (seq 0 512).

(** The gradient loop: [count] draws, one angle each. *)
Fixpoint gradients (count : nat) (acc : list (R * R)) : Rng (list (R * R)) :=
  match count with
  | O => ret acc
  | S c =>
      let* r := SeededRandom.next in
      let a := r * PI * 2 in
      gradients c (acc ++ [(cos a, sin a)])
  end.

Definition _init : Rng (list Z * list (R * R)) :=
  let* p := shuffle 255 identity_table in
  let* g := gradients 256 [] in
  ret (double_table p, g).

(** [new PerlinNoise(seed)]: the generator is local to [_init]. *)
Definition new (seed : Z) : t :=
  let '(pm, g) := fst (_init seed) in mk seed pm g.

Definition _fade (t : R) : R := t * t * t * (t * (t * 6 - 15) + 10).
Definition _lerp (a b t : R) : R := a + t * (b - a).

(** Table reads of [noise2D] and [_dot].  The indices the code forms are
    inside the tables [_init] builds; for a table that is too short the
    read is totalised with 0 and the zero vector. *)
Definition perm_at (n : t) (i : Z) : Z := default 0%Z (u8_get (perm n) i).
Definition grad_at (n : t) (i : Z) : R * R :=
  default (0, 0) (grad n !! Z.to_nat i).

Definition _dot (n : t) (gi : Z) (x y : R) : R :=
  let g := grad_at n (Z.land gi 255) in
  fst g * x + snd g * y.

Definition noise2D (n : t) (x y : R) : R :=
  let xi := Z.land (Zfloor x) 255 in
  let yi := Z.land (Zfloor y) 255 in
  let xf := x - IZR (Zfloor x) in
  let yf := y - IZR (Zfloor y) in
  let u := _fade xf in
  let v := _fade yf in
  let aa := perm_at n (perm_at n xi + yi) in
  let ab := perm_at n (perm_at n xi + yi + 1) in
  let ba := perm_at n (perm_at n (xi + 1) + yi) in
  let bb := perm_at n (perm_at n (xi + 1) + yi + 1) in
  let x1 := _lerp (_dot n aa xf yf) (_dot n ba (xf - 1) yf) u in
  let x2 := _lerp (_dot n ab xf (yf - 1)) (_dot n bb (xf - 1) (yf - 1)) u in
  _lerp x1 x2 v.

(** The octave loop of [fbm], carrying [sum], [amp], [freq], [maxAmp]. *)
Fixpoint fbm_loop (n : t) (x y lacunarity gain : R) (octaves : nat)
    (sum amp freq maxAmp : R) : R * R :=
  match octaves with
  | O => (sum, maxAmp)
  | S k =>
      fbm_loop n x y lacunarity gain k
        (sum + noise2D n (x * freq) (y * freq) * amp)
        (amp * gain) (freq * lacunarity) (maxAmp + amp)
  end.

Definition fbm_full (n : t) (x y : R) (octaves : nat) (lacunarity gain : R) : R :=
  let (sum, maxAmp) := fbm_loop n x y lacunarity gain octaves 0 1 1 0 in
  sum / maxAmp.

(** [fbm(x, y, octaves)] with the default [lacunarity = 2.0], [gain = 0.5]. *)
Definition fbm (n : t) (x y : R) (octaves : nat) : R :=
  fbm_full n x y octaves 2 0.5.

Fixpoint ridge_loop (n : t) (x y : R) (octaves : nat)
    (sum amp freq maxAmp : R) : R * R :=
  match octaves with
  | O => (sum, maxAmp)
  | S k =>
      let n0 := Rabs (noise2D n (x * freq) (y * freq)) in
      let n1 := 1 - n0 in
      let n2 := n1 * n1 in
      ridge_loop n x y k (sum + n2 * amp) (amp * 0.5) (freq * 2) (maxAmp + amp)
  end.

Definition ridgeNoise (n : t) (x y : R) (octaves : nat) : R :=
  let (sum, maxAmp) := ridge_loop n x y octaves 0 1 1 0 in
  sum / maxAmp.

End PerlinNoise.

(** ** Biomes and terrain height (js/noise.js) *)

Inductive BIOME : Type := OCEAN | PLAINS | MOUNTAINS | ISLAND | AIRPORT.

Definition BIOME_eqb (a b : BIOME) : bool :=
  match a, b with
  | OCEAN, OCEAN | PLAINS, PLAINS | MOUNTAINS, MOUNTAINS
  | ISLAND, ISLAND | AIRPORT, AIRPORT => true
  | _, _ => false
  end.


Definition getBiome (x z : R) (terrainNoise biomeNoise islandNoise : PerlinNoise.t)
    : BIOME :=
  let bn := PerlinNoise.fbm biomeNoise (x * 0.0003) (z * 0.0003) 4 in
  let inl := PerlinNoise.fbm islandNoise (x * 0.002) (z * 0.002) 3 in
  if Rltb bn (-0.15) then
    if Rgtb inl 0.25 then ISLAND else OCEAN
  else
    let tn := PerlinNoise.fbm terrainNoise (x * 0.0008) (z * 0.0008) 4 in
    if Rgtb tn 0.3 then MOUNTAINS else PLAINS.

Definition getTerrainHeight (x z : R)
    (terrainNoise biomeNoise islandNoise : PerlinNoise.t) : R :=
  let biome := getBiome x z terrainNoise biomeNoise islandNoise in
  let base := PerlinNoise.fbm terrainNoise (x * 0.001) (z * 0.001) 6 in
  let detail := PerlinNoise.fbm terrainNoise (x * 0.005) (z * 0.005) 3 * 0.15 in
  match biome with
  | OCEAN => -2
  | PLAINS => (base * 0.5 + 0.5) * 40 + detail * 10 + 5
  | MOUNTAINS =>
      let ridge := PerlinNoise.ridgeNoise terrainNoise (x * 0.001) (z * 0.001) 5 in
      (base * 0.5 + 0.5) * 120 + ridge * 200 + detail * 30 + 50
  | ISLAND =>
      let inl := PerlinNoise.fbm islandNoise (x * 0.002) (z * 0.002) 3 in
      let islandHeight := Rmax 0 ((inl - 0.25) * 4) in
      islandHeight * 80 + detail * 15 + 3
  | AIRPORT => 10
  end.

(** ** The vector and quaternion operations of three.js that the code calls *)

Module THREE.

Record Vector3 : Type := vec3 { x : R; y : R; z : R }.
Record Quaternion : Type := quat { qx : R; qy : R; qz : R; qw : R }.
Inductive EulerOrder : Type := XYZ | YXZ.

Definition zero : Vector3 := vec3 0 0 0.

Definition length (v : Vector3) : R :=
  sqrt (x v * x v + y v * y v + z v * z v).

Definition multiplyScalar (v : Vector3) (s : R) : Vector3 :=
  vec3 (x v * s) (y v * s) (z v * s).

Definition divideScalar (v : Vector3) (s : R) : Vector3 :=
  multiplyScalar v (1 / s).

(** [normalize()] is [divideScalar(length() || 1)]. *)
Definition normalize (v : Vector3) : Vector3 :=
  let l := length v in
  divideScalar v (if Req_dec_T l 0 then 1 else l).

Definition negate (v : Vector3) : Vector3 := vec3 (- x v) (- y v) (- z v).

Definition add (a b : Vector3) : Vector3 :=
  vec3 (x a + x b) (y a + y b) (z a + z b).

Definition addScaledVector (a v : Vector3) (s : R) : Vector3 :=
  vec3 (x a + x v * s) (y a + y v * s) (z a + z v * s).

Definition dot (a b : Vector3) : R := x a * x b + y a * y b + z a * z b.

Definition cross (a b : Vector3) : Vector3 :=
  vec3 (y a * z b - z a * y b) (z a * x b - x a * z b) (x a * y b - y a * x b).

Definition applyQuaternion (v : Vector3) (q : Quaternion) : Vector3 :=
  let tx := 2 * (qy q * z v - qz q * y v) in
  let ty := 2 * (qz q * x v - qx q * z v) in
  let tz := 2 * (qx q * y v - qy q * x v) in
  vec3 (x v + qw q * tx + qy q * tz - qz q * ty)
       (y v + qw q * ty + qz q * tx - qx q * tz)
       (z v + qw q * tz + qx q * ty - qy q * tx).

(** [new THREE.Quaternion()]. *)
Definition identity : Quaternion := quat 0 0 0 1.

Definition setFromEuler (ex ey ez : R) (order : EulerOrder) : Quaternion :=
  let c1 := cos (ex / 2) in
  let c2 := cos (ey / 2) in
  let c3 := cos (ez / 2) in
  let s1 := sin (ex / 2) in
  let s2 := sin (ey / 2) in
  let s3 := sin (ez / 2) in
  match order with
  | XYZ => quat (s1 * c2 * c3 + c1 * s2 * s3) (c1 * s2 * c3 - s1 * c2 * s3)
                (c1 * c2 * s3 + s1 * s2 * c3) (c1 * c2 * c3 - s1 * s2 * s3)
  | YXZ => quat (s1 * c2 * c3 + c1 * s2 * s3) (c1 * s2 * c3 - s1 * c2 * s3)
                (c1 * c2 * s3 - s1 * s2 * c3) (c1 * c2 * c3 + s1 * s2 * s3)
  end.

(** [a.multiply(b)], the product [a * b]. *)
Definition multiply (a b : Quaternion) : Quaternion :=
  quat (qx a * qw b + qw a * qx b + qy a * qz b - qz a * qy b)
       (qy a * qw b + qw a * qy b + qz a * qx b - qx a * qz b)
       (qz a * qw b + qw a * qz b + qx a * qy b - qy a * qx b)
       (qw a * qw b - qx a * qx b - qy a * qy b - qz a * qz b).

Definition qlength (q : Quaternion) : R :=
  sqrt (qx q * qx q + qy q * qy q + qz q * qz q + qw q * qw q).

Definition qnormalize (q : Quaternion) : Quaternion :=
  let l := qlength q in
  if Req_dec_T l 0 then quat 0 0 0 1
  else let l' := 1 / l in quat (qx q * l') (qy q * l') (qz q * l') (qw q * l').

End THREE.

(** ** World: procedural placement and spatial queries *)

(** An airport as [_createAirportData] returns it; the [mesh] field, [null]
    at creation, belongs to the renderer and is left out. *)
Record Airport : Type := mkAirport {
  ap_id : nat;
  ap_name : string;
  ap_x : R;
  ap_z : R;
  ap_elevation : R;
  ap_heading : R;
  ap_length : R;
  ap_width : R;
  ap_biome : BIOME
}.

Record Thermal : Type := mkThermal {
  th_x : R;
  th_z : R;
  th_strength : R;
  th_radius : R;
  th_maxAlt : R;
  th_temperature : R;
  th_biome : BIOME;
  th_turbulence : R;
  th_active : bool
}.

Record ThermalLift : Type := mkLift {
  lift : R;
  temperature : R;
  turbulence : R
}.

(** What the constructor adds to the scene it is given. *)
Inductive Object3D : Type := OceanMesh (position_y : R).
Definition Scene : Type := list Object3D.

Module World.

(** The fields the placement and the queries use; the chunk map and the
    ocean mesh belong to the renderer. *)
Record t : Type := mk {
  seed : Z;
  terrainNoise : PerlinNoise.t;
  biomeNoise : PerlinNoise.t;
  islandNoise : PerlinNoise.t;
  thermalNoise : PerlinNoise.t;
  airports : list Airport;
  thermals : list Thermal;
  windDirection : THREE.Vector3;
  windSpeed : R
}.

Definition SEA_LEVEL : R := 0.

Definition names : list string :=
  [ "Skyport Alpha"; "Eagle Field"; "Thermal Valley"; "Ridge Station";
    "Windward Strip"; "Coastal Air"; "Summit Base"; "Plains Central";
    "Volcano Point"; "Island Hop"; "Canyon Port"; "Highland Field";
    "Lakeview Strip"; "Desert Oasis"; "Forest Clearing"; "Mesa Top" ]%string.

Section Placement.

(** The three noise fields the constructor has already built. *)
Variables tn bn inl : PerlinNoise.t.

Definition _createAirportData (ax az : R) (id : nat) : Rng Airport :=
  let* r := SeededRandom.next in
  let heading := r * PI in
  let h := getTerrainHeight ax az tn bn inl in
  let elevation := Rmax h 5 in
  ret (mkAirport id (nth (id mod List.length names) names EmptyString)
         ax az elevation heading 200 30 (getBiome ax az tn bn inl)).

Definition count : nat := 12.
Definition minDist : R := 1500.

(** [for (const ap of this.airports)] with its [break]. *)
Definition tooClose (ax az : R) (aps : list Airport) : bool :=
  existsb (fun ap =>
             Rltb (sqrt ((ax - ap_x ap) ^ 2 + (az - ap_z ap) ^ 2)) minDist)
          aps.

(** The [while] loop of [_generateAirports]; [fuel] is [500 - attempts]. *)
Fixpoint airports_loop (fuel : nat) (aps : list Airport) : Rng (list Airport) :=
  match fuel with
  | O => ret aps
  | S fuel' =>
      if (List.length aps <? count)%nat then
        let* r1 := SeededRandom.next in
        let angle := r1 * PI * 2 in
        let* r2 := SeededRandom.next in
        let dist := 1500 + r2 * 6000 in
        let ax := cos angle * dist in
        let az := sin angle * dist in
        let biome := getBiome ax az tn bn inl in
        if BIOME_eqb biome OCEAN then airports_loop fuel' aps
        else if tooClose ax az aps then airports_loop fuel' aps
        else
          let* a := _createAirportData ax az (List.length aps) in
          airports_loop fuel' (aps ++ [a])
      else ret aps
  end.

Definition _generateAirports (s : Z) : list Airport :=
  fst ((let* first := _createAirportData 0 0 0 in
        airports_loop 500 [first]) (s + 500)%Z).

(** One pass of the [for] loop of [_generateThermals]. *)
Definition thermal_attempt (ths : list Thermal) : Rng (list Thermal) :=
  let* r1 := SeededRandom.next in
  let angle := r1 * PI * 2 in
  let* r2 := SeededRandom.next in
  let dist := r2 * 8000 in
  let tx := cos angle * dist in
  let tz := sin angle * dist in
  let biome := getBiome tx tz tn bn inl in
  if BIOME_eqb biome OCEAN then ret ths
  else
    let* params :=
      match biome with
      | PLAINS =>
          let* a := SeededRandom.next in
          let* b := SeededRandom.next in
          let* c := SeededRandom.next in
          let* d := SeededRandom.next in
          ret (2 + a * 3, 80 + b * 120, 1500 + c * 500, 25 + d * 10)
      | MOUNTAINS =>
          let* a := SeededRandom.next in
          let* b := SeededRandom.next in
          let* c := SeededRandom.next in
          let* d := SeededRandom.next in
          ret (3 + a * 4, 60 + b * 100, 3000 + c * 1000, 20 + d * 8)
      | ISLAND =>
          let* a := SeededRandom.next in
          let* b := SeededRandom.next in
          let* c := SeededRandom.next in
          let* d := SeededRandom.next in
          ret (6 + a * 6, 40 + b * 60, 4000 + c * 1000, 40 + d * 15)
      | _ =>
          let* a := SeededRandom.next in
          let* b := SeededRandom.next in
          ret (2 + a * 2, 80 + b * 80, 1200, 22)
      end in
    let '(strength, radius, maxAlt, temp) := params in
    let* t := SeededRandom.next in
    let turb := if BIOME_eqb biome ISLAND then 0.5 + t * 0.5 else t * 0.3 in
    ret (ths ++ [mkThermal tx tz strength radius maxAlt temp biome turb true]).

Fixpoint thermals_loop (n : nat) (ths : list Thermal) : Rng (list Thermal) :=
  match n with
  | O => ret ths
  | S n' => let* ths' := thermal_attempt ths in thermals_loop n' ths'
  end.

Definition _generateThermals (s : Z) : list Thermal :=
  fst (thermals_loop 80 [] (s + 700)%Z).

End Placement.

Definition _createOcean : Object3D := OceanMesh (SEA_LEVEL - 0.5).

(** [new World(scene, seed)]: the world, and the scene with the ocean
    mesh added. *)
Definition new (scene : Scene) (s : Z) : t * Scene :=
  let tn := PerlinNoise.new s in
  let bn := PerlinNoise.new (s + 100) in
  let inl := PerlinNoise.new (s + 200) in
  let thn := PerlinNoise.new (s + 300) in
  (mk s tn bn inl thn
      (_generateAirports tn bn inl s)
      (_generateThermals tn bn inl s)
      (THREE.normalize (THREE.vec3 1 0 0.3)) 5,
   scene ++ [_createOcean]).

Definition getHeightAt (w : t) (x z : R) : R :=
  getTerrainHeight x z (terrainNoise w) (biomeNoise w) (islandNoise w).

Definition getBiomeAt (w : t) (x z : R) : BIOME :=
  getBiome x z (terrainNoise w) (biomeNoise w) (islandNoise w).

Definition _getRidgeLift (w : t) (x y z : R) : R :=
  let s := 20 in
  let h0 := getTerrainHeight x z (terrainNoise w) (biomeNoise w) (islandNoise w) in
  let hx := getTerrainHeight (x + s) z (terrainNoise w) (biomeNoise w) (islandNoise w) in
  let hz := getTerrainHeight x (z + s) (terrainNoise w) (biomeNoise w) (islandNoise w) in
  let slopeX := (hx - h0) / s in
  let slopeZ := (hz - h0) / s in
  let normal := THREE.normalize (THREE.vec3 (- slopeX) 1 (- slopeZ)) in
  let heightAboveTerrain := y - h0 in
  if Rltb heightAboveTerrain 0 || Rgtb heightAboveTerrain 300 then 0
  else
    let windComponent :=
      THREE.dot (windDirection w)
                (THREE.vec3 (THREE.x normal) 0 (THREE.z normal)) in
    if Rleb windComponent 0 then 0
    else
      let proximity := 1 - heightAboveTerrain / 300 in
      windComponent * windSpeed w * 0.4 * proximity.

(** The accumulators of the thermal loop of [getThermalLift]. *)
Record Acc : Type := mkAcc { totalLift : R; maxTemp : R; accTurbulence : R }.

(** The body of [for (const th of this.thermals)]. *)
Definition thermal_step (x y z : R) (acc : Acc) (th : Thermal) : Acc :=
  let dx := x - th_x th in
  let dz := z - th_z th in
  let dist := sqrt (dx * dx + dz * dz) in
  if Rltb dist (th_radius th) && Rltb y (th_maxAlt th) then
    let factor := exp (- (dist * dist) / (2 * (th_radius th * 0.5) ^ 2)) in
    let altFactor := 1 - y / th_maxAlt th in
    let l := th_strength th * factor * Rmax 0 altFactor in
    mkAcc (totalLift acc + l)
          (Rmax (maxTemp acc) (th_temperature th * factor))
          (Rmax (accTurbulence acc) (th_turbulence th * factor))
  else acc.

Definition getThermalLift (w : t) (x y z : R) : ThermalLift :=
  let biome := getBiome x z (terrainNoise w) (biomeNoise w) (islandNoise w) in
  if BIOME_eqb biome OCEAN then mkLift (-1.5) 12 0.1
  else
    let acc := fold_left (thermal_step x y z) (thermals w) (mkAcc 0 15 0) in
    let total :=
      if BIOME_eqb biome MOUNTAINS
      then totalLift acc + _getRidgeLift w x y z
      else totalLift acc in
    mkLift total (maxTemp acc) (accTurbulence acc).

(** The runway test of [getAirportAt] for one airport. *)
Definition onRunway (x y z : R) (ap : Airport) : bool :=
  let dx := x - ap_x ap in
  let dz := z - ap_z ap in
  let c := cos (- ap_heading ap) in
  let s := sin (- ap_heading ap) in
  let lx := dx * c - dz * s in
  let lz := dx * s + dz * c in
  let halfLen := ap_length ap / 2 in
  let halfWid := ap_width ap / 2 in
  if Rltb (Rabs lx) halfLen && Rltb (Rabs lz) halfWid then
    let altDiff := Rabs (y - ap_elevation ap) in
    Rltb altDiff 10
  else false.

(** [getAirportAt]: the first airport that passes, or [None] for [null]. *)
Definition getAirportAt (w : t) (x y z : R) : option Airport :=
  find (onRunway x y z) (airports w).

(** *** Measures used in the statements about the world *)

(** The world with another list of thermals; every other field as it is. *)
Definition withThermals (w : t) (ths : list Thermal) : t :=
  mk (seed w) (terrainNoise w) (biomeNoise w) (islandNoise w) (thermalNoise w)
     (airports w) ths (windDirection w) (windSpeed w).

(** What one thermal adds to the running lift total. *)
Definition liftTerm (x y z : R) (th : Thermal) : R :=
  totalLift (thermal_step x y z (mkAcc 0 0 0) th).

(** The sum of the terms of a list of thermals. *)
Definition liftSum (x y z : R) (ths : list Thermal) : R :=
  fold_right (fun th s => liftTerm x y z th + s) 0 ths.





End World.

(** ** FlightPhysics (js/physics.js) *)

(** The argument of [launch] is an arbitrary JavaScript value. *)
Inductive JSValue : Type :=
| JSUndefined
| JSNull
| JSBoolean (b : bool)
| JSNumber (r : R)
| JSString (s : string).

(** [v === 'cable'], and so on: strict equality with a string literal. *)
Definition strict_eq_string (v : JSValue) (lit : string) : bool :=
  match v with
  | JSString s => if string_dec s lit then true else false
  | _ => false
  end.

Module FlightPhysics.

Import THREE.

Definition RHO : R := 1.225.
Definition G : R := 9.81.

Definition getCL (aoa : R) : R :=
  let deg := aoa * (180 / PI) in
  if Rltb deg (-10) then -0.4
  else if Rgtb deg 18 then 0.8 - (deg - 18) * 0.1
  else Rmin 1.6 (Rmax (-0.5) (0.1 + deg * 0.1)).

Definition getCD (cl aspectRatio cd0 e : R) : R :=
  let cdi := (cl * cl) / (PI * aspectRatio * e) in
  cd0 + cdi.

Record Config : Type := mkConfig {
  mass : R;
  cargoMass : R;
  wingArea : R;
  aspectRatio : R;
  cd0 : R;
  e : R;
  rollRate : R;
  pitchRate : R;
  yawRate : R;
  maxSpeed : R;
  stallSpeed : R;
  brakeCD : R
}.

Definition _defaultConfig : Config :=
  mkConfig 300 0 15 18 0.015 0.85 1.2 0.8 0.3 (250 / 3.6) (60 / 3.6) 0.05.

Record t : Type := mk {
  position : Vector3;
  velocity : Vector3;
  orientation : Quaternion;
  angularVelocity : Vector3;
  pitchInput : R;
  rollInput : R;
  yawInput : R;
  brakeInput : R;
  config : Config;
  isLaunching : bool;
  launchThrust : R;
  launchTimer : R;
  stalling : bool;
  crashed : bool;
  landed : bool;
  thermalHeatTime : R;
  currentTemp : R;
  cargoSpoiled : bool;
  turbulenceOffset : Vector3
}.

(** The constructor. *)
Definition new : t :=
  mk (vec3 0 300 0) (vec3 0 0 (-20)) identity (vec3 0 0 0)
     0 0 0 0 _defaultConfig
     false 0 0 false false true
     0 15 false (vec3 0 0 0).

(** Field assignments. *)
Definition set_position (p : Vector3) (s : t) : t :=
  mk p (velocity s) (orientation s) (angularVelocity s) (pitchInput s)
     (rollInput s) (yawInput s) (brakeInput s) (config s) (isLaunching s)
     (launchThrust s) (launchTimer s) (stalling s) (crashed s) (landed s)
     (thermalHeatTime s) (currentTemp s) (cargoSpoiled s) (turbulenceOffset s).
Definition set_velocity (v : Vector3) (s : t) : t :=
  mk (position s) v (orientation s) (angularVelocity s) (pitchInput s)
     (rollInput s) (yawInput s) (brakeInput s) (config s) (isLaunching s)
     (launchThrust s) (launchTimer s) (stalling s) (crashed s) (landed s)
     (thermalHeatTime s) (currentTemp s) (cargoSpoiled s) (turbulenceOffset s).
Definition set_orientation (q : Quaternion) (s : t) : t :=
  mk (position s) (velocity s) q (angularVelocity s) (pitchInput s)
     (rollInput s) (yawInput s) (brakeInput s) (config s) (isLaunching s)
     (launchThrust s) (launchTimer s) (stalling s) (crashed s) (landed s)
     (thermalHeatTime s) (currentTemp s) (cargoSpoiled s) (turbulenceOffset s).
Definition set_angularVelocity (a : Vector3) (s : t) : t :=
  mk (position s) (velocity s) (orientation s) a (pitchInput s)
     (rollInput s) (yawInput s) (brakeInput s) (config s) (isLaunching s)
     (launchThrust s) (launchTimer s) (stalling s) (crashed s) (landed s)
     (thermalHeatTime s) (currentTemp s) (cargoSpoiled s) (turbulenceOffset s).
Definition set_isLaunching (b : bool) (s : t) : t :=
  mk (position s) (velocity s) (orientation s) (angularVelocity s) (pitchInput s)
     (rollInput s) (yawInput s) (brakeInput s) (config s) b
     (launchThrust s) (launchTimer s) (stalling s) (crashed s) (landed s)
     (thermalHeatTime s) (currentTemp s) (cargoSpoiled s) (turbulenceOffset s).
Definition set_launchThrust (r : R) (s : t) : t :=
  mk (position s) (velocity s) (orientation s) (angularVelocity s) (pitchInput s)
     (rollInput s) (yawInput s) (brakeInput s) (config s) (isLaunching s)
     r (launchTimer s) (stalling s) (crashed s) (landed s)
     (thermalHeatTime s) (currentTemp s) (cargoSpoiled s) (turbulenceOffset s).
Definition set_launchTimer (r : R) (s : t) : t :=
  mk (position s) (velocity s) (orientation s) (angularVelocity s) (pitchInput s)
     (rollInput s) (yawInput s) (brakeInput s) (config s) (isLaunching s)
     (launchThrust s) r (stalling s) (crashed s) (landed s)
     (thermalHeatTime s) (currentTemp s) (cargoSpoiled s) (turbulenceOffset s).
Definition set_stalling (b : bool) (s : t) : t :=
  mk (position s) (velocity s) (orientation s) (angularVelocity s) (pitchInput s)
     (rollInput s) (yawInput s) (brakeInput s) (config s) (isLaunching s)
     (launchThrust s) (launchTimer s) b (crashed s) (landed s)
     (thermalHeatTime s) (currentTemp s) (cargoSpoiled s) (turbulenceOffset s).
Definition set_crashed (b : bool) (s : t) : t :=
  mk (position s) (velocity s) (orientation s) (angularVelocity s) (pitchInput s)
     (rollInput s) (yawInput s) (brakeInput s) (config s) (isLaunching s)
     (launchThrust s) (launchTimer s) (stalling s) b (landed s)
     (thermalHeatTime s) (currentTemp s) (cargoSpoiled s) (turbulenceOffset s).
Definition set_landed (b : bool) (s : t) : t :=
  mk (position s) (velocity s) (orientation s) (angularVelocity s) (pitchInput s)
     (rollInput s) (yawInput s) (brakeInput s) (config s) (isLaunching s)
     (launchThrust s) (launchTimer s) (stalling s) (crashed s) b
     (thermalHeatTime s) (currentTemp s) (cargoSpoiled s) (turbulenceOffset s).
Definition set_thermalHeatTime (r : R) (s : t) : t :=
  mk (position s) (velocity s) (orientation s) (angularVelocity s) (pitchInput s)
     (rollInput s) (yawInput s) (brakeInput s) (config s) (isLaunching s)
     (launchThrust s) (launchTimer s) (stalling s) (crashed s) (landed s)
     r (currentTemp s) (cargoSpoiled s) (turbulenceOffset s).
Definition set_currentTemp (r : R) (s : t) : t :=
  mk (position s) (velocity s) (orientation s) (angularVelocity s) (pitchInput s)
     (rollInput s) (yawInput s) (brakeInput s) (config s) (isLaunching s)
     (launchThrust s) (launchTimer s) (stalling s) (crashed s) (landed s)
     (thermalHeatTime s) r (cargoSpoiled s) (turbulenceOffset s).
Definition set_cargoSpoiled (b : bool) (s : t) : t :=
  mk (position s) (velocity s) (orientation s) (angularVelocity s) (pitchInput s)
     (rollInput s) (yawInput s) (brakeInput s) (config s) (isLaunching s)
     (launchThrust s) (launchTimer s) (stalling s) (crashed s) (landed s)
     (thermalHeatTime s) (currentTemp s) b (turbulenceOffset s).
Definition set_turbulenceOffset (v : Vector3) (s : t) : t :=
  mk (position s) (velocity s) (orientation s) (angularVelocity s) (pitchInput s)
     (rollInput s) (yawInput s) (brakeInput s) (config s) (isLaunching s)
     (launchThrust s) (launchTimer s) (stalling s) (crashed s) (landed s)
     (thermalHeatTime s) (currentTemp s) (cargoSpoiled s) v.

(** Getters. *)
Definition totalMass (s : t) : R := mass (config s) + cargoMass (config s).
Definition speed (s : t) : R := length (velocity s).
Definition speedKmh (s : t) : R := speed s * 3.6.
Definition verticalSpeed (s : t) : R := y (velocity s).
Definition altitude (s : t) : R := y (position s).
Definition forward (s : t) : Vector3 :=
  normalize (applyQuaternion (vec3 0 0 (-1)) (orientation s)).
Definition up (s : t) : Vector3 :=
  normalize (applyQuaternion (vec3 0 1 0) (orientation s)).
Definition right (s : t) : Vector3 :=
  normalize (applyQuaternion (vec3 1 0 0) (orientation s)).

Definition getAngleOfAttack (s : t) : R :=
  if Rltb (speed s) 0.1 then 0
  else
    let velDir := normalize (velocity s) in
    let fwd := forward s in
    let d := dot velDir fwd in
    let c := cross velDir fwd in
    let sign := if Rgtb (dot c (right s)) 0 then 1 else -1 in
    sign * acos (Rmin 1 (Rmax (-1) d)).

Definition launch (type : JSValue) (s : t) : t :=
  let s := set_landed false s in
  let s := set_crashed false s in
  let s := set_isLaunching true s in
  let s := set_cargoSpoiled false s in
  let s := set_thermalHeatTime 0 s in
  if strict_eq_string type "cable" then
    let s := set_launchThrust (totalMass s * G * 1.5) s in
    let s := set_launchTimer 4 s in
    set_velocity (multiplyScalar (forward s) 15) s
  else
    let s := set_launchThrust (totalMass s * G * 1.2) s in
    let s := set_launchTimer 15 s in
    set_velocity (multiplyScalar (forward s) 25) s.

Definition resetAt (airport : Airport) (s : t) : t :=
  let s := set_position
             (vec3 (ap_x airport) (ap_elevation airport + 2) (ap_z airport)) s in
  let s := set_velocity (vec3 0 0 0) s in
  let s := set_orientation (setFromEuler 0 (ap_heading airport) 0 XYZ) s in
  let s := set_angularVelocity (vec3 0 0 0) s in
  let s := set_landed true s in
  let s := set_crashed false s in
  let s := set_isLaunching false s in
  let s := set_stalling false s in
  let s := set_thermalHeatTime 0 s in
  let s := set_cargoSpoiled false s in
  let s := set_currentTemp 15 s in
  set_turbulenceOffset (vec3 0 0 0) s.

(** *** [update(dt, world)], block by block *)

(** "Orientation update from controls". *)
Definition applyControls (dt : R) (s : t) : t :=
  let cfg := config s in
  let rollTorque := rollInput s * rollRate cfg in
  let pitchTorque := pitchInput s * pitchRate cfg in
  let yawTorque := yawInput s * yawRate cfg in
  let s := set_angularVelocity (vec3 pitchTorque yawTorque (- rollTorque)) s in
  let av := multiplyScalar (angularVelocity s) dt in
  let dq := setFromEuler (x av) (y av) (z av) YXZ in
  let s := set_orientation (multiply (orientation s) dq) s in
  set_orientation (qnormalize (orientation s)) s.

(** "Aerodynamic forces": gravity, lift and drag, from the speed [v] read
    at entry and the angle of attack [aoa]. *)
Definition aeroForces (v aoa : R) (s : t) : Vector3 :=
  let cfg := config s in
  let mass := totalMass s in
  let q := 0.5 * RHO * v * v in
  let forces := vec3 0 0 0 in
  let forces := vec3 (x forces) (y forces - mass * G) (z forces) in
  let cl := getCL aoa in
  let cd := getCD cl (aspectRatio cfg) (cd0 cfg) (e cfg)
            + brakeInput s * brakeCD cfg in
  let liftMag := cl * q * wingArea cfg in
  let velDir := if Rgtb v 0.5 then normalize (velocity s)
                else negate (forward s) in
  let liftDir := up s in
  let liftDir := addScaledVector liftDir velDir (- dot liftDir velDir) in
  let liftDir := normalize liftDir in
  let forces := addScaledVector forces liftDir liftMag in
  let dragMag := cd * q * wingArea cfg in
  if Rgtb v 0.5 then addScaledVector forces velDir (- dragMag) else forces.

(** "Launch thrust". *)
Definition launchPhase (dt : R) (forces : Vector3) (s : t) : Vector3 * t :=
  if isLaunching s && Rgtb (launchTimer s) 0 then
    let thrustDir := forward s in
    let thrustDir := vec3 (x thrustDir) (Rmax (y thrustDir) 0.3) (z thrustDir) in
    let thrustDir := normalize thrustDir in
    let forces := addScaledVector forces thrustDir (launchThrust s) in
    let s := set_launchTimer (launchTimer s - dt) s in
    if Rleb (launchTimer s) 0
    then (forces, set_launchThrust 0 (set_isLaunching false s))
    else (forces, s)
  else (forces, s).

(** "Environmental forces"; [now] is the reading of [performance.now()]. *)
Definition environmentPhase (dt : R) (world : option World.t) (now : R)
    (forces : Vector3) (s : t) : Vector3 * t :=
  match world with
  | None => (forces, s)
  | Some w =>
      let mass := totalMass s in
      let thermal :=
        World.getThermalLift w (x (position s)) (y (position s)) (z (position s)) in
      let forces :=
        if Req_dec_T (lift thermal) 0 then forces
        else vec3 (x forces) (y forces + lift thermal * mass * 0.5) (z forces) in
      let s := set_currentTemp (temperature thermal) s in
      let s :=
        if Rgtb (temperature thermal) 30 then
          let s := set_thermalHeatTime (thermalHeatTime s + dt) s in
          if Rgtb (thermalHeatTime s) 10 then set_cargoSpoiled true s else s
        else s in
      let '(forces, s) :=
        if Rgtb (turbulence thermal) 0 then
          let t := now * 0.003 in
          let s := set_turbulenceOffset
                     (vec3 (sin (t * 3.7) * turbulence thermal * 2)
                           (sin (t * 2.3) * turbulence thermal * 1.5)
                           (sin (t * 4.1) * turbulence thermal * 2)) s in
          (add forces (multiplyScalar (turbulenceOffset s) (mass * 0.5)), s)
        else (forces, s) in
      (addScaledVector forces (World.windDirection w)
                       (World.windSpeed w * mass * 0.02), s)
  end.

(** "Stall detection", and the nose drop. *)
Definition stallPhase (dt v aoa : R) (s : t) : t :=
  let cfg := config s in
  let aoaDeg := Rabs (aoa * 180 / PI) in
  let s := set_stalling (Rgtb aoaDeg 16 || Rltb v (stallSpeed cfg * 0.9)) s in
  if stalling s && Rltb v (stallSpeed cfg) then
    let stallPitch := setFromEuler (dt * 0.5) 0 0 XYZ in
    set_orientation (multiply (orientation s) stallPitch) s
  else s.

(** "Integrate", with the speed clamp. *)
Definition integratePhase (dt : R) (forces : Vector3) (s : t) : t :=
  let cfg := config s in
  let accel := divideScalar forces (totalMass s) in
  let s := set_velocity (addScaledVector (velocity s) accel dt) s in
  let s :=
    if Rgtb (speed s) (maxSpeed cfg)
    then set_velocity (multiplyScalar (normalize (velocity s)) (maxSpeed cfg)) s
    else s in
  set_position (addScaledVector (position s) (velocity s) dt) s.

(** "Ground collision"; the result is the string [update] returns. *)
Definition groundPhase (world : option World.t) (s : t) : t * string :=
  match world with
  | None => (s, "flying"%string)
  | Some w =>
      let groundH := World.getHeightAt w (x (position s)) (z (position s)) in
      let airport :=
        World.getAirportAt w (x (position s)) (y (position s)) (z (position s)) in
      if Rleb (y (position s)) (groundH + 1) then
        let vSpeed := Rabs (verticalSpeed s) in
        let hSpeed := speedKmh s in
        match airport with
        | Some ap =>
            if Rltb vSpeed 2.0 && Rltb hSpeed 40 then
              let s := set_position
                         (vec3 (x (position s)) (ap_elevation ap + 1)
                               (z (position s))) s in
              let s := set_velocity (multiplyScalar (velocity s) 0.95) s in
              if Rltb (speedKmh s) 2 then
                (set_landed true (set_velocity (vec3 0 0 0) s), "landed"%string)
              else (s, "landing"%string)
            else
              let s := set_crashed true s in
              let s := set_velocity (vec3 0 0 0) s in
              (set_position (vec3 (x (position s)) (groundH + 2) (z (position s))) s,
               "crashed"%string)
        | None =>
            let s := set_crashed true s in
            let s := set_velocity (vec3 0 0 0) s in
            (set_position (vec3 (x (position s)) (groundH + 2) (z (position s))) s,
             "crashed"%string)
        end
      else (s, "flying"%string)
  end.

(** The state of the aircraft when the ground test is made: everything
    [update] does up to and including the position update. *)
Definition beforeGround (dt : R) (world : option World.t) (now : R) (s : t) : t :=
  let v := speed s in
  let s := applyControls dt s in
  let aoa := getAngleOfAttack s in
  let forces := aeroForces v aoa s in
  let '(forces, s) := launchPhase dt forces s in
  let '(forces, s) := environmentPhase dt world now forces s in
  let s := stallPhase dt v aoa s in
  integratePhase dt forces s.

(** [update(dt, world)]: the new state and the returned value, [None]
    for the bare [return] of a landed or crashed aircraft. *)
Definition update (dt : R) (world : option World.t) (now : R) (s : t)
    : t * option string :=
  if landed s || crashed s then (s, None)
  else
    let '(s', r) := groundPhase world (beforeGround dt world now s) in
    (s', Some r).

(** *** Measures used in the statements about the integrator *)

(** The angle of attack and the speed that the stall test of one [update]
    reads: the speed at entry, the angle after the orientation update. *)
Definition stallAoa (dt : R) (s : t) : R := getAngleOfAttack (applyControls dt s).
Definition stallSpeedRead (s : t) : R := speed s.

(** The speed over the ground in km/h: the planar part of the velocity. *)
Definition horizontalSpeedKmh (s : t) : R :=
  sqrt (x (velocity s) * x (velocity s) + z (velocity s) * z (velocity s)) * 3.6.

(** Successive [update] calls, one per [(dt, world, now)] in the list. *)
Fixpoint updates (calls : list (R * option World.t * R)) (s : t) : t :=
  match calls with
  | [] => s
  | (dt, world, now) :: rest => updates rest (fst (update dt world now s))
  end.

(** What the blocks before the stall test leave alone. *)
Definition framed (s s' : t) : Prop :=
  position s' = position s /\ velocity s' = velocity s
  /\ config s' = config s /\ crashed s' = crashed s /\ landed s' = landed s.

End FlightPhysics.

(** ** Small concrete worlds and aircraft *)

Module Examples.

(** A well-formed field (512 table entries, 256 gradients) whose gradients
    are all [g]. *)
Definition constField (g : R * R) : PerlinNoise.t :=
  PerlinNoise.mk 0 (replicate 512 0%Z) (replicate 256 g).

Definition flatField : PerlinNoise.t := constField (0, 0).
Definition slopeField : PerlinNoise.t := constField (-10, 0).

Definition home : Airport :=
  mkAirport 0 "Skyport Alpha" 0 0 25 0 200 30 PLAINS.

Definition vent : Thermal := mkThermal 0 0 3 100 1500 28 PLAINS 0.1 true.

(** Plains everywhere, at height 25: one airport and one thermal at the
    origin. *)
Definition flatWorld : World.t :=
  World.mk 1 flatField flatField flatField flatField [home] [vent]
           (THREE.vec3 1 0 0) 5.

(** The same with a biome field that makes the point (2500/3, 0) Ocean,
    and a thermal centred on that point. *)
Definition seaVent : Thermal := mkThermal (2500 / 3) 0 3 100 1500 28 PLAINS 0.1 true.

Definition seaWorld : World.t :=
  World.mk 1 flatField slopeField flatField flatField [home] [seaVent]
           (THREE.vec3 1 0 0) 5.

(** Two aircraft in flight just above the runway of [home], sinking at
    1 m/s, at 30 km/h and at 60 km/h over the ground. *)
Definition approach (vx : R) : FlightPhysics.t :=
  FlightPhysics.mk (THREE.vec3 0 25.5 0) (THREE.vec3 vx (-1) 0)
    THREE.identity (THREE.vec3 0 0 0) 0 0 0 0 FlightPhysics._defaultConfig
    false 0 0 false false false 0 15 false (THREE.vec3 0 0 0).

Definition slowApproach : FlightPhysics.t := approach (25 / 3).
Definition fastApproach : FlightPhysics.t := approach (50 / 3).

(** A thermal as a generator with negative draws fills it ([nextRange]
    below its lower bound): positive strength, negative radius. *)
Definition hollowVent : Thermal := mkThermal 0 0 1.1 (-16) 1300 22 PLAINS (-0.1) true.

Definition hollowWorld : World.t :=
  World.mk 1 flatField flatField flatField flatField [home] [hollowVent]
           (THREE.vec3 1 0 0) 5.

(** Aircraft in flight with neutral controls and the attitude of a new
    aircraft (nose along -z). *)
Definition airborne (v : THREE.Vector3) : FlightPhysics.t :=
  FlightPhysics.mk (THREE.vec3 0 300 0) v
    THREE.identity (THREE.vec3 0 0 0) 0 0 0 0 FlightPhysics._defaultConfig
    false 0 0 false false false 0 15 false (THREE.vec3 0 0 0).

(** At 20 m/s along the nose, and at 30 m/s with the velocity 20 degrees
    below the nose. *)
Definition alongNose : FlightPhysics.t := airborne (THREE.vec3 0 0 (-20)).
Definition belowNose : FlightPhysics.t :=
  airborne (THREE.vec3 0 (- (30 * sin (PI / 9))) (- (30 * cos (PI / 9)))).

End Examples.

(** ** Plane parts and the configuration of the integrator *)

(** [a || b] on numbers: [b] when [a] is 0. *)
Definition js_or (a b : R) : R := if Req_dec_T a 0 then b else a.

(** [Math.round]: the nearest integer, halves upward. *)
Definition js_round (r : R) : R := IZR (Zfloor (r + 0.5)).

(** Objects used as tables.  [obj[k]] looks [k] up among the object's own
    properties and then in [Object.prototype], so for the names below it
    finds an inherited property where the table has none.  The part tables
    and the markets are modelled by their own properties, which is what
    the code reads for every other key. *)
Definition inheritedKeys : list string :=
  [ "constructor"; "hasOwnProperty"; "isPrototypeOf"; "propertyIsEnumerable";
    "toLocaleString"; "toString"; "valueOf"; "__proto__";
    "__defineGetter__"; "__defineSetter__"; "__lookupGetter__";
    "__lookupSetter__" ]%string.

Definition plainKey (k : string) : bool :=
  negb (existsb (String.eqb k) inheritedKeys).

Module PlaneParts.

Record Fuselage : Type := mkFuselage {
  f_cargoCapacity : R; f_mass : R; f_dragMod : R; f_cost : R
}.

Record Wing : Type := mkWing {
  w_wingArea : R; w_aspectRatio : R; w_rollRate : R; w_liftMod : R; w_cost : R
}.

Record Wingtip : Type := mkWingtip {
  t_cd0Mod : R; t_liftMod : R; t_rollMod : R; t_speedMod : R; t_cost : R
}.

(** [PARTS.fuselage[key]], [PARTS.wings[key]], [PARTS.wingtips[key]];
    [None] stands for [undefined]. *)
Definition fuselage (key : string) : option Fuselage :=
  if String.eqb key "standard" then Some (mkFuselage 100 80 1.0 0)
  else if String.eqb key "twoseater" then Some (mkFuselage 200 120 1.05 500)
  else if String.eqb key "freighter" then Some (mkFuselage 500 200 1.3 2000)
  else None.

Definition wings (key : string) : option Wing :=
  if String.eqb key "medium" then Some (mkWing 15 18 1.2 1.0 0)
  else if String.eqb key "long" then Some (mkWing 22 28 0.6 1.3 800)
  else if String.eqb key "short" then Some (mkWing 10 12 2.0 0.7 600)
  else None.

Definition wingtips (key : string) : option Wingtip :=
  if String.eqb key "none" then Some (mkWingtip 0 1.0 1.0 1.0 0)
  else if String.eqb key "blended" then Some (mkWingtip (-0.003) 1.05 0.8 1.0 400)
  else if String.eqb key "drooped" then Some (mkWingtip 0.005 1.15 0.9 0.85 350)
  else None.

Record PlaneConfig : Type := mkPlaneConfig {
  pc_fuselage : string; pc_wings : string; pc_wingtips : string
}.

(** The object [computePhysicsConfig] returns: the twelve fields the
    integrator reads, and the two it does not. *)
Record PhysicsConfig : Type := mkPhysicsConfig {
  physics : FlightPhysics.Config;
  cargoCapacity : R;
  liftMod : R
}.

(** [computePhysicsConfig(planeConfig)]; [None] when a part key is not in
    its table, where the code throws on reading a field of [undefined]. *)
Definition computePhysicsConfig (planeConfig : PlaneConfig) : option PhysicsConfig :=
  match fuselage (pc_fuselage planeConfig),
        wings (pc_wings planeConfig),
        wingtips (pc_wingtips planeConfig) with
  | Some fuse, Some wing, Some tips =>
      let baseMass := 180 in
      let mass := baseMass + f_mass fuse in
      let wingArea := w_wingArea wing in
      let aspectRatio := w_aspectRatio wing in
      let cd0 := (0.015 + js_or (t_cd0Mod tips) 0) * f_dragMod fuse in
      let rollRate := w_rollRate wing * js_or (t_rollMod tips) 1.0 in
      let maxSpeed := (250 / 3.6) * js_or (t_speedMod tips) 1.0 in
      let e := 0.85 * js_or (t_liftMod tips) 1.0 in
      let stallSpeed := (55 / 3.6) * sqrt (mass / 300) in
      Some (mkPhysicsConfig
              (FlightPhysics.mkConfig mass 0 wingArea aspectRatio (Rmax 0.008 cd0)
                 (Rmin 0.95 e) rollRate 0.8 0.3 maxSpeed stallSpeed 0.05)
              (f_cargoCapacity fuse)
              (w_liftMod wing * js_or (t_liftMod tips) 1.0))
  | _, _, _ => None
  end.

End PlaneParts.

Module FlightConfig.

Import FlightPhysics.







End FlightConfig.

(** ** Economy: markets and missions *)

Module Economy.

Record Commodity : Type := mkCommodity {
  c_id : string;
  c_name : string;
  basePrice : R;
  weight : R;
  volume : R;
  heatSensitive : bool
}.

Definition COMMODITIES : list Commodity :=
  [ mkCommodity "fish" "Fresh Fish" 50 2 3 false;
    mkCommodity "tools" "Mining Tools" 120 5 4 false;
    mkCommodity "medicine" "Medical Supplies" 200 1 2 true;
    mkCommodity "electronics" "Electronics" 180 1.5 2 false;
    mkCommodity "food" "Preserved Food" 40 3 3 false;
    mkCommodity "textiles" "Textiles" 60 1 5 false;
    mkCommodity "fuel" "Aviation Fuel" 90 4 3 false;
    mkCommodity "mail" "Priority Mail" 30 0.5 1 false;
    mkCommodity "gems" "Gemstones" 500 0.3 0.5 false;
    mkCommodity "parts" "Spare Parts" 150 3 4 false ].

(** An entry of [ap.market]. *)
Record MarketItem : Type := mkItem {
  commodity : Commodity;
  buyPrice : R;
  sellPrice : R;
  stock : Z;
  maxStock : Z
}.

(** An airport as the economy holds it: the record of the world, with the
    [market] object attached to it (own properties only). *)
Record Port : Type := mkPort {
  airport : Airport;
  market : gmap string MarketItem
}.

(** A mission object; the descriptive fields (type, cargo, destination
    name) play no part in the operations below. *)
Record Mission : Type := mkMission {
  m_id : string;
  m_fromAirport : nat;
  m_toAirport : nat;
  m_reward : R;
  m_penalty : R;
  m_timeLimit : option R;
  m_timeRemaining : option R;
  m_expiresAt : R;
  m_accepted : bool
}.

(** The economy: mission objects live in [store]; the [missions] array and
    [activeMission] hold references into it, so that the active mission and
    its entry in the array are one object. *)
Record t : Type := mk {
  airports : list Port;
  store : list Mission;
  missions : list nat;
  activeMission : option nat
}.

Inductive Event : Type :=
| mission_failed (m : Mission) (penalty : option R) (reason : string)
| mission_complete (reward : R) (m : Mission).

Record Purchase : Type := mkPurchase {
  pu_commodityId : string;
  pu_name : string;
  pu_cost : R;
  pu_weight : R;
  pu_volume : R
}.

Record Sale : Type := mkSale {
  sa_commodityId : string;
  sa_revenue : R
}.

Definition isPort (airportId : nat) (p : Port) : bool :=
  Nat.eqb (ap_id (airport p)) airportId.

(** [this.airports.find(a => a.id === airportId)]. *)
Definition findPort (e : t) (airportId : nat) : option Port :=
  find (isPort airportId) (airports e).

(** A write to the object [find] returned: the first match is replaced. *)
Fixpoint replacePort (airportId : nat) (p' : Port) (ps : list Port) : list Port :=
  match ps with
  | [] => []
  | p :: rest =>
      if isPort airportId p then p' :: rest
      else p :: replacePort airportId p' rest
  end.

Definition set_airports (ps : list Port) (e : t) : t :=
  mk ps (store e) (missions e) (activeMission e).

Definition set_stock (n : Z) (i : MarketItem) : MarketItem :=
  mkItem (commodity i) (buyPrice i) (sellPrice i) n (maxStock i).

Definition buyCommodity (airportId : nat) (commodityId : string) (money : R) (e : t)
    : t * option Purchase :=
  match findPort e airportId with
  | None => (e, None)
  | Some ap =>
      match market ap !! commodityId with
      | None => (e, None)
      | Some item =>
          if (stock item <=? 0)%Z then (e, None)
          else if Rltb money (buyPrice item) then (e, None)
          else
            let item' := set_stock (stock item - 1) item in
            let ap' := mkPort (airport ap) (<[ commodityId := item' ]> (market ap)) in
            (set_airports (replacePort airportId ap' (airports e)) e,
             Some (mkPurchase commodityId (c_name (commodity item)) (buyPrice item)
                     (weight (commodity item)) (volume (commodity item))))
      end
  end.

Definition sellCommodity (airportId : nat) (commodityId : string) (e : t)
    : t * option Sale :=
  match findPort e airportId with
  | None => (e, None)
  | Some ap =>
      match market ap !! commodityId with
      | Some item =>
          let item' := set_stock (stock item + 1) item in
          let ap' := mkPort (airport ap) (<[ commodityId := item' ]> (market ap)) in
          (set_airports (replacePort airportId ap' (airports e)) e,
           Some (mkSale commodityId (sellPrice item)))
      | None =>
          let comm := find (fun c => String.eqb (c_id c) commodityId) COMMODITIES in
          let sellPrice :=
            match comm with
            | Some c => js_round (basePrice c * 0.4)
            | None => 10
            end in
          (e, Some (mkSale commodityId sellPrice))
      end
  end.

(** [getMarket]: the market of the airport, or the empty object. *)
Definition getMarket (airportId : nat) (e : t) : gmap string MarketItem :=
  match findPort e airportId with
  | Some ap => market ap
  | None => ∅
  end.

(** Missions.  A test on a mission reference reads the object it points
    to; a reference outside the store fails every test. *)
Definition test (e : t) (f : Mission -> bool) (r : nat) : bool :=
  match store e !! r with
  | Some m => f m
  | None => false
  end.

Definition set_accepted (b : bool) (m : Mission) : Mission :=
  mkMission (m_id m) (m_fromAirport m) (m_toAirport m) (m_reward m) (m_penalty m)
            (m_timeLimit m) (m_timeRemaining m) (m_expiresAt m) b.

Definition set_timeRemaining (tr : option R) (m : Mission) : Mission :=
  mkMission (m_id m) (m_fromAirport m) (m_toAirport m) (m_reward m) (m_penalty m)
            (m_timeLimit m) tr (m_expiresAt m) (m_accepted m).

Definition acceptMission (missionId : string) (e : t) : t * bool :=
  match find (test e (fun m => String.eqb (m_id m) missionId)) (missions e) with
  | None => (e, false)
  | Some r =>
      match store e !! r with
      | None => (e, false)
      | Some mission =>
          if m_accepted mission then (e, false)
          else
            match activeMission e with
            | Some _ => (e, false)
            | None =>
                (mk (airports e) (<[ r := set_accepted true mission ]> (store e))
                    (missions e) (Some r),
                 true)
            end
      end
  end.

(** [if (this.activeMission.timeLimit)]: neither [null] nor 0. *)
Definition hasTimeLimit (m : Mission) : bool :=
  match m_timeLimit m with
  | Some l => if Req_dec_T l 0 then false else true
  | None => false
  end.

(** [update(dt)]; [now] is the reading of [Date.now()]. *)
Definition update (dt now : R) (e : t) : t * option Event :=
  let '(e1, timedOut) :=
    match activeMission e with
    | Some r =>
        match store e !! r with
        | Some m =>
            if hasTimeLimit m then
              let m' := set_timeRemaining
                          (Some (default 0 (m_timeRemaining m) - dt)) m in
              let e' := mk (airports e) (<[ r := m' ]> (store e))
                           (missions e) (activeMission e) in
              if Rleb (default 0 (m_timeRemaining m')) 0
              then (e', Some (mission_failed m' None "timeout"))
              else (e', None)
            else (e, None)
        | None => (e, None)
        end
    | None => (e, None)
    end in
  match timedOut with
  | Some ev => (e1, Some ev)
  | None =>
      (mk (airports e1) (store e1)
          (filter (fun r => test e1 (fun m => m_accepted m || Rgtb (m_expiresAt m) now) r
                            = true)
                  (missions e1))
          (activeMission e1),
       None)
  end.

(** [this.missions.filter(m => m.id !== mission.id)]. *)
Definition dropId (e : t) (id : string) : list nat :=
  filter (fun r => test e (fun m => negb (String.eqb (m_id m) id)) r = true)
         (missions e).

Definition completeMission (airportId : nat) (e : t) : t * option Event :=
  match activeMission e with
  | None => (e, None)
  | Some r =>
      match store e !! r with
      | None => (e, None)
      | Some mission =>
          if negb (Nat.eqb (m_toAirport mission) airportId) then (e, None)
          else
            (mk (airports e) (store e) (dropId e (m_id mission)) None,
             Some (mission_complete (m_reward mission) mission))
      end
  end.

Definition failMission (reason : string) (e : t) : t * option Event :=
  match activeMission e with
  | None => (e, None)
  | Some r =>
      match store e !! r with
      | None => (e, None)
      | Some mission =>
          (mk (airports e) (store e) (dropId e (m_id mission)) None,
           Some (mission_failed mission (Some (m_penalty mission)) reason))
      end
  end.

Definition getAvailableMissions (airportId : nat) (now : R) (e : t) : list nat :=
  filter (fun r =>
            test e (fun m => Nat.eqb (m_fromAirport m) airportId
                             && negb (m_accepted m)
                             && Rgtb (m_expiresAt m) now) r = true)
         (missions e).

(** *** Well-formed economies *)

(** Every reference points into the store, and an active mission is marked
    accepted. *)
Definition wellFormed (e : t) : Prop :=
  Forall (fun r => (r < List.length (store e))%nat) (missions e)
  /\ match activeMission e with
     | Some r => exists m, store e !! r = Some m /\ m_accepted m = true
     | None => True
     end.

(** No market holds a negative stock. *)
Definition stocked (e : t) : Prop :=
  Forall (fun p => map_Forall (fun _ i => (0 <= stock i)%Z) (market p)) (airports e).

End Economy.

(** ** Predicates on noise fields and generated values *)

Module Ranges.

(** A field whose gradient components all lie in [-1, 1], as the
    [(cos a, sin a)] pairs of [_init] do. *)
Definition boundedGradients (n : PerlinNoise.t) : Prop :=
  forall i : Z,
    -1 <= fst (PerlinNoise.grad_at n i) <= 1
    /\ -1 <= snd (PerlinNoise.grad_at n i) <= 1.

Definition boundedGradient (g : R * R) : Prop :=
  -1 <= fst g <= 1 /\ -1 <= snd g <= 1.

(** An airport record as [_createAirportData] fills it from the fields
    [tn], [bn], [inl]. *)
Definition airportFilled (tn bn inl : PerlinNoise.t) (a : Airport) : Prop :=
  ap_elevation a = Rmax (getTerrainHeight (ap_x a) (ap_z a) tn bn inl) 5
  /\ ap_length a = 200 /\ ap_width a = 30
  /\ ap_biome a = getBiome (ap_x a) (ap_z a) tn bn inl
  /\ ap_name a = nth (ap_id a mod 16) World.names EmptyString.

(** Heading and distance from the origin that a regular generator gives. *)
Definition airportInReach (a : Airport) : Prop :=
  0 <= ap_heading a < PI
  /\ sqrt (ap_x a * ap_x a + ap_z a * ap_z a) < 7500.

(** The parameter intervals of [_generateThermals], by biome tag. *)
Definition thermalInRange (th : Thermal) : Prop :=
  match th_biome th with
  | PLAINS =>
      2 <= th_strength th < 5 /\ 80 <= th_radius th < 200
      /\ 1500 <= th_maxAlt th < 2000 /\ 25 <= th_temperature th < 35
      /\ 0 <= th_turbulence th < 0.3
  | MOUNTAINS =>
      3 <= th_strength th < 7 /\ 60 <= th_radius th < 160
      /\ 3000 <= th_maxAlt th < 4000 /\ 20 <= th_temperature th < 28
      /\ 0 <= th_turbulence th < 0.3
  | ISLAND =>
      6 <= th_strength th < 12 /\ 40 <= th_radius th < 100
      /\ 4000 <= th_maxAlt th < 5000 /\ 40 <= th_temperature th < 55
      /\ 0.5 <= th_turbulence th < 1
  | _ => False
  end.

(** A thermal record as [_generateThermals] fills it. *)
Definition thermalFilled (tn bn inl : PerlinNoise.t) (th : Thermal) : Prop :=
  th_biome th = getBiome (th_x th) (th_z th) tn bn inl
  /\ th_biome th <> OCEAN
  /\ th_active th = true.

End Ranges.

(** ** Measures and invariants used by the properties *)

Module Measures.

Import THREE World FlightPhysics.

(** The airport list as [_generateAirports] builds it: ids count up from 0,
    every record is filled from the fields, and only the first airport may
    lie in the ocean. *)
Definition recordsOk (tn bn inl : PerlinNoise.t) (aps : list Airport) : Prop :=
  map ap_id aps = seq 0 (List.length aps)
  /\ Forall (Ranges.airportFilled tn bn inl) aps
  /\ Forall (fun a => ap_biome a <> OCEAN) (tail aps).

(** The accumulator of [getThermalLift] stays in these intervals. *)
Definition accOk (acc : Acc) : Prop :=
  0 <= totalLift acc /\ 15 <= maxTemp acc < 55 /\ 0 <= accTurbulence acc < 1.

(** The angle of attack in the words of the specification: the angle, in
    radians in [0, pi], between the velocity and the direction of the nose,
    the -z axis carried by the orientation.  These follow the geometry, not
    [getAngleOfAttack], and are compared with it below. *)
Definition angleBetween (u v : Vector3) : R :=
  acos (dot u v / (length u * length v)).

Definition nose (s : t) : Vector3 :=
  applyQuaternion (vec3 0 0 (-1)) (orientation s).

Definition attackAngle (s : t) : R := angleBetween (velocity s) (nose s).

(** Squared norm of a quaternion. *)
Definition qnorm2 (q : Quaternion) : R :=
  qx q * qx q + qy q * qy q + qz q * qz q + qw q * qw q.

(** Either the thrust is over, or it is on with at most [r] seconds left. *)
Definition thrusting (s : t) (r : R) : Prop :=
  (isLaunching s = false /\ launchThrust s = 0)
  \/ (isLaunching s = true /\ 0 < launchTimer s <= r).

(** The four outcomes of the ground block. *)
Inductive outcome (world : option World.t) (s : t) : t -> string -> Prop :=
| out_flying :
    (world = None
     \/ exists w, world = Some w
          /\ World.getHeightAt w (x (position s)) (z (position s)) + 1
             < y (position s)) ->
    outcome world s s "flying"
| out_landing w ap s' :
    world = Some w ->
    World.getAirportAt w (x (position s)) (y (position s)) (z (position s)) = Some ap ->
    landed s' = landed s -> crashed s' = crashed s ->
    velocity s' = multiplyScalar (velocity s) 0.95 ->
    position s' = vec3 (x (position s)) (ap_elevation ap + 1) (z (position s)) ->
    outcome world s s' "landing"
| out_landed w ap s' :
    world = Some w ->
    World.getAirportAt w (x (position s)) (y (position s)) (z (position s)) = Some ap ->
    landed s' = true -> crashed s' = crashed s ->
    velocity s' = vec3 0 0 0 ->
    position s' = vec3 (x (position s)) (ap_elevation ap + 1) (z (position s)) ->
    outcome world s s' "landed"
| out_crashed w s' :
    world = Some w ->
    y (position s) <= World.getHeightAt w (x (position s)) (z (position s)) + 1 ->
    (World.getAirportAt w (x (position s)) (y (position s)) (z (position s)) = None
     \/ 2 <= Rabs (verticalSpeed s) \/ 40 <= speedKmh s) ->
    landed s' = landed s -> crashed s' = true ->
    velocity s' = vec3 0 0 0 ->
    position s'
    = vec3 (x (position s))
           (World.getHeightAt w (x (position s)) (z (position s)) + 2)
           (z (position s)) ->
    outcome world s s' "crashed".

End Measures.

(** * Properties *)

(** ** Comparisons and biome tags *)

Lemma Rltb_true a b : Rltb a b = true <-> a < b.
Proof. unfold Rltb. destruct (Rlt_dec a b); split; intros; auto; discriminate. Qed.

Lemma Rltb_false a b : Rltb a b = false <-> b <= a.
Proof.
  unfold Rltb. destruct (Rlt_dec a b); split; intros; auto; try discriminate; lra.
Qed.

Lemma Rleb_true a b : Rleb a b = true <-> a <= b.
Proof. unfold Rleb. destruct (Rle_dec a b); split; intros; auto; discriminate. Qed.

Lemma Rleb_false a b : Rleb a b = false <-> b < a.
Proof.
  unfold Rleb. destruct (Rle_dec a b); split; intros; auto; try discriminate; lra.
Qed.

Lemma Rgtb_true a b : Rgtb a b = true <-> b < a.
Proof. apply Rltb_true. Qed.

Lemma Rgtb_false a b : Rgtb a b = false <-> a <= b.
Proof. apply Rltb_false. Qed.

Lemma BIOME_eqb_eq a b : BIOME_eqb a b = true <-> a = b.
Proof. destruct a, b; simpl; split; intros; congruence. Qed.

(** ** The random stream *)

Module SeededRandomFacts.

Import SeededRandom.

Open Scope Z_scope.

Lemma multiplier_coprime : Z.gcd M A = 1.
Proof. vm_compute. reflexivity. Qed.

Lemma step_range (s : Z) : regular s -> 1 <= step s <= M - 1.
Proof.
  intros [Hpos Hnz]. unfold step.
  rewrite Z.add_0_r.
  assert (HA : 0 < A) by (unfold A; lia).
  assert (HM : 0 < M) by (unfold M; lia).
  rewrite Z.rem_mod_nonneg by nia.
  pose proof (Z.mod_pos_bound (s * A) M HM) as Hb.
  assert (Hne : (s * A) mod M <> 0).
  { intros H0. apply Hnz.
    apply Z.mod_divide in H0; [| lia].
    apply Z.mod_divide; [lia |].
    rewrite Z.mul_comm in H0.
    apply Z.gauss with (m := A); [exact H0 | exact multiplier_coprime]. }
  lia.
Qed.

Lemma step_regular (s : Z) : regular s -> regular (step s).
Proof.
  intros H. pose proof (step_range s H) as Hr. split; [lia |].
  rewrite Z.mod_small by lia. lia.
Qed.

Lemma state_after_regular (n : nat) : forall s, regular s -> regular (state_after n s).
Proof.
  induction n as [| n IH]; intros s H; simpl; [exact H |].
  apply IH, step_regular, H.
Qed.

Close Scope Z_scope.

Lemma next_value_range (s : Z) : regular s -> 0 <= fst (next s) < 1.
Proof.
  intros H. pose proof (step_range s H) as [Hlo Hhi].
  unfold next; simpl.
  assert (H1 : 0 <= IZR (step s - 1)) by (apply IZR_le; lia).
  assert (H2 : IZR (step s - 1) <= 2147483645)
    by (apply IZR_le; unfold M in Hhi; lia).
  split.
  - apply Rmult_le_pos; [exact H1 |].
    apply Rlt_le, Rinv_0_lt_compat; lra.
  - apply Rmult_lt_reg_r with (r := 2147483646); [lra |].
    unfold Rdiv. rewrite Rmult_assoc, Rinv_l by lra. lra.
Qed.

End SeededRandomFacts.

(** The first states from seed 1 are those of the minimal-standard
    generator. *)
Example minstd_states :
  map (fun n => SeededRandom.state_after n 1) [1; 2; 3]%nat
  = [16807; 282475249; 1622650073]%Z.
Proof. vm_compute. reflexivity. Qed.

(** A negative seed keeps the state, and so the draws, negative. *)
Example negative_seed_draw : fst (SeededRandom.next (-1)%Z) < 0.
Proof.
  unfold SeededRandom.next, SeededRandom.step; simpl.
  replace ((-1 * SeededRandom.A + 0) `rem` SeededRandom.M - 1)%Z with (-16808)%Z
    by reflexivity.
  lra.
Qed.

(** The swap of the shuffle when the drawn index is -1: the read gives
    [undefined], stored as 0, and the write to index -1 is dropped. *)
Example swap_out_of_range :
  PerlinNoise.swap [1; 2; 3]%Z 2%Z (-1)%Z = [1; 2; 0]%Z.
Proof. reflexivity. Qed.

Example swap_in_range :
  PerlinNoise.swap [1; 2; 3]%Z 2%Z 0%Z = [3; 2; 1]%Z.
Proof. reflexivity. Qed.

(** C2, as stated, fails: a generator built with seed 0 stays at 0, and its
    first draw is [(0 - 1) / 2147483646], below 0. *)
Lemma C2_seed_zero_draw_negative :
  ~ (0 <= SeededRandom.nth_value 1 0 < 1).
Proof.
  unfold SeededRandom.nth_value, SeededRandom.next, SeededRandom.step; simpl.
  replace ((0 * SeededRandom.A + 0) `rem` SeededRandom.M - 1)%Z with (-1)%Z
    by reflexivity.
  intros [H _]. lra.
Qed.

(** C2, amended: for every integer seed that is positive, not a multiple of
    2147483647, and small enough for the first product [seed * 16807] to be
    exact in a double, the n-th value returned by [next()], n >= 1, lies in
    the half-open interval [0,1). *)
Theorem C2_next_in_unit_interval (seed : Z) (n : nat) :
  (0 < seed)%Z ->
  (seed mod 2147483647 <> 0)%Z ->
  (seed * 16807 <= 2 ^ 53)%Z ->
  (1 <= n)%nat ->
  0 <= SeededRandom.nth_value n seed < 1.
Proof.
  intros Hpos Hnz _ _.
  unfold SeededRandom.nth_value.
  apply SeededRandomFacts.next_value_range.
  apply SeededRandomFacts.state_after_regular.
  split; assumption.
Qed.

Lemma C2_next_in_unit_interval_witness :
  0 <= SeededRandom.nth_value 3 12345 < 1.
Proof.
  apply (C2_next_in_unit_interval 12345 3); [lia | vm_compute; discriminate | lia | lia].
Defined.

(** ** Terrain height *)

(** C4: for every (x,z) and any three noise fields, [getTerrainHeight]
    returns exactly -2 where the biome is Ocean, and exactly
    [(base*0.5+0.5)*40 + detail*10 + 5] where the biome is Plains, with
    [base = terrainNoise.fbm(x*0.001, z*0.001, 6)] and
    [detail = terrainNoise.fbm(x*0.005, z*0.005, 3) * 0.15]. *)
Theorem C4_terrain_height_ocean_plains
    (x z : R) (terrainNoise biomeNoise islandNoise : PerlinNoise.t) :
  let base := PerlinNoise.fbm terrainNoise (x * 0.001) (z * 0.001) 6 in
  let detail := PerlinNoise.fbm terrainNoise (x * 0.005) (z * 0.005) 3 * 0.15 in
  (getBiome x z terrainNoise biomeNoise islandNoise = OCEAN ->
   getTerrainHeight x z terrainNoise biomeNoise islandNoise = -2) /\
  (getBiome x z terrainNoise biomeNoise islandNoise = PLAINS ->
   getTerrainHeight x z terrainNoise biomeNoise islandNoise
   = (base * 0.5 + 0.5) * 40 + detail * 10 + 5).
Proof.
  intros base detail. unfold getTerrainHeight.
  split; intros Hb; rewrite Hb; reflexivity.
Qed.

(** ** Thermal lift *)

Module ThermalFacts.

Import World.


Lemma step_totalLift x y z acc th :
  totalLift (thermal_step x y z acc th) = totalLift acc + liftTerm x y z th.
Proof.
  unfold liftTerm, thermal_step.
  destruct (Rltb _ _ && Rltb _ _); simpl; lra.
Qed.


Lemma fold_totalLift x y z ths : forall acc,
  totalLift (fold_left (thermal_step x y z) ths acc)
  = totalLift acc + liftSum x y z ths.
Proof.
  induction ths as [| th ths IH]; intros acc; simpl.
  - lra.
  - rewrite IH, step_totalLift. lra.
Qed.

Lemma liftSum_app x y z l1 l2 :
  liftSum x y z (l1 ++ l2) = liftSum x y z l1 + liftSum x y z l2.
Proof.
  induction l1 as [| a l1 IH]; simpl; [lra |]. rewrite IH. lra.
Qed.

(** Away from the Ocean, the lift is the sum of the thermals' terms, plus
    the ridge lift in the Mountains. *)
Lemma lift_decomposition w x y z :
  getBiomeAt w x z <> OCEAN ->
  lift (getThermalLift w x y z)
  = liftSum x y z (thermals w)
    + (if BIOME_eqb (getBiomeAt w x z) MOUNTAINS then _getRidgeLift w x y z else 0).
Proof.
  intros Hb. unfold getThermalLift, getBiomeAt in *.
  destruct (getBiome x z _ _ _) eqn:E; try congruence; simpl;
    rewrite fold_totalLift; simpl; lra.
Qed.

Lemma liftTerm_outside x y z th :
  th_radius th <= sqrt ((x - th_x th) * (x - th_x th) + (z - th_z th) * (z - th_z th)) ->
  liftTerm x y z th = 0.
Proof.
  intros H. unfold liftTerm, thermal_step.
  apply Rltb_false in H. rewrite H. reflexivity.
Qed.

Lemma liftTerm_centre x y z th :
  sqrt ((x - th_x th) * (x - th_x th) + (z - th_z th) * (z - th_z th)) = 0 ->
  0 < th_radius th ->
  0 < th_strength th ->
  0 <= y < th_maxAlt th ->
  0 < liftTerm x y z th.
Proof.
  intros Hd Hr Hs [Hy0 Hy1]. unfold liftTerm, thermal_step.
  rewrite Hd.
  apply Rltb_true in Hr. apply Rltb_true in Hy1 as Hy1'. rewrite Hr, Hy1'. simpl.
  rewrite Rplus_0_l.
  assert (Hm : 0 < th_maxAlt th) by lra.
  assert (Halt : 0 < 1 - y / th_maxAlt th).
  { assert (y / th_maxAlt th < 1); [| lra].
    apply Rmult_lt_reg_r with (r := th_maxAlt th); [exact Hm |].
    unfold Rdiv. rewrite Rmult_assoc, Rinv_l by lra. lra. }
  rewrite Rmax_right by lra.
  apply Rmult_lt_0_compat; [| exact Halt].
  apply Rmult_lt_0_compat; [exact Hs | apply exp_pos].
Qed.

End ThermalFacts.

(** C5: at a query point whose biome is Ocean, [getThermalLift] returns
    exactly lift -1.5, temperature 12 and turbulence 0.1, at every altitude
    and whatever thermals the world holds. *)
Theorem C5_ocean_sink (w : World.t) (x y z : R) :
  World.getBiomeAt w x z = OCEAN ->
  World.getThermalLift w x y z = mkLift (-1.5) 12 0.1.
Proof.
  unfold World.getBiomeAt, World.getThermalLift. intros H. rewrite H. reflexivity.
Qed.

(** C6, amended: at a query point that is not Ocean, a thermal of radius R
    changes the lift total of [getThermalLift] by 0 when the planar distance
    from its centre is at least R, and, when R is positive, by a strictly
    positive amount at planar distance 0 when its strength is positive and
    the altitude y satisfies 0 <= y < maxAlt.  The change is measured
    against the same world without that thermal. *)
Theorem C6_thermal_falloff
    (w : World.t) (before after : list Thermal) (th : Thermal) (x y z : R) :
  World.thermals w = before ++ th :: after ->
  World.getBiomeAt w x z <> OCEAN ->
  let dist :=
    sqrt ((x - th_x th) * (x - th_x th) + (z - th_z th) * (z - th_z th)) in
  let contribution :=
    lift (World.getThermalLift w x y z)
    - lift (World.getThermalLift (World.withThermals w (before ++ after)) x y z) in
  (th_radius th <= dist -> contribution = 0) /\
  (dist = 0 -> 0 < th_radius th -> 0 < th_strength th ->
   0 <= y < th_maxAlt th -> 0 < contribution).
Proof.
  intros Hths Hb dist contribution.
  assert (Hc : contribution = World.liftTerm x y z th).
  { unfold contribution.
    rewrite !ThermalFacts.lift_decomposition by exact Hb.
    rewrite Hths. simpl World.thermals.
    rewrite !ThermalFacts.liftSum_app. simpl.
    change (World.getBiomeAt (World.withThermals w (before ++ after)) x z)
      with (World.getBiomeAt w x z).
    change (World._getRidgeLift (World.withThermals w (before ++ after)) x y z)
      with (World._getRidgeLift w x y z).
    lra. }
  rewrite Hc. split.
  - intros H. apply ThermalFacts.liftTerm_outside. exact H.
  - intros Hd Hr Hs Hy. apply ThermalFacts.liftTerm_centre; assumption.
Qed.

(** ** Noise fields with one gradient everywhere *)

Module NoiseFacts.

Import PerlinNoise Examples.

Lemma land_255_range (i : Z) : (0 <= Z.land i 255 < 256)%Z.
Proof.
  change 255%Z with (Z.ones 8). rewrite Z.land_ones by lia.
  apply Z.mod_pos_bound. lia.
Qed.

Lemma grad_at_const g gi : grad_at (constField g) (Z.land gi 255) = g.
Proof.
  unfold grad_at, constField; cbn [grad].
  pose proof (land_255_range gi) as H.
  rewrite lookup_replicate_2 by lia. reflexivity.
Qed.

Lemma dot_const g gi x y : _dot (constField g) gi x y = fst g * x + snd g * y.
Proof. unfold _dot. rewrite grad_at_const. reflexivity. Qed.

Lemma noise2D_const g x y :
  noise2D (constField g) x y
  = fst g * ((x - IZR (Zfloor x)) - _fade (x - IZR (Zfloor x)))
    + snd g * ((y - IZR (Zfloor y)) - _fade (y - IZR (Zfloor y))).
Proof.
  unfold noise2D. rewrite !dot_const. unfold _lerp. ring.
Qed.

Lemma noise2D_flat x y : noise2D flatField x y = 0.
Proof. unfold flatField. rewrite noise2D_const. simpl. ring. Qed.

Lemma fbm_loop_flat lac gain octaves : forall x y amp freq maxAmp,
  fst (fbm_loop flatField x y lac gain octaves 0 amp freq maxAmp) = 0.
Proof.
  induction octaves as [| k IH]; intros; simpl; [reflexivity |].
  rewrite noise2D_flat.
  replace (0 + 0 * amp) with 0 by ring. apply IH.
Qed.

Lemma fbm_flat x y octaves : fbm flatField x y octaves = 0.
Proof.
  unfold fbm, fbm_full.
  pose proof (fbm_loop_flat 2 0.5 octaves x y 1 1 0) as H.
  destruct (fbm_loop _ _ _ _ _ _ _ _ _ _) as [s m]. simpl in H. subst s.
  unfold Rdiv. ring.
Qed.

(** With flat terrain and biome fields every point is Plains at height 25. *)
Lemma flat_biome x z inl : getBiome x z flatField flatField inl = PLAINS.
Proof.
  unfold getBiome. rewrite !fbm_flat.
  assert (H1 : Rltb 0 (-0.15) = false) by (apply Rltb_false; lra).
  assert (H2 : Rgtb 0 0.3 = false) by (apply Rgtb_false; lra).
  rewrite H1, H2. reflexivity.
Qed.

Lemma flat_height x z inl : getTerrainHeight x z flatField flatField inl = 25.
Proof.
  unfold getTerrainHeight. rewrite flat_biome, !fbm_flat. lra.
Qed.

(** The biome value of the slope field at the Ocean point. *)
Lemma slope_fbm_value :
  fbm slopeField (2500 / 3 * 0.0003) (0 * 0.0003) 4 < -0.15.
Proof.
  replace (2500 / 3 * 0.0003) with 0.25 by lra.
  unfold fbm, fbm_full, slopeField; simpl.
  rewrite !noise2D_const; simpl.
  assert (F1 : Zfloor (0.25 * 1) = 0%Z) by (apply Zfloor_eq; simpl; lra).
  assert (F2 : Zfloor (0.25 * (1 * 2)) = 0%Z) by (apply Zfloor_eq; simpl; lra).
  assert (F3 : Zfloor (0.25 * (1 * 2 * 2)) = 1%Z) by (apply Zfloor_eq; simpl; lra).
  assert (F4 : Zfloor (0.25 * (1 * 2 * 2 * 2)) = 2%Z) by (apply Zfloor_eq; simpl; lra).
  rewrite F1, F2, F3, F4. unfold _fade. lra.
Qed.

Lemma sea_biome : getBiome (2500 / 3) 0 flatField slopeField flatField = OCEAN.
Proof.
  unfold getBiome.
  pose proof slope_fbm_value as H. apply Rltb_true in H. rewrite H.
  rewrite fbm_flat.
  assert (H2 : Rgtb 0 0.25 = false) by (apply Rgtb_false; lra).
  rewrite H2. reflexivity.
Qed.

End NoiseFacts.

Lemma C4_terrain_height_ocean_plains_witness :
  getTerrainHeight (2500 / 3) 0 Examples.flatField Examples.slopeField
                   Examples.flatField = -2
  /\ getTerrainHeight 0 0 Examples.flatField Examples.flatField Examples.flatField
     = (PerlinNoise.fbm Examples.flatField (0 * 0.001) (0 * 0.001) 6 * 0.5 + 0.5) * 40
       + PerlinNoise.fbm Examples.flatField (0 * 0.005) (0 * 0.005) 3 * 0.15 * 10 + 5.
Proof.
  split.
  - apply (proj1 (C4_terrain_height_ocean_plains (2500 / 3) 0 Examples.flatField
                    Examples.slopeField Examples.flatField)).
    exact NoiseFacts.sea_biome.
  - apply (proj2 (C4_terrain_height_ocean_plains 0 0 Examples.flatField
                    Examples.flatField Examples.flatField)).
    apply NoiseFacts.flat_biome.
Defined.

Lemma C5_ocean_sink_witness :
  World.getThermalLift Examples.seaWorld (2500 / 3) 100 0 = mkLift (-1.5) 12 0.1.
Proof.
  apply (C5_ocean_sink Examples.seaWorld (2500 / 3) 100 0).
  exact NoiseFacts.sea_biome.
Defined.

Lemma C6_thermal_falloff_witness :
  lift (World.getThermalLift Examples.flatWorld 200 100 0)
  - lift (World.getThermalLift (World.withThermals Examples.flatWorld []) 200 100 0)
  = 0
  /\ 0 < lift (World.getThermalLift Examples.flatWorld 0 100 0)
         - lift (World.getThermalLift (World.withThermals Examples.flatWorld []) 0 100 0).
Proof.
  assert (Hb : forall x z, World.getBiomeAt Examples.flatWorld x z <> OCEAN).
  { intros x z. unfold World.getBiomeAt; simpl.
    rewrite NoiseFacts.flat_biome. discriminate. }
  split.
  - apply (proj1 (C6_thermal_falloff Examples.flatWorld [] [] Examples.vent
                    200 100 0 eq_refl (Hb 200 0))).
    simpl.
    replace ((200 - 0) * (200 - 0) + (0 - 0) * (0 - 0)) with (200 * 200) by ring.
    rewrite sqrt_square by lra. lra.
  - apply (proj2 (C6_thermal_falloff Examples.flatWorld [] [] Examples.vent
                    0 100 0 eq_refl (Hb 0 0))).
    + simpl.
      replace ((0 - 0) * (0 - 0) + (0 - 0) * (0 - 0)) with 0 by ring.
      apply sqrt_0.
    + simpl; lra.
    + simpl; lra.
    + simpl; lra.
Defined.

(** A generator whose state lies far enough below 0 draws a negative
    radius in the Plains interval of [_generateThermals]. *)
Example negative_state_negative_radius :
  fst (SeededRandom.nextRange 80 200 (-100000)%Z) < 0.
Proof.
  unfold SeededRandom.nextRange, SeededRandom.next, SeededRandom.step, bind, ret.
  cbn [fst snd].
  replace ((-100000 * SeededRandom.A + 0) `rem` SeededRandom.M - 1)%Z
    with (-1680700001)%Z by reflexivity.
  lra.
Qed.

(** C6, as stated, fails for a thermal whose radius is 0 or less, such as
    a generator with negative draws fills: at a Plains point, at the
    thermal's centre (planar distance 0) and at altitude 100, below its
    maxAlt 1300, a thermal of strength 1.1 and radius -16 adds nothing to
    the lift total, because the test [dist < radius] fails. *)
Lemma C6_hollow_thermal_adds_nothing :
  World.getBiomeAt Examples.hollowWorld 0 0 <> OCEAN
  /\ World.thermals Examples.hollowWorld = [Examples.hollowVent]
  /\ 0 < th_strength Examples.hollowVent
  /\ 0 <= 100 < th_maxAlt Examples.hollowVent
  /\ sqrt ((0 - th_x Examples.hollowVent) * (0 - th_x Examples.hollowVent)
           + (0 - th_z Examples.hollowVent) * (0 - th_z Examples.hollowVent)) = 0
  /\ ~ (0 < lift (World.getThermalLift Examples.hollowWorld 0 100 0)
            - lift (World.getThermalLift
                      (World.withThermals Examples.hollowWorld []) 0 100 0)).
Proof.
  assert (Hd : sqrt ((0 - th_x Examples.hollowVent) * (0 - th_x Examples.hollowVent)
                     + (0 - th_z Examples.hollowVent) * (0 - th_z Examples.hollowVent))
               = 0).
  { simpl. replace ((0 - 0) * (0 - 0) + (0 - 0) * (0 - 0)) with 0 by ring.
    apply sqrt_0. }
  assert (Hb : World.getBiomeAt Examples.hollowWorld 0 0 = PLAINS).
  { unfold World.getBiomeAt; simpl. apply NoiseFacts.flat_biome. }
  split; [rewrite Hb; discriminate |].
  split; [reflexivity |].
  split; [simpl; lra |].
  split; [simpl; lra |].
  split; [exact Hd |].
  assert (Hb' : World.getBiomeAt (World.withThermals Examples.hollowWorld []) 0 0
                = PLAINS) by exact Hb.
  rewrite !ThermalFacts.lift_decomposition by (rewrite ?Hb, ?Hb'; discriminate).
  rewrite Hb, Hb'. cbn [World.thermals Examples.hollowWorld World.withThermals
                        World.liftSum fold_right BIOME_eqb].
  rewrite (ThermalFacts.liftTerm_outside 0 100 0 Examples.hollowVent)
    by (rewrite Hd; simpl; lra).
  intros H. simpl in H. lra.
Qed.

(** ** Airport placement *)

Module AirportFacts.

Import World.




Section Loop.

Variables tn bn inl : PerlinNoise.t.






End Loop.

End AirportFacts.


(** ** Determinism of world construction *)

(** C1: for every integer seed, two Worlds constructed with that seed,
    whatever scenes they are given, have the same airports list, the same
    thermals list (every field, same order), and equal [getHeightAt(x,z)]
    and [getBiomeAt(x,z)] at every coordinate. *)
Theorem C1_world_determinism (seed : Z) (scene1 scene2 : Scene) :
  let w1 := fst (World.new scene1 seed) in
  let w2 := fst (World.new scene2 seed) in
  World.airports w1 = World.airports w2
  /\ World.thermals w1 = World.thermals w2
  /\ (forall x z, World.getHeightAt w1 x z = World.getHeightAt w2 x z)
  /\ (forall x z, World.getBiomeAt w1 x z = World.getBiomeAt w2 x z).
Proof.
  intros w1 w2. subst w1 w2. unfold World.new; cbn [fst].
  repeat split; reflexivity.
Qed.

(** ** Launch and reset *)

Module PhysicsFacts.

Import THREE FlightPhysics.


Lemma update_grounded dt world now s :
  landed s = true \/ crashed s = true -> update dt world now s = (s, None).
Proof.
  intros H. unfold update.
  destruct H as [H | H]; rewrite H; [reflexivity |].
  rewrite orb_true_r. reflexivity.
Qed.

Lemma updates_grounded calls : forall s,
  landed s = true \/ crashed s = true -> updates calls s = s.
Proof.
  induction calls as [| [[dt world] now] rest IH]; intros s H; simpl.
  - reflexivity.
  - rewrite update_grounded by exact H. simpl. apply IH, H.
Qed.

End PhysicsFacts.



(** C9: when the landed flag or the crashed flag is true, [update(dt, world)]
    returns the state with every field unchanged; in particular, after
    [resetAt(airport)] any number of [update] calls leaves the state as
    [resetAt] made it. *)
Theorem C9_update_noop_when_grounded
    (s : FlightPhysics.t) (dt : R) (world : option World.t) (now : R) :
  FlightPhysics.landed s = true \/ FlightPhysics.crashed s = true ->
  fst (FlightPhysics.update dt world now s) = s
  /\ (forall (airport : Airport) (calls : list (R * option World.t * R)),
        FlightPhysics.updates calls (FlightPhysics.resetAt airport s)
        = FlightPhysics.resetAt airport s).
Proof.
  intros H. split.
  - rewrite PhysicsFacts.update_grounded by exact H. reflexivity.
  - intros airport calls. apply PhysicsFacts.updates_grounded.
    left. reflexivity.
Qed.

Lemma C9_update_noop_when_grounded_witness :
  fst (FlightPhysics.update (1 / 60) (Some Examples.flatWorld) 0 FlightPhysics.new)
  = FlightPhysics.new.
Proof.
  apply (C9_update_noop_when_grounded FlightPhysics.new (1 / 60)
           (Some Examples.flatWorld) 0).
  left. reflexivity.
Defined.

(** ** The update step *)

Module UpdateFacts.

Import THREE FlightPhysics.


Lemma framed_refl s : framed s s.
Proof. repeat split. Qed.

Lemma framed_trans s1 s2 s3 : framed s1 s2 -> framed s2 s3 -> framed s1 s3.
Proof.
  unfold framed. intros (A1 & A2 & A3 & A4 & A5) (B1 & B2 & B3 & B4 & B5).
  repeat split; congruence.
Qed.

Ltac split_ifs :=
  repeat match goal with
         | |- context [if ?c then _ else _] => destruct c
         end.

Lemma applyControls_framed dt s : framed s (applyControls dt s).
Proof. unfold applyControls. repeat split. Qed.

Lemma launchPhase_framed dt forces s : framed s (snd (launchPhase dt forces s)).
Proof. unfold launchPhase. split_ifs; repeat split. Qed.

Lemma environmentPhase_framed dt world now forces s :
  framed s (snd (environmentPhase dt world now forces s)).
Proof.
  unfold environmentPhase. destruct world as [w |]; [| apply framed_refl].
  cbv zeta. split_ifs; repeat split.
Qed.

Lemma stallPhase_framed dt v aoa s : framed s (stallPhase dt v aoa s).
Proof. unfold stallPhase. split_ifs; repeat split. Qed.

Lemma stallPhase_stalling dt v aoa s :
  stalling (stallPhase dt v aoa s)
  = Rgtb (Rabs (aoa * 180 / PI)) 16 || Rltb v (stallSpeed (config s) * 0.9).
Proof. unfold stallPhase. split_ifs; reflexivity. Qed.

Lemma integratePhase_flags dt forces s :
  stalling (integratePhase dt forces s) = stalling s
  /\ crashed (integratePhase dt forces s) = crashed s
  /\ landed (integratePhase dt forces s) = landed s
  /\ config (integratePhase dt forces s) = config s.
Proof. unfold integratePhase. split_ifs; repeat split. Qed.

Lemma groundPhase_stalling world s :
  stalling (fst (groundPhase world s)) = stalling s.
Proof.
  unfold groundPhase. destruct world as [w |]; [| reflexivity].
  cbv zeta. destruct (World.getAirportAt _ _ _ _); split_ifs; reflexivity.
Qed.

(** The state at the ground test is the integration of the stall block's
    result, and the blocks before that frame the fields above. *)
Lemma beforeGround_shape dt world now s :
  exists forces s2,
    framed s s2
    /\ beforeGround dt world now s
       = integratePhase dt forces
           (stallPhase dt (speed s) (getAngleOfAttack (applyControls dt s)) s2).
Proof.
  unfold beforeGround.
  pose proof (launchPhase_framed dt
                (aeroForces (speed s) (getAngleOfAttack (applyControls dt s))
                            (applyControls dt s))
                (applyControls dt s)) as H1.
  destruct (launchPhase _ _ _) as [f1 s1]. simpl in H1.
  pose proof (environmentPhase_framed dt world now f1 s1) as H2.
  destruct (environmentPhase _ _ _ _ _) as [f2 s2]. simpl in H2.
  exists f2, s2. split; [| reflexivity].
  eapply framed_trans; [apply applyControls_framed |].
  eapply framed_trans; eassumption.
Qed.

Lemma beforeGround_stalling dt world now s :
  stalling (beforeGround dt world now s)
  = Rgtb (Rabs (stallAoa dt s * 180 / PI)) 16
    || Rltb (stallSpeedRead s) (stallSpeed (config s) * 0.9).
Proof.
  destruct (beforeGround_shape dt world now s) as (f & s2 & Hf & ->).
  destruct (integratePhase_flags dt f
              (stallPhase dt (speed s) (getAngleOfAttack (applyControls dt s)) s2))
    as (-> & _).
  rewrite stallPhase_stalling.
  destruct Hf as (_ & _ & -> & _). reflexivity.
Qed.

Lemma beforeGround_crashed dt world now s :
  crashed (beforeGround dt world now s) = crashed s.
Proof.
  destruct (beforeGround_shape dt world now s) as (f & s2 & Hf & ->).
  destruct (integratePhase_flags dt f
              (stallPhase dt (speed s) (getAngleOfAttack (applyControls dt s)) s2))
    as (_ & -> & _).
  destruct (stallPhase_framed dt (speed s)
              (getAngleOfAttack (applyControls dt s)) s2) as (_ & _ & _ & -> & _).
  destruct Hf as (_ & _ & _ & -> & _). reflexivity.
Qed.

Lemma update_flying dt world now s :
  landed s = false -> crashed s = false ->
  update dt world now s
  = (fst (groundPhase world (beforeGround dt world now s)),
     Some (snd (groundPhase world (beforeGround dt world now s)))).
Proof.
  intros Hl Hc. unfold update. rewrite Hl, Hc. simpl.
  destruct (groundPhase _ _). reflexivity.
Qed.

Lemma speed_nonneg s : 0 <= speed s.
Proof. unfold speed, length. apply sqrt_pos. Qed.

End UpdateFacts.

(** ** Vectors and quaternions *)

Module VectorFacts.

Import THREE.

Lemma length_nonneg (v : Vector3) : 0 <= length v.
Proof. unfold length. apply sqrt_pos. Qed.

Lemma length_multiplyScalar (v : Vector3) (k : R) :
  length (multiplyScalar v k) = Rabs k * length v.
Proof.
  unfold length, multiplyScalar; simpl.
  replace (x v * k * (x v * k) + y v * k * (y v * k) + z v * k * (z v * k))
    with (Rsqr k * (x v * x v + y v * y v + z v * z v)) by (unfold Rsqr; ring).
  rewrite sqrt_mult_alt by apply Rle_0_sqr.
  rewrite sqrt_Rsqr_abs. reflexivity.
Qed.

Lemma length_normalize (v : Vector3) :
  length v <> 0 -> length (normalize v) = 1.
Proof.
  intros Hne. unfold normalize, divideScalar.
  destruct (Req_dec_T (length v) 0) as [E | _]; [contradiction |].
  rewrite length_multiplyScalar.
  pose proof (length_nonneg v) as Hpos.
  assert (Hl : 0 < length v) by lra.
  rewrite Rabs_right.
  - unfold Rdiv. rewrite Rmult_1_l. apply Rinv_l. exact Hne.
  - apply Rle_ge. unfold Rdiv. rewrite Rmult_1_l.
    apply Rlt_le, Rinv_0_lt_compat. exact Hl.
Qed.

Lemma qnormalize_unit (q : Quaternion) : Measures.qnorm2 (qnormalize q) = 1.
Proof.
  unfold qnormalize. cbv zeta.
  destruct (Req_dec_T (qlength q) 0) as [E | Hne].
  - unfold Measures.qnorm2; simpl. ring.
  - unfold Measures.qnorm2; simpl.
    assert (Hn : 0 <= qx q * qx q + qy q * qy q + qz q * qz q + qw q * qw q) by nra.
    assert (Hsq : qlength q * qlength q
                  = qx q * qx q + qy q * qy q + qz q * qz q + qw q * qw q).
    { unfold qlength. apply sqrt_sqrt. exact Hn. }
    set (l := qlength q) in *.
    replace (qx q * (1 / l) * (qx q * (1 / l)) + qy q * (1 / l) * (qy q * (1 / l))
             + qz q * (1 / l) * (qz q * (1 / l)) + qw q * (1 / l) * (qw q * (1 / l)))
      with ((qx q * qx q + qy q * qy q + qz q * qz q + qw q * qw q)
            * (/ l * / l)) by (unfold Rdiv; ring).
    rewrite <- Hsq. field. exact Hne.
Qed.



End VectorFacts.

(** ** The angle of attack and the geometry *)

Module AttackFacts.

Import THREE FlightPhysics UpdateFacts.

(** [Math.acos] of the clamped cosine: the clamp changes nothing, since
    [acos] is constant outside [-1, 1]. *)
Lemma acos_clamp (d : R) : acos (Rmin 1 (Rmax (-1) d)) = acos d.
Proof.
  destruct (Rle_dec d (-1)) as [Hlo | Hlo].
  - rewrite Rmax_left by lra. rewrite Rmin_right by lra.
    unfold acos. destruct (Rle_dec (-1) (-1)); [| lra].
    destruct (Rle_dec d (-1)); [reflexivity | lra].
  - destruct (Rle_dec 1 d) as [Hhi | Hhi].
    + rewrite Rmax_right by lra. rewrite Rmin_left by lra.
      unfold acos. destruct (Rle_dec 1 (-1)); [lra |].
      destruct (Rle_dec d (-1)); [lra |].
      destruct (Rle_dec 1 1); [| lra].
      destruct (Rle_dec 1 d); [reflexivity | lra].
    + rewrite Rmax_right by lra. rewrite Rmin_right by lra. reflexivity.
Qed.

(** A unit quaternion carries the -z axis to a unit vector. *)
Lemma nose_unit (q : Quaternion) :
  Measures.qnorm2 q = 1 -> length (applyQuaternion (vec3 0 0 (-1)) q) = 1.
Proof.
  unfold Measures.qnorm2. intros H.
  unfold length, applyQuaternion; simpl.
  match goal with |- sqrt ?e = 1 =>
    replace e
      with (4 * (qx q * qx q + qy q * qy q)
            * (qx q * qx q + qy q * qy q + qz q * qz q + qw q * qw q - 1) + 1)
      by ring
  end.
  rewrite H.
  replace (4 * (qx q * qx q + qy q * qy q) * (1 - 1) + 1) with 1 by ring.
  apply sqrt_1.
Qed.

Lemma dot_normalize (u v : Vector3) :
  length u <> 0 -> length v <> 0 ->
  dot (normalize u) (normalize v) = dot u v / (length u * length v).
Proof.
  intros Hu Hv. unfold normalize, divideScalar.
  destruct (Req_dec_T (length u) 0) as [E | _]; [contradiction |].
  destruct (Req_dec_T (length v) 0) as [E | _]; [contradiction |].
  unfold dot, multiplyScalar; simpl. field. split; assumption.
Qed.

(** From 0.1 m/s up, [getAngleOfAttack] is, up to its sign, the angle
    between the velocity and the nose; below, it is 0. *)
Lemma getAngleOfAttack_geometry (s : t) :
  Measures.qnorm2 (orientation s) = 1 ->
  0.1 <= speed s ->
  Rabs (getAngleOfAttack s) = Measures.attackAngle s.
Proof.
  intros Hq Hv. unfold getAngleOfAttack.
  assert (E : Rltb (speed s) 0.1 = false) by (apply Rltb_false; exact Hv).
  rewrite E. cbv zeta.
  rewrite acos_clamp.
  assert (Hn : length (applyQuaternion (vec3 0 0 (-1)) (orientation s)) = 1)
    by (apply nose_unit; exact Hq).
  unfold forward. rewrite dot_normalize.
  - fold (Measures.nose s).
    fold (Measures.angleBetween (velocity s) (Measures.nose s)).
    fold (Measures.attackAngle s).
    pose proof (acos_bound (dot (velocity s) (Measures.nose s)
                            / (length (velocity s) * length (Measures.nose s))))
      as [Hpos _].
    fold (Measures.angleBetween (velocity s) (Measures.nose s)) in Hpos.
    fold (Measures.attackAngle s) in Hpos.
    destruct (Rgtb _ 0).
    + rewrite Rmult_1_l. apply Rabs_right. lra.
    + replace (-1 * Measures.attackAngle s) with (- Measures.attackAngle s) by ring.
      rewrite Rabs_Ropp. apply Rabs_right. lra.
  - unfold speed in Hv. lra.
  - rewrite Hn. lra.
Qed.

Lemma getAngleOfAttack_slow (s : t) : speed s < 0.1 -> getAngleOfAttack s = 0.
Proof.
  intros Hv. unfold getAngleOfAttack.
  assert (E : Rltb (speed s) 0.1 = true) by (apply Rltb_true; exact Hv).
  rewrite E. reflexivity.
Qed.

Lemma applyControls_attitude (dt : R) (s : t) :
  Measures.qnorm2 (orientation (applyControls dt s)) = 1
  /\ velocity (applyControls dt s) = velocity s.
Proof.
  unfold applyControls. cbv zeta. split; [| reflexivity].
  unfold set_orientation at 1. cbn [orientation].
  apply VectorFacts.qnormalize_unit.
Qed.

(** The angle of the stall test, in degrees. *)
Lemma stallAoa_degrees (dt : R) (s : t) :
  0.1 <= speed s ->
  Rabs (stallAoa dt s * 180 / PI)
  = Measures.attackAngle (applyControls dt s) * 180 / PI.
Proof.
  intros Hv. destruct (applyControls_attitude dt s) as [Hq Hvel].
  unfold stallAoa.
  replace (getAngleOfAttack (applyControls dt s) * 180 / PI)
    with (getAngleOfAttack (applyControls dt s) * (180 / PI))
    by (unfold Rdiv; ring).
  assert (Hk : 0 < 180 / PI).
  { apply Rdiv_lt_0_compat; [lra | apply PI_RGT_0]. }
  rewrite Rabs_mult, (Rabs_right (180 / PI)) by lra.
  rewrite getAngleOfAttack_geometry.
  - unfold Rdiv. ring.
  - exact Hq.
  - unfold speed. rewrite Hvel. exact Hv.
Qed.

(** With neutral controls the attitude of a new aircraft is kept. *)
Lemma applyControls_neutral (dt : R) (s : t) :
  pitchInput s = 0 -> rollInput s = 0 -> yawInput s = 0 ->
  orientation s = identity ->
  orientation (applyControls dt s) = identity.
Proof.
  intros Hp Hr Hy Ho. unfold applyControls. cbv zeta.
  unfold set_orientation, set_angularVelocity. cbn [orientation angularVelocity config].
  rewrite Hp, Hr, Hy, Ho. unfold multiplyScalar. cbn [x y z].
  replace (0 * pitchRate (config s) * dt) with 0 by ring.
  replace (0 * yawRate (config s) * dt) with 0 by ring.
  replace (- (0 * rollRate (config s)) * dt) with 0 by ring.
  unfold setFromEuler. cbv zeta.
  replace (0 / 2) with 0 by lra. rewrite cos_0, sin_0.
  unfold multiply, identity. cbn [qx qy qz qw].
  replace (0 * (1 * 1 * 1 + 0 * 0 * 0) + 1 * (0 * 1 * 1 + 1 * 0 * 0)
           + 0 * (1 * 1 * 0 - 0 * 0 * 1) - 0 * (1 * 0 * 1 - 0 * 1 * 0)) with 0 by ring.
  replace (0 * (1 * 1 * 1 + 0 * 0 * 0) + 1 * (1 * 0 * 1 - 0 * 1 * 0)
           + 0 * (0 * 1 * 1 + 1 * 0 * 0) - 0 * (1 * 1 * 0 - 0 * 0 * 1)) with 0 by ring.
  replace (0 * (1 * 1 * 1 + 0 * 0 * 0) + 1 * (1 * 1 * 0 - 0 * 0 * 1)
           + 0 * (1 * 0 * 1 - 0 * 1 * 0) - 0 * (0 * 1 * 1 + 1 * 0 * 0)) with 0 by ring.
  replace (1 * (1 * 1 * 1 + 0 * 0 * 0) - 0 * (0 * 1 * 1 + 1 * 0 * 0)
           - 0 * (1 * 0 * 1 - 0 * 1 * 0) - 0 * (1 * 1 * 0 - 0 * 0 * 1)) with 1 by ring.
  unfold qnormalize, qlength. cbn [qx qy qz qw].
  replace (0 * 0 + 0 * 0 + 0 * 0 + 1 * 1) with 1 by ring.
  rewrite sqrt_1.
  destruct (Req_dec_T 1 0) as [E | _]; [lra |].
  f_equal; lra.
Qed.

(** The angle between a velocity and the nose of an aircraft whose
    attitude is that of a new aircraft. *)
Lemma attackAngle_level (s : t) :
  orientation s = identity ->
  Measures.attackAngle s
  = acos (- z (velocity s) / length (velocity s)).
Proof.
  intros Ho. unfold Measures.attackAngle, Measures.angleBetween, Measures.nose.
  rewrite Ho. unfold applyQuaternion, identity, dot, length at 2. cbn [x y z qx qy qz qw].
  match goal with |- acos (_ / (_ * sqrt ?e)) = _ =>
    replace e with 1 by ring
  end.
  rewrite sqrt_1. f_equal. unfold Rdiv. rewrite Rmult_1_r. f_equal. ring.
Qed.

Lemma airborne_speed (vx vy vz l : R) :
  0 <= l -> vx * vx + vy * vy + vz * vz = l * l ->
  speed (Examples.airborne (vec3 vx vy vz)) = l.
Proof.
  intros Hl H. unfold speed, length, Examples.airborne. cbn [velocity x y z].
  rewrite H. apply sqrt_square. exact Hl.
Qed.

Lemma alongNose_angle (dt : R) :
  speed Examples.alongNose = 20
  /\ Measures.attackAngle (applyControls dt Examples.alongNose) * 180 / PI = 0.
Proof.
  assert (Hs : speed Examples.alongNose = 20).
  { apply airborne_speed; [lra | ring]. }
  split; [exact Hs |].
  destruct (applyControls_attitude dt Examples.alongNose) as [_ Hv].
  rewrite attackAngle_level
    by (apply applyControls_neutral; reflexivity).
  rewrite Hv. fold (speed Examples.alongNose). rewrite Hs.
  cbn [Examples.alongNose Examples.airborne velocity z].
  replace (- -20 / 20) with 1 by lra.
  rewrite acos_1. unfold Rdiv. ring.
Qed.

Lemma belowNose_angle (dt : R) :
  speed Examples.belowNose = 30
  /\ Measures.attackAngle (applyControls dt Examples.belowNose) * 180 / PI = 20.
Proof.
  pose proof (sin2_cos2 (PI / 9)) as Hsc. unfold Rsqr in Hsc.
  assert (Hs : speed Examples.belowNose = 30).
  { apply airborne_speed; [lra |].
    replace (0 * 0 + - (30 * sin (PI / 9)) * - (30 * sin (PI / 9))
             + - (30 * cos (PI / 9)) * - (30 * cos (PI / 9)))
      with (900 * (sin (PI / 9) * sin (PI / 9) + cos (PI / 9) * cos (PI / 9)))
      by ring.
    rewrite Hsc. ring. }
  split; [exact Hs |].
  destruct (applyControls_attitude dt Examples.belowNose) as [_ Hv].
  rewrite attackAngle_level
    by (apply applyControls_neutral; reflexivity).
  rewrite Hv. fold (speed Examples.belowNose). rewrite Hs.
  cbn [Examples.belowNose Examples.airborne velocity z].
  replace (- - (30 * cos (PI / 9)) / 30) with (cos (PI / 9)) by (field; lra).
  pose proof PI_RGT_0 as Hpi.
  rewrite acos_cos by lra.
  field. lra.
Qed.

End AttackFacts.

(** C7: after an [update] step of an aircraft that is neither landed nor
    crashed, the stalling flag is true if and only if the absolute angle of
    attack exceeds 16 degrees or the speed is below 0.9 times the configured
    stall speed, for the angle and the speed the step reads; in particular
    at attack angle 20 degrees it is true for every speed, and at attack
    angle 0 with speed at or above the stall speed it is false.  The angle
    the step reads is the geometric one: from 0.1 m/s up its absolute value
    is the angle between the velocity and the nose direction after the
    orientation update, and below 0.1 m/s it is 0.  So a velocity at 20
    degrees to the nose sets the flag, and a velocity along the nose with
    speed at or above the stall speed clears it. *)
Theorem C7_stall_flag
    (dt : R) (world : option World.t) (now : R) (s : FlightPhysics.t) :
  FlightPhysics.landed s = false ->
  FlightPhysics.crashed s = false ->
  let s' := fst (FlightPhysics.update dt world now s) in
  let aoaDeg := FlightPhysics.stallAoa dt s * 180 / PI in
  let v := FlightPhysics.stallSpeedRead s in
  let vStall := FlightPhysics.stallSpeed (FlightPhysics.config s) in
  let geomDeg :=
    Measures.attackAngle (FlightPhysics.applyControls dt s) * 180 / PI in
  (FlightPhysics.stalling s' = true <-> (Rabs aoaDeg > 16 \/ v < 0.9 * vStall))
  /\ (aoaDeg = 20 -> FlightPhysics.stalling s' = true)
  /\ (aoaDeg = 0 -> vStall <= v -> FlightPhysics.stalling s' = false)
  /\ (0.1 <= v -> Rabs aoaDeg = geomDeg)
  /\ (v < 0.1 -> aoaDeg = 0)
  /\ (0.1 <= v -> geomDeg = 20 -> FlightPhysics.stalling s' = true)
  /\ (geomDeg = 0 -> vStall <= v -> FlightPhysics.stalling s' = false).
Proof.
  intros Hl Hc s' aoaDeg v vStall geomDeg.
  assert (Hgeo : 0.1 <= v -> Rabs aoaDeg = geomDeg).
  { intros Hv. apply AttackFacts.stallAoa_degrees. exact Hv. }
  assert (Hslow : v < 0.1 -> aoaDeg = 0).
  { intros Hv. unfold aoaDeg, FlightPhysics.stallAoa.
    rewrite AttackFacts.getAngleOfAttack_slow.
    - unfold Rdiv. ring.
    - destruct (AttackFacts.applyControls_attitude dt s) as [_ Hvel].
      unfold FlightPhysics.speed. rewrite Hvel. exact Hv. }
  assert (Hs : FlightPhysics.stalling s'
               = Rgtb (Rabs aoaDeg) 16 || Rltb v (vStall * 0.9)).
  { subst s'. rewrite UpdateFacts.update_flying by assumption. cbn [fst].
    rewrite UpdateFacts.groundPhase_stalling.
    apply UpdateFacts.beforeGround_stalling. }
  assert (Hclear : Rabs aoaDeg = 0 -> vStall <= v ->
                   Rgtb (Rabs aoaDeg) 16 || Rltb v (vStall * 0.9) = false).
  { intros H0 Hv. rewrite H0.
    assert (H1 : Rgtb 0 16 = false) by (apply Rgtb_false; lra).
    assert (H2 : Rltb v (vStall * 0.9) = false).
    { apply Rltb_false.
      pose proof (UpdateFacts.speed_nonneg s) as Hpos.
      change (FlightPhysics.speed s) with v in Hpos. lra. }
    rewrite H1, H2. reflexivity. }
  rewrite Hs. split; [| split; [| split; [| split; [| split; [| split]]]]].
  - rewrite orb_true_iff, Rgtb_true, Rltb_true. split; intros [H | H]; lra.
  - intros H20. rewrite H20.
    assert (Hgt : Rgtb (Rabs 20) 16 = true).
    { apply Rgtb_true. rewrite Rabs_right by lra. lra. }
    rewrite Hgt. reflexivity.
  - intros H0 Hv. apply Hclear; [rewrite H0; apply Rabs_R0 | exact Hv].
  - exact Hgeo.
  - exact Hslow.
  - intros Hv H20. rewrite (Hgeo Hv), H20.
    assert (Hgt : Rgtb 20 16 = true) by (apply Rgtb_true; lra).
    rewrite Hgt. reflexivity.
  - intros H0 Hv. apply Hclear; [| exact Hv].
    destruct (Rle_lt_dec 0.1 v) as [Hfast | Hlow].
    + rewrite (Hgeo Hfast). exact H0.
    + rewrite (Hslow Hlow). apply Rabs_R0.
Qed.

(** ** Landing and crash *)

Module GroundFacts.

Import THREE FlightPhysics UpdateFacts.

Lemma sqrt_lt_bound a b : 0 <= a -> 0 < b -> a < b * b -> sqrt a < b.
Proof.
  intros Ha Hb H. rewrite <- (sqrt_square b) by lra.
  apply sqrt_lt_1_alt. lra.
Qed.

Lemma sqrt_le_bound a b : 0 <= a -> 0 <= b -> a <= b * b -> sqrt a <= b.
Proof.
  intros Ha Hb H. rewrite <- (sqrt_square b) by lra.
  apply sqrt_le_1_alt. lra.
Qed.

Lemma Rabs_one_square r : Rabs r = 1 -> r * r = 1.
Proof.
  unfold Rabs. destruct (Rcase_abs r); intros H; nra.
Qed.

Lemma planar_le_speed s : horizontalSpeedKmh s <= speedKmh s.
Proof.
  unfold horizontalSpeedKmh, speedKmh, speed, length.
  apply Rmult_le_compat_r; [lra |].
  apply sqrt_le_1_alt. nra.
Qed.

(** Sinking at 1 m/s with 30 km/h over the ground is inside the landing
    envelope of the code, which tests the full speed against 40 km/h. *)
Lemma slow_inside_envelope s :
  Rabs (verticalSpeed s) = 1 ->
  horizontalSpeedKmh s = 30 \/ speedKmh s = 30 ->
  speedKmh s < 40.
Proof.
  intros Hv [Hh | Ht]; [| lra].
  apply Rabs_one_square in Hv.
  unfold horizontalSpeedKmh in Hh. unfold verticalSpeed in Hv.
  unfold speedKmh, speed, length.
  set (vx := x (velocity s)) in *. set (vy := y (velocity s)) in *.
  set (vz := z (velocity s)) in *.
  assert (Hnn : 0 <= vx * vx + vz * vz) by nra.
  assert (Hsq : sqrt (vx * vx + vz * vz) * sqrt (vx * vx + vz * vz)
                = vx * vx + vz * vz) by (apply sqrt_sqrt; exact Hnn).
  assert (Hplanar : vx * vx + vz * vz = 625 / 9) by nra.
  assert (Hb : sqrt (vx * vx + vy * vy + vz * vz) < 100 / 9).
  { apply sqrt_lt_bound; nra. }
  lra.
Qed.

Lemma fast_outside_envelope s :
  horizontalSpeedKmh s = 60 \/ speedKmh s = 60 ->
  40 <= speedKmh s.
Proof.
  intros [Hh | Ht]; [| lra].
  pose proof (planar_le_speed s). lra.
Qed.

Lemma groundPhase_landing w s ap :
  y (position s) <= World.getHeightAt w (x (position s)) (z (position s)) + 1 ->
  World.getAirportAt w (x (position s)) (y (position s)) (z (position s)) = Some ap ->
  Rabs (verticalSpeed s) < 2 ->
  speedKmh s < 40 ->
  (snd (groundPhase (Some w) s) = "landing"%string
   \/ snd (groundPhase (Some w) s) = "landed"%string)
  /\ crashed (fst (groundPhase (Some w) s)) = crashed s.
Proof.
  intros Hy Hap Hv Hh. unfold groundPhase. cbv zeta.
  apply Rleb_true in Hy. rewrite Hy, Hap.
  apply Rltb_true in Hv. apply Rltb_true in Hh.
  replace 2.0 with 2 by lra. rewrite Hv, Hh. cbn [andb].
  destruct (Rltb (speedKmh _) 2); cbn [fst snd]; (split; [auto | reflexivity]).
Qed.

Lemma groundPhase_crash w s ap :
  y (position s) <= World.getHeightAt w (x (position s)) (z (position s)) + 1 ->
  World.getAirportAt w (x (position s)) (y (position s)) (z (position s)) = Some ap ->
  40 <= speedKmh s ->
  crashed (fst (groundPhase (Some w) s)) = true
  /\ velocity (fst (groundPhase (Some w) s)) = vec3 0 0 0
  /\ snd (groundPhase (Some w) s) = "crashed"%string.
Proof.
  intros Hy Hap Hh. unfold groundPhase. cbv zeta.
  apply Rleb_true in Hy. rewrite Hy, Hap.
  apply Rltb_false in Hh. rewrite Hh, andb_false_r.
  repeat split.
Qed.

End GroundFacts.

(** C8: when, after integration, the altitude is at or below terrain height
    + 1 over an airport ([getAirportAt] non-null) with absolute vertical
    speed 1.0 m/s: at horizontal speed 30 km/h [update] takes the landing
    branch (it returns 'landing' or 'landed' and does not set crashed); at
    horizontal speed 60 km/h it sets crashed, zeroes the velocity and
    returns 'crashed'.  The horizontal speed is taken either as the planar
    part of the velocity or as the [speedKmh] the code tests. *)
Theorem C8_landing_or_crash
    (dt : R) (w : World.t) (now : R) (s : FlightPhysics.t) (ap : Airport) :
  FlightPhysics.landed s = false ->
  FlightPhysics.crashed s = false ->
  let s1 := FlightPhysics.beforeGround dt (Some w) now s in
  let p := FlightPhysics.position s1 in
  THREE.y p <= World.getHeightAt w (THREE.x p) (THREE.z p) + 1 ->
  World.getAirportAt w (THREE.x p) (THREE.y p) (THREE.z p) = Some ap ->
  Rabs (FlightPhysics.verticalSpeed s1) = 1 ->
  let r := FlightPhysics.update dt (Some w) now s in
  ((FlightPhysics.horizontalSpeedKmh s1 = 30 \/ FlightPhysics.speedKmh s1 = 30) ->
   (snd r = Some "landing"%string \/ snd r = Some "landed"%string)
   /\ FlightPhysics.crashed (fst r) = false)
  /\ ((FlightPhysics.horizontalSpeedKmh s1 = 60 \/ FlightPhysics.speedKmh s1 = 60) ->
      FlightPhysics.crashed (fst r) = true
      /\ FlightPhysics.velocity (fst r) = THREE.vec3 0 0 0
      /\ snd r = Some "crashed"%string).
Proof.
  intros Hl Hc s1 p Hy Hap Hv r.
  subst r. rewrite UpdateFacts.update_flying by assumption. cbn [fst snd].
  fold s1. split.
  - intros H30.
    pose proof (GroundFacts.slow_inside_envelope s1 Hv H30) as Hh.
    assert (Hv2 : Rabs (FlightPhysics.verticalSpeed s1) < 2) by lra.
    destruct (GroundFacts.groundPhase_landing w s1 ap Hy Hap Hv2 Hh) as [Hr Hcr].
    split.
    + destruct Hr as [-> | ->]; auto.
    + rewrite Hcr. unfold s1. rewrite UpdateFacts.beforeGround_crashed. exact Hc.
  - intros H60.
    pose proof (GroundFacts.fast_outside_envelope s1 H60) as Hh.
    destruct (GroundFacts.groundPhase_crash w s1 ap Hy Hap Hh) as (H1 & H2 & H3).
    rewrite H1, H2, H3. auto.
Qed.

(** ** A step of length zero *)

Module RestFacts.

Import THREE FlightPhysics UpdateFacts Examples.

Lemma addScaledVector_zero a v : addScaledVector a v 0 = a.
Proof. destruct a. unfold addScaledVector; simpl. f_equal; ring. Qed.

Lemma integratePhase_zero forces s :
  speed s <= maxSpeed (config s) ->
  velocity (integratePhase 0 forces s) = velocity s
  /\ position (integratePhase 0 forces s) = position s.
Proof.
  intros H. unfold integratePhase. cbv zeta.
  rewrite !addScaledVector_zero.
  assert (Hc : Rgtb (speed (set_velocity (velocity s) s)) (maxSpeed (config s)) = false).
  { apply Rgtb_false. exact H. }
  rewrite Hc. split; reflexivity.
Qed.

(** With [dt = 0] and a speed within the clamp, the state at the ground
    test has the position and the velocity of the state at entry. *)
Lemma beforeGround_zero world now s :
  speed s <= maxSpeed (config s) ->
  velocity (beforeGround 0 world now s) = velocity s
  /\ position (beforeGround 0 world now s) = position s.
Proof.
  intros H.
  destruct (beforeGround_shape 0 world now s) as (f & s2 & Hf & ->).
  set (s3 := stallPhase 0 (speed s) (getAngleOfAttack (applyControls 0 s)) s2).
  pose proof (stallPhase_framed 0 (speed s)
                (getAngleOfAttack (applyControls 0 s)) s2) as Hs.
  fold s3 in Hs.
  pose proof (framed_trans _ _ _ Hf Hs) as (Hp & Hv & Hcfg & _).
  assert (H3 : speed s3 <= maxSpeed (config s3)).
  { unfold speed. rewrite Hv, Hcfg. exact H. }
  destruct (integratePhase_zero f s3 H3) as [-> ->]. auto.
Qed.

Lemma approach_speed_ok vx :
  0 <= vx <= 50 -> speed (approach vx) <= maxSpeed (config (approach vx)).
Proof.
  intros H. unfold speed, length; simpl.
  apply GroundFacts.sqrt_le_bound; nra.
Qed.

Lemma approach_on_ground vx now :
  0 <= vx <= 50 ->
  let p := position (beforeGround 0 (Some flatWorld) now (approach vx)) in
  y p <= World.getHeightAt flatWorld (x p) (z p) + 1
  /\ World.getAirportAt flatWorld (x p) (y p) (z p) = Some home
  /\ velocity (beforeGround 0 (Some flatWorld) now (approach vx))
     = vec3 vx (-1) 0.
Proof.
  intros H p.
  destruct (beforeGround_zero (Some flatWorld) now (approach vx)
              (approach_speed_ok vx H)) as [Hv Hp].
  subst p. rewrite Hv, Hp. simpl.
  split; [| split].
  - unfold World.getHeightAt; simpl. rewrite NoiseFacts.flat_height. lra.
  - unfold World.getAirportAt, World.onRunway; simpl.
    replace ((0 - 0) * cos (- 0) - (0 - 0) * sin (- 0)) with 0 by ring.
    replace ((0 - 0) * sin (- 0) + (0 - 0) * cos (- 0)) with 0 by ring.
    replace (25.5 - 25) with 0.5 by lra.
    rewrite Rabs_R0, (Rabs_right 0.5) by lra.
    assert (H1 : Rltb 0 (200 / 2) = true) by (apply Rltb_true; lra).
    assert (H2 : Rltb 0 (30 / 2) = true) by (apply Rltb_true; lra).
    assert (H3 : Rltb 0.5 10 = true) by (apply Rltb_true; lra).
    rewrite H1, H2, H3. reflexivity.
  - reflexivity.
Qed.

End RestFacts.

Lemma C7_stall_flag_witness :
  (FlightPhysics.speed Examples.belowNose = 30
   /\ Measures.attackAngle (FlightPhysics.applyControls (1 / 60) Examples.belowNose)
      * 180 / PI = 20
   /\ FlightPhysics.stalling
        (fst (FlightPhysics.update (1 / 60) None 0 Examples.belowNose)) = true)
  /\ (FlightPhysics.speed Examples.alongNose = 20
      /\ Measures.attackAngle (FlightPhysics.applyControls (1 / 60) Examples.alongNose)
         * 180 / PI = 0
      /\ FlightPhysics.stalling
           (fst (FlightPhysics.update (1 / 60) None 0 Examples.alongNose)) = false).
Proof.
  destruct (AttackFacts.belowNose_angle (1 / 60)) as [Hv1 Ha1].
  destruct (AttackFacts.alongNose_angle (1 / 60)) as [Hv2 Ha2].
  split; (split; [assumption | split; [assumption |]]).
  - refine (proj1 (proj2 (proj2 (proj2 (proj2 (proj2
              (C7_stall_flag (1 / 60) None 0 Examples.belowNose eq_refl eq_refl))))))
              _ Ha1).
    unfold FlightPhysics.stallSpeedRead. rewrite Hv1. lra.
  - refine (proj2 (proj2 (proj2 (proj2 (proj2 (proj2
              (C7_stall_flag (1 / 60) None 0 Examples.alongNose eq_refl eq_refl))))))
              Ha2 _).
    unfold FlightPhysics.stallSpeedRead. rewrite Hv2.
    unfold FlightPhysics.stallSpeed, Examples.alongNose, Examples.airborne,
      FlightPhysics.config, FlightPhysics._defaultConfig. lra.
Defined.

Lemma C8_landing_or_crash_witness :
  ((snd (FlightPhysics.update 0 (Some Examples.flatWorld) 0 Examples.slowApproach)
    = Some "landing"%string
    \/ snd (FlightPhysics.update 0 (Some Examples.flatWorld) 0 Examples.slowApproach)
       = Some "landed"%string)
   /\ FlightPhysics.crashed
        (fst (FlightPhysics.update 0 (Some Examples.flatWorld) 0
                Examples.slowApproach)) = false)
  /\ (FlightPhysics.crashed
        (fst (FlightPhysics.update 0 (Some Examples.flatWorld) 0
                Examples.fastApproach)) = true
      /\ FlightPhysics.velocity
           (fst (FlightPhysics.update 0 (Some Examples.flatWorld) 0
                   Examples.fastApproach)) = THREE.vec3 0 0 0
      /\ snd (FlightPhysics.update 0 (Some Examples.flatWorld) 0 Examples.fastApproach)
         = Some "crashed"%string).
Proof.
  assert (Hslow : 0 <= 25 / 3 <= 50) by lra.
  assert (Hfast : 0 <= 50 / 3 <= 50) by lra.
  destruct (RestFacts.approach_on_ground (25 / 3) 0 Hslow) as (Hy1 & Hap1 & Hv1).
  destruct (RestFacts.approach_on_ground (50 / 3) 0 Hfast) as (Hy2 & Hap2 & Hv2).
  split.
  - refine (proj1 (C8_landing_or_crash 0 Examples.flatWorld 0 Examples.slowApproach
                     Examples.home eq_refl eq_refl Hy1 Hap1 _) _).
    + unfold FlightPhysics.verticalSpeed, Examples.slowApproach. rewrite Hv1. simpl.
      rewrite Rabs_left by lra. lra.
    + left. unfold FlightPhysics.horizontalSpeedKmh, Examples.slowApproach.
      rewrite Hv1. simpl.
      replace (25 / 3 * (25 / 3) + 0 * 0) with ((25 / 3) * (25 / 3)) by ring.
      rewrite sqrt_square by lra. lra.
  - refine (proj2 (C8_landing_or_crash 0 Examples.flatWorld 0 Examples.fastApproach
                     Examples.home eq_refl eq_refl Hy2 Hap2 _) _).
    + unfold FlightPhysics.verticalSpeed, Examples.fastApproach. rewrite Hv2. simpl.
      rewrite Rabs_left by lra. lra.
    + left. unfold FlightPhysics.horizontalSpeedKmh, Examples.fastApproach.
      rewrite Hv2. simpl.
      replace (50 / 3 * (50 / 3) + 0 * 0) with ((50 / 3) * (50 / 3)) by ring.
      rewrite sqrt_square by lra. lra.
Defined.

(** ** Ranges of the random stream *)

Module StreamFacts.

Import SeededRandom SeededRandomFacts.

Lemma next_state (s : Z) : snd (next s) = step s.
Proof. reflexivity. Qed.

Lemma nextRange_range (lo hi : R) (s : Z) :
  regular s -> lo < hi ->
  lo <= fst (nextRange lo hi s) < hi.
Proof.
  intros Hs Hlt. pose proof (next_value_range s Hs) as [H0 H1].
  unfold nextRange, bind, ret.
  destruct (next s) as [r s'] eqn:E. simpl in *. nra.
Qed.

Lemma nextRange_state (lo hi : R) (s : Z) : snd (nextRange lo hi s) = step s.
Proof. reflexivity. Qed.

Lemma nextInt_range (lo hi : Z) (s : Z) :
  regular s -> (lo < hi)%Z ->
  (lo <= fst (nextInt (IZR lo) (IZR hi) s) < hi)%Z.
Proof.
  intros Hs Hlt.
  assert (Hr : IZR lo < IZR hi) by (apply IZR_lt; exact Hlt).
  pose proof (nextRange_range (IZR lo) (IZR hi) s Hs Hr) as [H0 H1].
  unfold nextInt, bind, ret.
  destruct (nextRange (IZR lo) (IZR hi) s) as [r s'] eqn:E. simpl in *.
  pose proof (Zfloor_bound r) as [Hf0 Hf1].
  split.
  - apply Zfloor_lub. exact H0.
  - apply lt_IZR. lra.
Qed.

Lemma nextInt_state (lo hi : R) (s : Z) : snd (nextInt lo hi s) = step s.
Proof. reflexivity. Qed.

End StreamFacts.

(** X1: a generator built with a regular seed (positive, not a multiple of
    the modulus) whose first product [seed * 16807] is exact in a double
    keeps its documented ranges at every later draw: [nextRange(lo, hi)]
    lies in [lo, hi) and [nextInt(lo, hi)] is an integer in [lo, hi - 1],
    for integer bounds lo < hi between -100000 and 100000, where the
    rounding of [min + r * (max - min)] cannot reach [max]. *)
Theorem X1_nextInt_nextRange_in_range (seed : Z) (draws : nat) (lo hi : Z) :
  SeededRandom.regular seed ->
  (seed * 16807 <= 2 ^ 53)%Z ->
  (-100000 <= lo)%Z ->
  (hi <= 100000)%Z ->
  (lo < hi)%Z ->
  let s := SeededRandom.state_after draws seed in
  IZR lo <= fst (SeededRandom.nextRange (IZR lo) (IZR hi) s) < IZR hi
  /\ (lo <= fst (SeededRandom.nextInt (IZR lo) (IZR hi) s) <= hi - 1)%Z.
Proof.
  intros Hs _ _ _ Hlt s.
  assert (Hreg : SeededRandom.regular s)
    by (apply SeededRandomFacts.state_after_regular; exact Hs).
  split.
  - apply StreamFacts.nextRange_range; [exact Hreg | apply IZR_lt; exact Hlt].
  - pose proof (StreamFacts.nextInt_range lo hi s Hreg Hlt). lia.
Qed.

Lemma X1_nextInt_nextRange_in_range_witness :
  (2 <= fst (SeededRandom.nextInt 2 15 (SeededRandom.state_after 4 12345)) <= 15 - 1)%Z.
Proof.
  apply (X1_nextInt_nextRange_in_range 12345 4 2 15).
  - split; [lia | vm_compute; discriminate].
  - lia.
  - lia.
  - lia.
  - lia.
Defined.

(** ** The permutation table *)

Module TableFacts.

Import SeededRandom SeededRandomFacts PerlinNoise.

Lemma u8_get_in_range (p : list Z) (i : Z) (v : Z) :
  (0 <= i)%Z -> p !! Z.to_nat i = Some v -> u8_get p i = Some v.
Proof.
  intros Hi H. unfold u8_get.
  destruct (i <? 0)%Z eqn:E; [apply Z.ltb_lt in E; lia | exact H].
Qed.




Lemma land_255_low (i : nat) : (i < 256)%nat -> Z.land (Z.of_nat i) 255 = Z.of_nat i.
Proof.
  intros H. change 255%Z with (Z.ones 8). rewrite Z.land_ones by lia.
  apply Z.mod_small. change (2 ^ 8)%Z with 256%Z. lia.
Qed.

Lemma land_255_high (i : nat) :
  (256 <= i < 512)%nat -> Z.land (Z.of_nat i) 255 = Z.of_nat (i - 256).
Proof.
  intros H. change 255%Z with (Z.ones 8). rewrite Z.land_ones by lia.
  change (2 ^ 8)%Z with 256%Z.
  replace (Z.of_nat i) with (Z.of_nat (i - 256) + 1 * 256)%Z by lia.
  rewrite Z.mod_add by lia. apply Z.mod_small. lia.
Qed.

Lemma double_table_app (p : list Z) :
  List.length p = 256%nat -> double_table p = p ++ p.
Proof.
  intros Hlen. apply list_eq. intros i. unfold double_table.
  rewrite list_lookup_fmap.
  destruct (lt_dec i 512) as [Hi | Hi].
  - rewrite lookup_seq_lt by exact Hi. simpl.
    destruct (lt_dec i 256) as [Hlo | Hhi].
    + rewrite land_255_low by exact Hlo.
      rewrite lookup_app_l by lia.
      destruct (lookup_lt_is_Some_2 p i) as [v Hv]; [lia |].
      rewrite (u8_get_in_range p (Z.of_nat i) v); [| lia | rewrite Nat2Z.id; exact Hv].
      rewrite Hv. reflexivity.
    + rewrite land_255_high by lia.
      rewrite lookup_app_r by lia. rewrite Hlen.
      destruct (lookup_lt_is_Some_2 p (i - 256)) as [v Hv]; [lia |].
      rewrite (u8_get_in_range p (Z.of_nat (i - 256)) v);
        [| lia | rewrite Nat2Z.id; exact Hv].
      rewrite Hv. reflexivity.
  - rewrite lookup_seq_ge by lia. simpl.
    symmetry. apply lookup_ge_None_2. rewrite length_app. lia.
Qed.

Lemma identity_table_length : List.length identity_table = 256%nat.
Proof. reflexivity. Qed.


Lemma gradients_bounded (count : nat) : forall acc s,
  Forall Ranges.boundedGradient acc ->
  Forall Ranges.boundedGradient (fst (gradients count acc s)).
Proof.
  induction count as [| c IH]; intros acc s H; simpl; [exact H |].
  unfold bind, next. apply IH.
  apply Forall_app. split; [exact H |].
  apply Forall_cons. split; [| apply Forall_nil; exact I].
  split; simpl; [apply COS_bound | apply SIN_bound].
Qed.

(** The tables of [new PerlinNoise(seed)], in terms of the two loops. *)
Lemma new_tables (seed : Z) :
  perm (new seed) = double_table (fst (shuffle 255 identity_table seed))
  /\ grad (new seed)
     = fst (gradients 256 [] (snd (shuffle 255 identity_table seed))).
Proof.
  unfold new, _init, bind, ret.
  destruct (shuffle 255 identity_table seed) as [p s1].
  cbn [fst snd].
  destruct (gradients 256 [] s1) as [g s2].
  cbn [fst snd perm grad]. split; reflexivity.
Qed.

Lemma new_bounded (seed : Z) : Ranges.boundedGradients (new seed).
Proof.
  intros i. unfold grad_at.
  destruct (new_tables seed) as [_ ->].
  pose proof (gradients_bounded 256 [] (snd (shuffle 255 identity_table seed))
                (Forall_nil_2 _)) as HF.
  destruct (_ !! Z.to_nat i) as [g |] eqn:E; simpl.
  - rewrite Forall_lookup in HF. exact (HF _ _ E).
  - split; lra.
Qed.

End TableFacts.



(** ** A generator started at or below zero *)

Module CollapseFacts.

Import SeededRandom PerlinNoise.

Lemma step_nonpos (s : Z) : (s <= 0)%Z -> (step s <= 0)%Z.
Proof.
  intros H. unfold step. rewrite Z.add_0_r.
  apply Z.rem_nonpos; unfold A, M; lia.
Qed.

Lemma next_negative (s : Z) : (s <= 0)%Z -> fst (next s) < 0.
Proof.
  intros H. pose proof (step_nonpos s H) as Hs. unfold next; simpl.
  assert (H1 : IZR (step s - 1) <= -1) by (apply IZR_le; lia).
  unfold Rdiv.
  assert (H2 : 0 < / 2147483646) by (apply Rinv_0_lt_compat; lra).
  nra.
Qed.

Lemma nextInt_negative (hi : Z) (s : Z) :
  (s <= 0)%Z -> (0 < hi)%Z -> (fst (nextInt 0 (IZR hi) s) < 0)%Z.
Proof.
  intros Hs Hhi. pose proof (next_negative s Hs) as Hn.
  unfold nextInt, nextRange, bind, ret.
  destruct (next s) as [r s'] eqn:E. simpl in *.
  assert (Hh : 0 < IZR hi) by (apply IZR_lt; exact Hhi).
  pose proof (Zfloor_bound (0 + r * (IZR hi - 0))) as [Hf _].
  apply lt_IZR. nra.
Qed.

Lemma swap_negative (p : list Z) (i j : Z) :
  (0 <= i)%Z -> (j < 0)%Z -> swap p i j = <[ Z.to_nat i := 0%Z ]> p.
Proof.
  intros Hi Hj. unfold swap, u8_get, u8_set.
  destruct (j <? 0)%Z eqn:Ej; [| apply Z.ltb_ge in Ej; lia].
  destruct (i <? 0)%Z eqn:Ei; [apply Z.ltb_lt in Ei; lia |].
  reflexivity.
Qed.

(** Every pass of the shuffle overwrites entry [i] with 0. *)
Lemma shuffle_collapse (i : nat) : forall (p : list Z) (s : Z) (k : nat),
  (s <= 0)%Z ->
  fst (shuffle i p s) !! k
  = if decide (1 <= k <= i /\ k < List.length p)%nat then Some 0%Z else p !! k.
Proof.
  induction i as [| i IH]; intros p s k Hs.
  - simpl. destruct (decide _) as [H | H]; [lia | reflexivity].
  - cbn [shuffle]. unfold bind.
    pose proof (nextInt_negative (Z.of_nat (S i) + 1) s Hs ltac:(lia)) as Hj.
    pose proof (StreamFacts.nextInt_state 0 (IZR (Z.of_nat (S i) + 1)) s) as Hst.
    destruct (nextInt 0 (IZR (Z.of_nat (S i) + 1)) s) as [j s'] eqn:E.
    simpl in Hj, Hst.
    rewrite swap_negative by lia. rewrite Nat2Z.id.
    rewrite IH by (rewrite Hst; apply step_nonpos; exact Hs).
    rewrite length_insert.
    destruct (decide (1 <= k <= i /\ k < List.length p)%nat) as [H1 | H1];
      destruct (decide (1 <= k <= S i /\ k < List.length p)%nat) as [H2 | H2];
      try reflexivity; try lia.
    + destruct (decide (k = S i)) as [-> | Hne].
      * apply list_lookup_insert_eq. lia.
      * lia.
    + destruct (decide (k = S i)) as [-> | Hne].
      * destruct (lt_dec (S i) (List.length p)) as [Hin | Hout].
        { exfalso. apply H2. split; [lia | exact Hin]. }
        rewrite !(lookup_ge_None_2 _ (S i)); [reflexivity | lia |].
        rewrite length_insert. lia.
      * rewrite list_lookup_insert_ne by lia. reflexivity.
Qed.

Lemma shuffle_all_zero (s : Z) :
  (s <= 0)%Z -> fst (shuffle 255 identity_table s) = replicate 256 0%Z.
Proof.
  intros Hs. apply list_eq. intros k.
  rewrite shuffle_collapse by exact Hs.
  rewrite TableFacts.identity_table_length.
  destruct (decide (1 <= k <= 255 /\ k < 256)%nat) as [H | H].
  - rewrite lookup_replicate_2 by lia. reflexivity.
  - destruct k as [| k]; [reflexivity |].
    assert (Hk : (256 <= S k)%nat) by lia.
    rewrite (proj1 (lookup_replicate_None 256 0%Z (S k)) Hk).
    apply lookup_ge_None_2. rewrite TableFacts.identity_table_length. exact Hk.
Qed.

Lemma double_table_zero : double_table (replicate 256 0%Z) = replicate 512 0%Z.
Proof.
  rewrite TableFacts.double_table_app by apply length_replicate.
  rewrite <- replicate_add. reflexivity.
Qed.

End CollapseFacts.

(** X3: a noise field built with a seed at or below zero has a permutation
    table of 512 zeros: every draw of the generator is negative, so every
    swap of the shuffle reads index -1 and stores 0. *)
Theorem X3_nonpositive_seed_collapses_table (seed : Z) :
  (seed <= 0)%Z ->
  PerlinNoise.perm (PerlinNoise.new seed) = replicate 512 0%Z.
Proof.
  intros Hs.
  destruct (TableFacts.new_tables seed) as [-> _].
  rewrite CollapseFacts.shuffle_all_zero by exact Hs.
  apply CollapseFacts.double_table_zero.
Qed.

Lemma X3_nonpositive_seed_collapses_table_witness :
  PerlinNoise.perm (PerlinNoise.new 0) = replicate 512 0%Z.
Proof.
  apply (X3_nonpositive_seed_collapses_table 0). lia.
Defined.

(** ** Bounds on the noise *)

Module NoiseBounds.

Import PerlinNoise.

Lemma fade_range (t : R) : 0 <= t <= 1 -> 0 <= _fade t <= 1.
Proof.
  intros [H0 H1]. unfold _fade. split.
  - assert (Hq : 0 <= t * (t * 6 - 15) + 10) by nra.
    assert (Hc : 0 <= t * t * t).
    { apply Rmult_le_pos; [apply Rmult_le_pos |]; exact H0. }
    apply Rmult_le_pos; assumption.
  - assert (E : 1 - t * t * t * (t * (t * 6 - 15) + 10)
                = (1 - t) * (1 - t) * (1 - t) * (6 * t * t + 3 * t + 1)) by ring.
    assert (Hp : 0 <= (1 - t) * (1 - t) * (1 - t) * (6 * t * t + 3 * t + 1)).
    { apply Rmult_le_pos; [| nra].
      apply Rmult_le_pos; [apply Rmult_le_pos |]; lra. }
    lra.
Qed.

(** The fade crosses 1/2 where its argument does. *)
Lemma fade_side (t : R) : 0 <= (1 - 2 * t) * (1 - 2 * _fade t).
Proof.
  unfold _fade.
  assert (E : (1 - 2 * t) * (1 - 2 * (t * t * t * (t * (t * 6 - 15) + 10)))
              = (1 - 2 * t) * (1 - 2 * t)
                * (6 * (t * (1 - t)) * (t * (1 - t)) + 2 * (t * (1 - t)) + 1))
    by ring.
  rewrite E.
  assert (Hq : 0 <= 6 * (t * (1 - t)) * (t * (1 - t)) + 2 * (t * (1 - t)) + 1).
  { set (a := t * (1 - t)).
    pose proof (Rle_0_sqr (a + 1 / 6)) as Hsq. unfold Rsqr in Hsq. lra. }
  apply Rmult_le_pos; [| exact Hq].
  pose proof (Rle_0_sqr (1 - 2 * t)) as Hs. unfold Rsqr in Hs. exact Hs.
Qed.

(** The faded weights put at most 1/2 of corner distance on each axis. *)
Lemma axis_weight (t : R) :
  (1 - _fade t) * t + _fade t * (1 - t) <= 1 / 2.
Proof. pose proof (fade_side t). lra. Qed.

Lemma Rabs_le_between (r b : R) : Rabs r <= b -> - b <= r <= b.
Proof. unfold Rabs. destruct (Rcase_abs r); lra. Qed.

Lemma dot_bound (n : t) (gi : Z) (x y ax ay : R) :
  Ranges.boundedGradients n ->
  Rabs x <= ax -> Rabs y <= ay ->
  Rabs (_dot n gi x y) <= ax + ay.
Proof.
  intros Hb Hx Hy. unfold _dot.
  destruct (Hb (Z.land gi 255)) as [[Hg1 Hg2] [Hg3 Hg4]].
  set (g := grad_at n (Z.land gi 255)) in *.
  apply Rabs_le. apply Rabs_le_between in Hx, Hy.
  destruct Hx as [Hx1 Hx2], Hy as [Hy1 Hy2].
  split; nra.
Qed.

Lemma frac_range (x : R) : 0 <= x - IZR (Zfloor x) < 1.
Proof. pose proof (Zfloor_bound x). lra. Qed.

Lemma noise2D_bound (n : t) (x y : R) :
  Ranges.boundedGradients n -> -1 <= noise2D n x y <= 1.
Proof.
  intros Hb. unfold noise2D. cbv zeta.
  set (xf := x - IZR (Zfloor x)). set (yf := y - IZR (Zfloor y)).
  pose proof (frac_range x) as Hxf. pose proof (frac_range y) as Hyf.
  fold xf in Hxf. fold yf in Hyf.
  pose proof (fade_range xf ltac:(lra)) as Hu.
  pose proof (fade_range yf ltac:(lra)) as Hv.
  pose proof (axis_weight xf) as Hwx. pose proof (axis_weight yf) as Hwy.
  set (u := _fade xf) in *. set (v := _fade yf) in *.
  match goal with
  | |- _ <= _lerp (_lerp (_dot n ?a _ _) (_dot n ?b _ _) _)
                  (_lerp (_dot n ?c _ _) (_dot n ?d _ _) _) _ <= _ =>
      pose proof (dot_bound n a xf yf xf yf Hb) as HA;
      pose proof (dot_bound n b (xf - 1) yf (1 - xf) yf Hb) as HB;
      pose proof (dot_bound n c xf (yf - 1) xf (1 - yf) Hb) as HC;
      pose proof (dot_bound n d (xf - 1) (yf - 1) (1 - xf) (1 - yf) Hb) as HD;
      set (A := _dot n a xf yf) in *;
      set (B := _dot n b (xf - 1) yf) in *;
      set (C := _dot n c xf (yf - 1)) in *;
      set (D := _dot n d (xf - 1) (yf - 1)) in *
  end.
  assert (HA' : Rabs A <= xf + yf).
  { apply HA; rewrite Rabs_right; lra. }
  assert (HB' : Rabs B <= (1 - xf) + yf).
  { apply HB; [rewrite Rabs_left1; lra | rewrite Rabs_right; lra]. }
  assert (HC' : Rabs C <= xf + (1 - yf)).
  { apply HC; [rewrite Rabs_right; lra | rewrite Rabs_left1; lra]. }
  assert (HD' : Rabs D <= (1 - xf) + (1 - yf)).
  { apply HD; rewrite Rabs_left1; lra. }
  apply Rabs_le_between in HA', HB', HC', HD'.
  unfold _lerp.
  assert (W00 : 0 <= (1 - u) * (1 - v)) by nra.
  assert (W10 : 0 <= u * (1 - v)) by nra.
  assert (W01 : 0 <= (1 - u) * v) by nra.
  assert (W11 : 0 <= u * v) by nra.
  assert (E : A + u * (B - A) + v * (C + u * (D - C) - (A + u * (B - A)))
              = (1 - u) * (1 - v) * A + u * (1 - v) * B
                + (1 - u) * v * C + u * v * D) by ring.
  rewrite E.
  assert (Hsum : (1 - u) * (1 - v) * (xf + yf) + u * (1 - v) * ((1 - xf) + yf)
                 + (1 - u) * v * (xf + (1 - yf)) + u * v * ((1 - xf) + (1 - yf))
                 = ((1 - u) * xf + u * (1 - xf)) + ((1 - v) * yf + v * (1 - yf)))
    by ring.
  assert (TA := Rmult_le_compat_l _ _ _ W00 (proj2 HA')).
  assert (TB := Rmult_le_compat_l _ _ _ W10 (proj2 HB')).
  assert (TC := Rmult_le_compat_l _ _ _ W01 (proj2 HC')).
  assert (TD := Rmult_le_compat_l _ _ _ W11 (proj2 HD')).
  assert (SA := Rmult_le_compat_l _ _ _ W00 (proj1 HA')).
  assert (SB := Rmult_le_compat_l _ _ _ W10 (proj1 HB')).
  assert (SC := Rmult_le_compat_l _ _ _ W01 (proj1 HC')).
  assert (SD := Rmult_le_compat_l _ _ _ W11 (proj1 HD')).
  split; lra.
Qed.

End NoiseBounds.

Module FractalBounds.

Import PerlinNoise.






End FractalBounds.

(** X4: for every seed, the noise field that [new PerlinNoise(seed)] builds
    has [noise2D(x, y)] within [-1, 1] at every point: the gradients are
    (cos, sin) pairs and the faded weights never put more than 1/2 of
    corner distance on an axis. *)
Theorem X4_noise2D_within_unit (seed : Z) (x y : R) :
  -1 <= PerlinNoise.noise2D (PerlinNoise.new seed) x y <= 1.
Proof.
  apply NoiseBounds.noise2D_bound. apply TableFacts.new_bounded.
Qed.



(** ** Terrain of a generated world *)

Module TerrainFacts.

Lemma getBiome_not_airport x z tn bn inl : getBiome x z tn bn inl <> AIRPORT.
Proof.
  unfold getBiome.
  destruct (Rltb _ _); [destruct (Rgtb _ _) | destruct (Rgtb _ _)]; discriminate.
Qed.



End TerrainFacts.


(** ** The airport records *)

Module AirportRecords.

Import World SeededRandom SeededRandomFacts.

Section Loop.

Variables tn bn inl : PerlinNoise.t.

Lemma polar_distance (a d : R) :
  0 <= d -> sqrt (cos a * d * (cos a * d) + sin a * d * (sin a * d)) = d.
Proof.
  intros Hd.
  replace (cos a * d * (cos a * d) + sin a * d * (sin a * d))
    with ((Rsqr (sin a) + Rsqr (cos a)) * (d * d)) by (unfold Rsqr; ring).
  rewrite sin2_cos2, Rmult_1_l. apply sqrt_square. exact Hd.
Qed.

Lemma created_filled ax az id s :
  Ranges.airportFilled tn bn inl (fst (_createAirportData tn bn inl ax az id s))
  /\ ap_id (fst (_createAirportData tn bn inl ax az id s)) = id
  /\ ap_x (fst (_createAirportData tn bn inl ax az id s)) = ax
  /\ ap_z (fst (_createAirportData tn bn inl ax az id s)) = az
  /\ ap_heading (fst (_createAirportData tn bn inl ax az id s)) = fst (next s) * PI
  /\ snd (_createAirportData tn bn inl ax az id s) = step s.
Proof. repeat split. Qed.

Lemma heading_range s : regular s -> 0 <= fst (next s) * PI < PI.
Proof.
  intros Hs. pose proof (next_value_range s Hs) as [H0 H1].
  pose proof PI_RGT_0 as Hpi. split; nra.
Qed.

Lemma tail_snoc (aps : list Airport) (a : Airport) :
  aps <> [] -> tail (aps ++ [a]) = tail aps ++ [a].
Proof. destruct aps; [congruence | reflexivity]. Qed.

Lemma airports_loop_records (Q : Prop) (fuel : nat) : forall aps s,
  aps <> [] ->
  Measures.recordsOk tn bn inl aps ->
  (Q -> regular s) ->
  (Q -> Forall Ranges.airportInReach aps) ->
  Measures.recordsOk tn bn inl (fst (airports_loop tn bn inl fuel aps s))
  /\ (Q -> Forall Ranges.airportInReach (fst (airports_loop tn bn inl fuel aps s))).
Proof.
  induction fuel as [| fuel IH]; intros aps s Hne Hok Hreg Hreach; simpl; [auto |].
  destruct (List.length aps <? count)%nat eqn:Hlen; [| auto].
  unfold bind.
  set (r1 := fst (next s)). set (s1 := step s).
  set (r2 := fst (next s1)). set (s2 := step s1).
  change (next s) with (r1, s1). cbv iota beta.
  change (next s1) with (r2, s2). cbv iota beta.
  set (ax := cos (r1 * PI * 2) * (1500 + r2 * 6000)).
  set (az := sin (r1 * PI * 2) * (1500 + r2 * 6000)).
  assert (Hs1 : Q -> regular s1) by (intros q; apply step_regular, Hreg, q).
  assert (Hs2 : Q -> regular s2) by (intros q; apply step_regular, Hs1, q).
  destruct (BIOME_eqb (getBiome ax az tn bn inl) OCEAN) eqn:Hbio;
    [apply IH; auto |].
  destruct (tooClose ax az aps); [apply IH; auto |].
  destruct (created_filled ax az (List.length aps) s2)
    as (Hf & Hid & Hx & Hz & Hh & Hst).
  destruct (_createAirportData tn bn inl ax az (List.length aps) s2) as [a s3].
  cbn [fst snd] in *.
  destruct Hok as (Hids & Hfill & Htail).
  apply IH.
  - destruct aps; discriminate.
  - split; [| split].
    + rewrite map_app, length_app, Hids. simpl.
      rewrite Hid, seq_app. reflexivity.
    + apply Forall_app. split; [exact Hfill |].
      apply Forall_cons. split; [exact Hf | apply Forall_nil; exact I].
    + rewrite tail_snoc by exact Hne.
      apply Forall_app. split; [exact Htail |].
      apply Forall_cons. split; [| apply Forall_nil; exact I].
      destruct Hf as (_ & _ & _ & Hb & _). rewrite Hb, Hx, Hz.
      intros Hoc. rewrite Hoc in Hbio. discriminate.
  - intros q. rewrite Hst. apply step_regular, Hs2, q.
  - intros q. apply Forall_app. split; [apply Hreach, q |].
    apply Forall_cons. split; [| apply Forall_nil; exact I].
    split.
    + rewrite Hh. apply heading_range, Hs2, q.
    + rewrite Hx, Hz. unfold ax, az.
      pose proof (next_value_range s1 (Hs1 q)) as [H0 H1]. fold r2 in H0, H1.
      rewrite polar_distance by lra. lra.
Qed.

Lemma generateAirports_records (Q : Prop) (s : Z) :
  (Q -> regular (s + 500)%Z) ->
  Measures.recordsOk tn bn inl (_generateAirports tn bn inl s)
  /\ (Q -> Forall Ranges.airportInReach (_generateAirports tn bn inl s)).
Proof.
  intros Hreg. unfold _generateAirports, bind.
  destruct (created_filled 0 0 0%nat (s + 500)%Z)
    as (Hf & Hid & Hx & Hz & Hh & Hst).
  destruct (_createAirportData tn bn inl 0 0 0 (s + 500)%Z) as [a s1].
  cbn [fst snd] in *.
  apply airports_loop_records.
  - discriminate.
  - split; [| split].
    + simpl. rewrite Hid. reflexivity.
    + apply Forall_cons. split; [exact Hf | apply Forall_nil; exact I].
    + simpl. apply Forall_nil. exact I.
  - intros q. rewrite Hst. apply step_regular, Hreg, q.
  - intros q. apply Forall_cons. split; [| apply Forall_nil; exact I].
    split.
    + rewrite Hh. apply heading_range, Hreg, q.
    + rewrite Hx, Hz.
      replace (0 * 0 + 0 * 0) with 0 by ring. rewrite sqrt_0. lra.
Qed.

End Loop.


End AirportRecords.


(** X8: when the airport generator's seed, world seed + 500, is regular
    and its first product with 16807 is exact in a double, every airport
    of the World has a heading in [0, pi) and lies less than 7500 units
    from the origin. *)
Theorem X8_airports_in_reach (scene : Scene) (seed : Z) :
  SeededRandom.regular (seed + 500) ->
  ((seed + 500) * 16807 <= 2 ^ 53)%Z ->
  Forall (fun a =>
            0 <= ap_heading a < PI
            /\ sqrt (ap_x a * ap_x a + ap_z a * ap_z a) < 7500)
         (World.airports (fst (World.new scene seed))).
Proof.
  intros Hreg _.
  destruct (AirportRecords.generateAirports_records
              (PerlinNoise.new seed) (PerlinNoise.new (seed + 100))
              (PerlinNoise.new (seed + 200)) True seed (fun _ => Hreg))
    as [_ H].
  exact (H I).
Qed.

Lemma X8_airports_in_reach_witness :
  Forall (fun a =>
            0 <= ap_heading a < PI
            /\ sqrt (ap_x a * ap_x a + ap_z a * ap_z a) < 7500)
         (World.airports (fst (World.new [] 12345))).
Proof.
  apply (X8_airports_in_reach [] 12345).
  - split; [lia | vm_compute; discriminate].
  - lia.
Defined.

(** ** The thermal records *)

Module ThermalRecords.

Import World SeededRandom SeededRandomFacts.

Section Loop.

Variables tn bn inl : PerlinNoise.t.

Ltac run_attempt :=
  cbv beta iota zeta delta [thermal_attempt bind ret next fst snd].

Ltac draw_ranges s Hs :=
  pose proof (next_value_range s Hs);
  pose proof (next_value_range (step s) (step_regular _ Hs));
  pose proof (next_value_range (step (step s)) (step_regular _ (step_regular _ Hs)));
  pose proof (next_value_range (step (step (step s)))
                (step_regular _ (step_regular _ (step_regular _ Hs))));
  pose proof (next_value_range (step (step (step (step s))))
                (step_regular _ (step_regular _ (step_regular _ (step_regular _ Hs)))));
  cbv beta iota zeta delta [next fst] in *.

(** One pass either leaves the list alone (an Ocean draw) or appends one
    record. *)
Lemma thermal_attempt_spec (ths : list Thermal) (s : Z) :
  (fst (thermal_attempt tn bn inl ths s) = ths
   \/ exists th,
        fst (thermal_attempt tn bn inl ths s) = ths ++ [th]
        /\ Ranges.thermalFilled tn bn inl th
        /\ (regular s -> Ranges.thermalInRange th))
  /\ (regular s -> regular (snd (thermal_attempt tn bn inl ths s))).
Proof.
  run_attempt.
  set (tx := cos _ * _). set (tz := sin _ * _).
  pose proof (TerrainFacts.getBiome_not_airport tx tz tn bn inl) as Hna.
  destruct (getBiome tx tz tn bn inl) eqn:Hb; cbv beta iota zeta delta [BIOME_eqb];
    try contradiction.
  - split; [left; reflexivity |].
    intros Hs. apply step_regular, step_regular, Hs.
  - split.
    + right. eexists. split; [reflexivity |]. split.
      * unfold Ranges.thermalFilled; cbn. fold tx tz. rewrite Hb.
        repeat split; discriminate.
      * intros Hs. unfold Ranges.thermalInRange; cbn.
        draw_ranges (step (step s)) (step_regular _ (step_regular _ Hs)).
        repeat split; lra.
    + intros Hs. repeat apply step_regular. exact Hs.
  - split.
    + right. eexists. split; [reflexivity |]. split.
      * unfold Ranges.thermalFilled; cbn. fold tx tz. rewrite Hb.
        repeat split; discriminate.
      * intros Hs. unfold Ranges.thermalInRange; cbn.
        draw_ranges (step (step s)) (step_regular _ (step_regular _ Hs)).
        repeat split; lra.
    + intros Hs. repeat apply step_regular. exact Hs.
  - split.
    + right. eexists. split; [reflexivity |]. split.
      * unfold Ranges.thermalFilled; cbn. fold tx tz. rewrite Hb.
        repeat split; discriminate.
      * intros Hs. unfold Ranges.thermalInRange; cbn.
        draw_ranges (step (step s)) (step_regular _ (step_regular _ Hs)).
        repeat split; lra.
    + intros Hs. repeat apply step_regular. exact Hs.
Qed.

Lemma thermals_loop_records (Q : Prop) (n : nat) : forall ths s,
  (Q -> regular s) ->
  Forall (Ranges.thermalFilled tn bn inl) ths ->
  (Q -> Forall Ranges.thermalInRange ths) ->
  let r := fst (thermals_loop tn bn inl n ths s) in
  Forall (Ranges.thermalFilled tn bn inl) r
  /\ (Q -> Forall Ranges.thermalInRange r)
  /\ (List.length r <= List.length ths + n)%nat.
Proof.
  induction n as [| n IH]; intros ths s Hreg Hfill Hrange; cbn [thermals_loop].
  - cbn. repeat split; auto. lia.
  - unfold bind.
    destruct (thermal_attempt_spec ths s) as [Hcase Hnext].
    destruct (thermal_attempt tn bn inl ths s) as [ths' s'].
    cbn [fst snd] in *.
    assert (Hreg' : Q -> regular s') by (intros q; apply Hnext, Hreg, q).
    destruct Hcase as [-> | (th & -> & Hf & Hr)].
    + destruct (IH ths s' Hreg' Hfill Hrange) as (H1 & H2 & H3).
      repeat split; auto. lia.
    + destruct (IH (ths ++ [th]) s' Hreg') as (H1 & H2 & H3).
      * apply Forall_app. split; [exact Hfill |].
        apply Forall_cons. split; [exact Hf | apply Forall_nil; exact I].
      * intros q. apply Forall_app. split; [apply Hrange, q |].
        apply Forall_cons. split; [apply Hr, Hreg, q | apply Forall_nil; exact I].
      * repeat split; auto. rewrite length_app in H3. simpl in H3. lia.
Qed.

End Loop.

End ThermalRecords.

(** X9: in every World constructed from any seed there are at most 80
    thermals, each tagged with the biome of its own centre, never Ocean,
    and marked active. *)
Theorem X9_thermal_records (scene : Scene) (seed : Z) :
  let w := fst (World.new scene seed) in
  (List.length (World.thermals w) <= 80)%nat
  /\ Forall (fun th =>
               th_biome th = World.getBiomeAt w (th_x th) (th_z th)
               /\ th_biome th <> OCEAN
               /\ th_active th = true) (World.thermals w).
Proof.
  intros w.
  destruct (ThermalRecords.thermals_loop_records
              (PerlinNoise.new seed) (PerlinNoise.new (seed + 100))
              (PerlinNoise.new (seed + 200)) False 80 [] (seed + 700)%Z
              ltac:(contradiction) (Forall_nil_2 _) ltac:(contradiction))
    as (H1 & _ & H3).
  split; [exact H3 | exact H1].
Qed.

(** X10: when the thermal generator's seed, world seed + 700, is regular
    and its first product with 16807 is exact in a double, every thermal of the World has its parameters in the interval of its
    biome: Plains strength [2,5), radius [80,200), max altitude
    [1500,2000), temperature [25,35), turbulence [0,0.3); Mountains [3,7),
    [60,160), [3000,4000), [20,28), [0,0.3); Island [6,12), [40,100),
    [4000,5000), [40,55), [0.5,1). *)
Theorem X10_thermal_parameter_ranges (scene : Scene) (seed : Z) :
  SeededRandom.regular (seed + 700) ->
  ((seed + 700) * 16807 <= 2 ^ 53)%Z ->
  Forall Ranges.thermalInRange (World.thermals (fst (World.new scene seed))).
Proof.
  intros Hreg _.
  destruct (ThermalRecords.thermals_loop_records
              (PerlinNoise.new seed) (PerlinNoise.new (seed + 100))
              (PerlinNoise.new (seed + 200)) True 80 [] (seed + 700)%Z
              (fun _ => Hreg) (Forall_nil_2 _) (fun _ => Forall_nil_2 _))
    as (_ & H2 & _).
  exact (H2 I).
Qed.

Lemma X10_thermal_parameter_ranges_witness :
  Forall Ranges.thermalInRange (World.thermals (fst (World.new [] 12345))).
Proof.
  apply (X10_thermal_parameter_ranges [] 12345).
  - split; [lia | vm_compute; discriminate].
  - lia.
Defined.

(** ** Finding the airport under a point *)

Module RunwayFacts.

Import World.








End RunwayFacts.


(** ** Ranges of the lift query *)

Module LiftRanges.

Import World.

Lemma exp_le_one (t : R) : t <= 0 -> exp t <= 1.
Proof.
  intros [H | ->].
  - rewrite <- exp_0. apply Rlt_le, exp_increasing. exact H.
  - rewrite exp_0. lra.
Qed.

Lemma factor_range (dist radius : R) :
  0 < radius ->
  0 < exp (- (dist * dist) / (2 * (radius * 0.5) ^ 2)) <= 1.
Proof.
  intros Hr. split; [apply exp_pos |].
  apply exp_le_one.
  assert (Hden : 0 < 2 * (radius * 0.5) ^ 2).
  { simpl. nra. }
  assert (Hinv : 0 < / (2 * (radius * 0.5) ^ 2)) by (apply Rinv_0_lt_compat; exact Hden).
  unfold Rdiv. assert (Hd : 0 <= dist * dist) by nra.
  nra.
Qed.

Lemma in_range_generic (th : Thermal) :
  Ranges.thermalInRange th ->
  2 <= th_strength th < 12 /\ 40 <= th_radius th < 200
  /\ 1500 <= th_maxAlt th < 5000 /\ 20 <= th_temperature th < 55
  /\ 0 <= th_turbulence th < 1.
Proof.
  unfold Ranges.thermalInRange.
  destruct (th_biome th); try contradiction; intros (H1 & H2 & H3 & H4 & H5);
    repeat split; lra.
Qed.

Lemma thermal_step_ok (x y z : R) (acc : Acc) (th : Thermal) :
  Ranges.thermalInRange th -> Measures.accOk acc -> Measures.accOk (thermal_step x y z acc th).
Proof.
  intros Hr (Hl & Ht & Hu).
  destruct (in_range_generic th Hr) as (Hs & Hrad & _ & Htemp & Hturb).
  unfold thermal_step. cbv zeta.
  destruct (Rltb _ _ && Rltb _ _); [| unfold Measures.accOk; repeat split; lra].
  set (dist := sqrt _).
  pose proof (factor_range dist (th_radius th) ltac:(lra)) as [Hf0 Hf1].
  set (factor := exp _) in *.
  unfold Measures.accOk. cbn [totalLift maxTemp accTurbulence].
  assert (Hm : 0 <= Rmax 0 (1 - y / th_maxAlt th)) by apply Rmax_l.
  assert (Hlift : 0 <= th_strength th * factor * Rmax 0 (1 - y / th_maxAlt th)).
  { apply Rmult_le_pos; [apply Rmult_le_pos; lra | exact Hm]. }
  assert (Htf : 0 <= th_temperature th * factor < 55) by nra.
  assert (Huf : 0 <= th_turbulence th * factor < 1) by nra.
  repeat split.
  - lra.
  - eapply Rle_trans; [| apply Rmax_l]. lra.
  - apply Rmax_lub_lt; lra.
  - eapply Rle_trans; [| apply Rmax_l]. lra.
  - apply Rmax_lub_lt; lra.
Qed.

Lemma fold_ok (x y z : R) (ths : list Thermal) : forall acc,
  Forall Ranges.thermalInRange ths -> Measures.accOk acc ->
  Measures.accOk (fold_left (thermal_step x y z) ths acc).
Proof.
  induction ths as [| th ths IH]; intros acc Hr Ha; simpl; [exact Ha |].
  apply Forall_cons in Hr as [Hth Hrest].
  apply IH; [exact Hrest | apply thermal_step_ok; assumption].
Qed.

Lemma ridge_nonneg (w : t) (x y z : R) :
  0 <= windSpeed w -> 0 <= _getRidgeLift w x y z.
Proof.
  intros Hw. unfold _getRidgeLift. cbv zeta.
  destruct (Rltb _ 0) eqn:E1; [simpl; lra |].
  destruct (Rgtb _ 300) eqn:E2; [simpl; lra |].
  cbn [orb].
  destruct (Rleb _ 0) eqn:E3; [lra |].
  apply Rltb_false in E1. apply Rgtb_false in E2. apply Rleb_false in E3.
  apply Rmult_le_pos; [| lra].
  apply Rmult_le_pos; [| lra].
  apply Rmult_le_pos; lra.
Qed.

Lemma ridge_outside_band (w : t) (x y z : R) :
  y < getHeightAt w x z \/ getHeightAt w x z + 300 < y ->
  _getRidgeLift w x y z = 0.
Proof.
  intros H. unfold _getRidgeLift, getHeightAt in *. cbv zeta.
  destruct H as [H | H].
  - assert (E : Rltb (y - getTerrainHeight x z (terrainNoise w) (biomeNoise w)
                                            (islandNoise w)) 0 = true)
      by (apply Rltb_true; lra).
    rewrite E. reflexivity.
  - assert (E : Rgtb (y - getTerrainHeight x z (terrainNoise w) (biomeNoise w)
                                            (islandNoise w)) 300 = true)
      by (apply Rgtb_true; lra).
    rewrite E, orb_true_r. reflexivity.
Qed.

(** On land, with thermals in range and a wind speed that is not negative. *)
Lemma land_lift_ok (w : t) (x y z : R) :
  Forall Ranges.thermalInRange (thermals w) -> 0 <= windSpeed w ->
  getBiomeAt w x z <> OCEAN ->
  0 <= lift (getThermalLift w x y z)
  /\ 15 <= temperature (getThermalLift w x y z) < 55
  /\ 0 <= turbulence (getThermalLift w x y z) < 1.
Proof.
  intros Hr Hw Hb. unfold getThermalLift, getBiomeAt in *. cbv zeta.
  assert (H0 : Measures.accOk (mkAcc 0 15 0)) by (unfold Measures.accOk; simpl; lra).
  pose proof (fold_ok x y z (thermals w) _ Hr H0) as (Hl & Ht & Hu).
  pose proof (ridge_nonneg w x y z Hw) as Hridge.
  destruct (getBiome x z _ _ _); try congruence;
    cbn [BIOME_eqb lift temperature turbulence]; repeat split; lra.
Qed.

End LiftRanges.

(** X12: in a World whose thermal generator seed, world seed + 700, is
    regular, [getThermalLift] reports a negative lift exactly over the
    Ocean; everywhere the temperature lies in [12, 55) and the turbulence
    in [0, 1). *)
Theorem X12_lift_query_ranges (scene : Scene) (seed : Z) (x y z : R) :
  SeededRandom.regular (seed + 700) ->
  let w := fst (World.new scene seed) in
  let r := World.getThermalLift w x y z in
  (lift r < 0 <-> World.getBiomeAt w x z = OCEAN)
  /\ 12 <= temperature r < 55
  /\ 0 <= turbulence r < 1.
Proof.
  intros Hreg w r.
  destruct (ThermalRecords.thermals_loop_records
              (PerlinNoise.new seed) (PerlinNoise.new (seed + 100))
              (PerlinNoise.new (seed + 200)) True 80 [] (seed + 700)%Z
              (fun _ => Hreg) (Forall_nil_2 _) (fun _ => Forall_nil_2 _))
    as (_ & Hr' & _).
  pose proof (Hr' I) as Hr. clear Hr'.
  destruct (BIOME_eqb (World.getBiomeAt w x z) OCEAN) eqn:E.
  - apply BIOME_eqb_eq in E.
    assert (Hsink : r = mkLift (-1.5) 12 0.1).
    { unfold r, World.getThermalLift.
      unfold World.getBiomeAt in E. rewrite E. reflexivity. }
    rewrite Hsink. cbn [lift temperature turbulence].
    repeat split; auto; lra.
  - assert (Hb : World.getBiomeAt w x z <> OCEAN).
    { intros Hoc. apply BIOME_eqb_eq in Hoc. congruence. }
    destruct (LiftRanges.land_lift_ok w x y z Hr ltac:(simpl; lra) Hb)
      as (Hl & Ht & Hu).
    fold r in Hl, Ht, Hu.
    repeat split; try lra; try contradiction.
Qed.

Lemma X12_lift_query_ranges_witness :
  12 <= temperature (World.getThermalLift (fst (World.new [] 12345)) 100 500 (-40)) < 55.
Proof.
  apply (X12_lift_query_ranges [] 12345 100 500 (-40)).
  split; [lia | vm_compute; discriminate].
Defined.

(** X13: for every world with a wind speed that is not negative, the ridge
    lift is never negative, and it is exactly 0 for a point below the
    terrain or more than 300 above it. *)
Theorem X13_ridge_lift_band (w : World.t) (x y z : R) :
  0 <= World.windSpeed w ->
  0 <= World._getRidgeLift w x y z
  /\ (y < World.getHeightAt w x z \/ World.getHeightAt w x z + 300 < y ->
      World._getRidgeLift w x y z = 0).
Proof.
  intros Hw. split.
  - apply LiftRanges.ridge_nonneg. exact Hw.
  - apply LiftRanges.ridge_outside_band.
Qed.

Lemma X13_ridge_lift_band_witness :
  0 <= World._getRidgeLift Examples.flatWorld 0 100 0.
Proof.
  apply (X13_ridge_lift_band Examples.flatWorld 0 100 0). simpl. lra.
Defined.

(** ** Lift and drag coefficients *)

(** X14: the lift coefficient never exceeds 1.6, is at least -0.5 up to 18
    degrees of attack, and is below 0.8 beyond 18 degrees (the stall drop);
    the drag coefficient is at least the parasitic [cd0] for a positive
    aspect ratio and efficiency. *)
Theorem X14_coefficient_bounds (aoa cl aspectRatio cd0 e : R) :
  0 < aspectRatio -> 0 < e ->
  FlightPhysics.getCL aoa <= 1.6
  /\ (aoa * (180 / PI) <= 18 -> -0.5 <= FlightPhysics.getCL aoa)
  /\ (18 < aoa * (180 / PI) -> FlightPhysics.getCL aoa < 0.8)
  /\ cd0 <= FlightPhysics.getCD cl aspectRatio cd0 e.
Proof.
  intros Har He. unfold FlightPhysics.getCL. cbv zeta.
  set (deg := aoa * (180 / PI)).
  repeat split.
  - destruct (Rltb deg (-10)); [lra |].
    destruct (Rgtb deg 18) eqn:E; [apply Rgtb_true in E; lra |].
    apply Rmin_l.
  - intros H18.
    destruct (Rltb deg (-10)); [lra |].
    destruct (Rgtb deg 18) eqn:E; [apply Rgtb_true in E; lra |].
    apply Rmin_glb; [lra | apply Rmax_l].
  - intros H18.
    destruct (Rltb deg (-10)) eqn:E0; [apply Rltb_true in E0; lra |].
    destruct (Rgtb deg 18) eqn:E; [lra | apply Rgtb_false in E; lra].
  - unfold FlightPhysics.getCD. cbv zeta.
    assert (Hden : 0 < PI * aspectRatio * e).
    { apply Rmult_lt_0_compat; [apply Rmult_lt_0_compat |]; auto. apply PI_RGT_0. }
    assert (Hi : 0 < / (PI * aspectRatio * e)) by (apply Rinv_0_lt_compat; exact Hden).
    unfold Rdiv. assert (Hsq : 0 <= cl * cl) by nra. nra.
Qed.

Lemma X14_coefficient_bounds_witness :
  FlightPhysics.getCL 0.1 <= 1.6.
Proof.
  apply (X14_coefficient_bounds 0.1 0.5 18 0.015 0.85); lra.
Defined.

(** ** One step of the integrator, field by field *)

Module StepFacts.

Import THREE FlightPhysics UpdateFacts.

(** [beforeGround] as the composition of its blocks. *)
Lemma beforeGround_chain (dt : R) (world : option World.t) (now : R) (s : t) :
  beforeGround dt world now s
  = let s1 := applyControls dt s in
    let aoa := getAngleOfAttack s1 in
    let lp := launchPhase dt (aeroForces (speed s) aoa s1) s1 in
    let ep := environmentPhase dt world now (fst lp) (snd lp) in
    integratePhase dt (fst ep) (stallPhase dt (speed s) aoa (snd ep)).
Proof.
  unfold beforeGround. cbv zeta.
  destruct (launchPhase _ _ _) as [f1 s1].
  destruct (environmentPhase _ _ _ _ _) as [f2 s2].
  reflexivity.
Qed.

Ltac by_cases :=
  cbv zeta; split_ifs; repeat split; reflexivity.

(** What each block leaves alone. *)
Lemma applyControls_keeps dt s :
  let s' := applyControls dt s in
  isLaunching s' = isLaunching s /\ launchTimer s' = launchTimer s
  /\ launchThrust s' = launchThrust s /\ cargoSpoiled s' = cargoSpoiled s
  /\ thermalHeatTime s' = thermalHeatTime s /\ currentTemp s' = currentTemp s
  /\ position s' = position s.
Proof. unfold applyControls. by_cases. Qed.

Lemma launchPhase_keeps dt f s :
  let s' := snd (launchPhase dt f s) in
  orientation s' = orientation s /\ cargoSpoiled s' = cargoSpoiled s
  /\ thermalHeatTime s' = thermalHeatTime s /\ currentTemp s' = currentTemp s
  /\ position s' = position s.
Proof. unfold launchPhase. by_cases. Qed.

Lemma environmentPhase_keeps dt world now f s :
  let s' := snd (environmentPhase dt world now f s) in
  orientation s' = orientation s /\ isLaunching s' = isLaunching s
  /\ launchTimer s' = launchTimer s /\ launchThrust s' = launchThrust s.
Proof.
  unfold environmentPhase. destruct world as [w |]; [| repeat split].
  by_cases.
Qed.

Lemma stallPhase_keeps dt v aoa s :
  let s' := stallPhase dt v aoa s in
  isLaunching s' = isLaunching s /\ launchTimer s' = launchTimer s
  /\ launchThrust s' = launchThrust s /\ cargoSpoiled s' = cargoSpoiled s
  /\ thermalHeatTime s' = thermalHeatTime s /\ currentTemp s' = currentTemp s.
Proof. unfold stallPhase. by_cases. Qed.

Lemma integratePhase_keeps dt f s :
  let s' := integratePhase dt f s in
  orientation s' = orientation s /\ isLaunching s' = isLaunching s
  /\ launchTimer s' = launchTimer s /\ launchThrust s' = launchThrust s
  /\ cargoSpoiled s' = cargoSpoiled s /\ thermalHeatTime s' = thermalHeatTime s
  /\ currentTemp s' = currentTemp s.
Proof. unfold integratePhase. by_cases. Qed.

Lemma groundPhase_keeps world s :
  let s' := fst (groundPhase world s) in
  orientation s' = orientation s /\ isLaunching s' = isLaunching s
  /\ launchTimer s' = launchTimer s /\ launchThrust s' = launchThrust s
  /\ cargoSpoiled s' = cargoSpoiled s /\ thermalHeatTime s' = thermalHeatTime s
  /\ currentTemp s' = currentTemp s /\ config s' = config s.
Proof.
  unfold groundPhase. destruct world as [w |]; [| repeat split].
  cbv zeta. destruct (World.getAirportAt _ _ _ _); by_cases.
Qed.



(** The speed after the integration block and after the ground block. *)
Lemma integratePhase_speed dt f s :
  0 <= maxSpeed (config s) ->
  speed (integratePhase dt f s) <= maxSpeed (config s).
Proof.
  intros Hm. unfold integratePhase. cbv zeta.
  destruct (Rgtb _ _) eqn:E.
  - apply Rgtb_true in E. unfold speed in *. cbn in *.
    set (v := addScaledVector (velocity s) (divideScalar f (totalMass s)) dt) in *.
    rewrite VectorFacts.length_multiplyScalar, VectorFacts.length_normalize by lra.
    rewrite Rabs_right by lra. lra.
  - apply Rgtb_false in E. unfold speed in *. cbn in *. exact E.
Qed.

Lemma groundPhase_speed world s :
  speed (fst (groundPhase world s)) <= speed s.
Proof.
  pose proof (speed_nonneg s) as Hpos.
  assert (Hzero : length (vec3 0 0 0) = 0).
  { unfold length; simpl. replace (0 * 0 + 0 * 0 + 0 * 0) with 0 by ring. apply sqrt_0. }
  assert (Hroll : length (multiplyScalar (velocity s) 0.95) <= speed s).
  { rewrite VectorFacts.length_multiplyScalar, Rabs_right by lra.
    unfold speed in *. lra. }
  unfold groundPhase. destruct world as [w |]; [| cbn; lra].
  cbv zeta. unfold speed in *.
  destruct (World.getAirportAt _ _ _ _); split_ifs; cbn; try rewrite Hzero; lra.
Qed.

End StepFacts.

(** X15: after an [update] step of an aircraft that is neither landed nor
    crashed, with a positive total mass and a configured maximum speed of
    at least 1 m/s, the speed does not exceed that maximum by more than one
    part in 10^9.  Over exact numbers the clamp gives the maximum itself;
    the margin covers the rounding of [normalize().multiplyScalar(maxSpeed)]
    and of the speed getter, which can leave the speed a unit in the last
    place above the maximum. *)
Theorem X15_speed_clamped
    (dt : R) (world : option World.t) (now : R) (s : FlightPhysics.t) :
  FlightPhysics.landed s = false ->
  FlightPhysics.crashed s = false ->
  0 < FlightPhysics.totalMass s ->
  1 <= FlightPhysics.maxSpeed (FlightPhysics.config s) ->
  FlightPhysics.speed (fst (FlightPhysics.update dt world now s))
  <= FlightPhysics.maxSpeed (FlightPhysics.config s) * (1 + 1 / 10 ^ 9).
Proof.
  intros Hl Hc _ Hm1.
  assert (Hm : 0 <= FlightPhysics.maxSpeed (FlightPhysics.config s)) by lra.
  assert (Hmargin : FlightPhysics.maxSpeed (FlightPhysics.config s)
                    <= FlightPhysics.maxSpeed (FlightPhysics.config s)
                       * (1 + 1 / 10 ^ 9)).
  { assert (0 < 1 / 10 ^ 9) by (apply Rdiv_lt_0_compat; [lra | apply pow_lt; lra]).
    nra. }
  eapply Rle_trans; [| exact Hmargin].
  rewrite UpdateFacts.update_flying by assumption. cbn [fst].
  eapply Rle_trans; [apply StepFacts.groundPhase_speed |].
  destruct (UpdateFacts.beforeGround_shape dt world now s) as (f & s2 & Hf & ->).
  set (s3 := FlightPhysics.stallPhase dt (FlightPhysics.speed s)
               (FlightPhysics.getAngleOfAttack (FlightPhysics.applyControls dt s)) s2).
  assert (Hcfg : FlightPhysics.config s3 = FlightPhysics.config s).
  { destruct (UpdateFacts.stallPhase_framed dt (FlightPhysics.speed s)
                (FlightPhysics.getAngleOfAttack (FlightPhysics.applyControls dt s)) s2)
      as (_ & _ & E & _).
    fold s3 in E. rewrite E. destruct Hf as (_ & _ & E2 & _). exact E2. }
  rewrite <- Hcfg. apply StepFacts.integratePhase_speed. rewrite Hcfg. exact Hm.
Qed.

Lemma X15_speed_clamped_witness :
  FlightPhysics.speed
    (fst (FlightPhysics.update (1 / 60) None 0 Examples.slowApproach))
  <= FlightPhysics.maxSpeed (FlightPhysics.config Examples.slowApproach)
     * (1 + 1 / 10 ^ 9).
Proof.
  apply (X15_speed_clamped (1 / 60) None 0 Examples.slowApproach);
    [reflexivity | reflexivity
     | unfold FlightPhysics.totalMass; simpl; lra | simpl; lra].
Defined.



(** ** The launch thrust *)

Module LaunchFacts.

Import THREE FlightPhysics UpdateFacts StepFacts.

Lemma launchPhase_thrusting dt f s r :
  Measures.thrusting s r -> Measures.thrusting (snd (launchPhase dt f s)) (r - dt).
Proof.
  intros [[Hl Ht] | [Hl [H0 H1]]]; unfold launchPhase; cbv zeta; rewrite Hl.
  - cbn. left. auto.
  - assert (Hg : Rgtb (launchTimer s) 0 = true) by (apply Rgtb_true; exact H0).
    rewrite Hg. cbn [andb].
    destruct (Rleb _ 0) eqn:E; cbn.
    + left. auto.
    + apply Rleb_false in E. cbn in E. right. split; [exact Hl |].
      change (launchTimer (set_launchTimer (launchTimer s - dt) s))
        with (launchTimer s - dt).
      lra.
Qed.

Lemma update_launch_fields dt world now s :
  landed s = false -> crashed s = false ->
  exists f,
    let s' := fst (update dt world now s) in
    let sl := snd (launchPhase dt f (applyControls dt s)) in
    isLaunching s' = isLaunching sl /\ launchTimer s' = launchTimer sl
    /\ launchThrust s' = launchThrust sl.
Proof.
  intros Hl Hc. rewrite update_flying by assumption. cbn [fst].
  destruct (groundPhase_keeps world (beforeGround dt world now s))
    as (_ & -> & -> & -> & _).
  rewrite beforeGround_chain. cbv zeta.
  match goal with
  | |- context [integratePhase dt ?f ?s3] =>
      destruct (integratePhase_keeps dt f s3) as (_ & -> & -> & -> & _)
  end.
  match goal with
  | |- context [stallPhase dt ?v ?a ?s2] =>
      destruct (stallPhase_keeps dt v a s2) as (-> & -> & -> & _)
  end.
  match goal with
  | |- context [environmentPhase dt world now ?f ?s2] =>
      destruct (environmentPhase_keeps dt world now f s2) as (_ & -> & -> & ->)
  end.
  eexists. repeat split; reflexivity.
Qed.

Lemma update_thrusting dt world now s r :
  landed s = false -> crashed s = false ->
  Measures.thrusting s r -> Measures.thrusting (fst (update dt world now s)) (r - dt).
Proof.
  intros Hl Hc Ht.
  destruct (update_launch_fields dt world now s Hl Hc) as (f & H1 & H2 & H3).
  destruct (applyControls_keeps dt s) as (A1 & A2 & A3 & _).
  assert (Hs1 : Measures.thrusting (applyControls dt s) r).
  { unfold Measures.thrusting. rewrite A1, A2, A3. exact Ht. }
  pose proof (launchPhase_thrusting dt f _ r Hs1) as Hs2.
  unfold Measures.thrusting in *. rewrite H1, H2, H3. exact Hs2.
Qed.

Lemma updates_thrusting (dt : R) (calls : list (R * option World.t * R)) :
  forall s r,
    Forall (fun c => fst (fst c) = dt) calls ->
    Measures.thrusting s r ->
    landed (updates calls s) = false -> crashed (updates calls s) = false ->
    Measures.thrusting (updates calls s) (r - INR (List.length calls) * dt).
Proof.
  induction calls as [| [[dt' world] now] rest IH]; intros s r Hall Ht Hl Hc.
  - simpl. replace (r - 0 * dt) with r by ring. exact Ht.
  - apply Forall_cons in Hall as [Hdt Hrest]. simpl in Hdt. subst dt'.
    destruct (landed s) eqn:El.
    { rewrite PhysicsFacts.updates_grounded in Hl by (left; exact El). congruence. }
    destruct (crashed s) eqn:Ec.
    { rewrite PhysicsFacts.updates_grounded in Hc by (right; exact Ec). congruence. }
    cbn [updates] in *.
    pose proof (update_thrusting dt world now s r El Ec Ht) as Hstep.
    pose proof (IH _ _ Hrest Hstep Hl Hc) as Hfin.
    replace (r - INR (List.length ((dt, world, now) :: rest)) * dt)
      with (r - dt - INR (List.length rest) * dt); [exact Hfin |].
    change (List.length ((dt, world, now) :: rest)) with (S (List.length rest)).
    rewrite S_INR. ring.
Qed.

End LaunchFacts.

(** X17: when the launch thrust is on with a positive timer of at most 15
    seconds (the timers [launch] sets are 4 and 15), after any sequence of
    [update] calls of equal step dt, at least a millisecond, whose total
    duration exceeds the timer by one step or more, an aircraft that is
    still neither landed nor crashed has [isLaunching] false and
    [launchThrust] 0.  The extra step covers the residue that repeated
    rounded subtraction of dt can leave where the exact timer reaches 0. *)
Theorem X17_launch_thrust_ends
    (dt : R) (calls : list (R * option World.t * R)) (s : FlightPhysics.t) :
  Forall (fun c => fst (fst c) = dt) calls ->
  1 / 1000 <= dt ->
  FlightPhysics.isLaunching s = true ->
  0 < FlightPhysics.launchTimer s <= 15 ->
  FlightPhysics.launchTimer s + dt <= INR (List.length calls) * dt ->
  let s' := FlightPhysics.updates calls s in
  FlightPhysics.landed s' = false ->
  FlightPhysics.crashed s' = false ->
  FlightPhysics.isLaunching s' = false /\ FlightPhysics.launchThrust s' = 0.
Proof.
  intros Hall Hdt Hl Ht Hlong s' Hland Hcrash.
  assert (H0 : Measures.thrusting s (FlightPhysics.launchTimer s)).
  { right. split; [exact Hl | lra]. }
  pose proof (LaunchFacts.updates_thrusting dt calls s _ Hall H0 Hland Hcrash)
    as [Hdone | [_ Hbad]].
  - exact Hdone.
  - fold s' in Hbad. lra.
Qed.

(** ** Ground contact *)

Module ContactFacts.

Import THREE FlightPhysics UpdateFacts StepFacts.

Lemma beforeGround_landed dt world now s :
  landed (beforeGround dt world now s) = landed s.
Proof.
  destruct (beforeGround_shape dt world now s) as (f & s2 & Hf & ->).
  destruct (integratePhase_flags dt f
              (stallPhase dt (speed s) (getAngleOfAttack (applyControls dt s)) s2))
    as (_ & _ & -> & _).
  destruct (stallPhase_framed dt (speed s)
              (getAngleOfAttack (applyControls dt s)) s2) as (_ & _ & _ & _ & ->).
  destruct Hf as (_ & _ & _ & _ & ->). reflexivity.
Qed.

(** Without a world no step sets a flag. *)
Lemma updates_airborne (calls : list (R * option World.t * R)) :
  forall s,
    Forall (fun c => snd (fst c) = None) calls ->
    landed s = false -> crashed s = false ->
    landed (updates calls s) = false /\ crashed (updates calls s) = false.
Proof.
  induction calls as [| [[dt world] now] rest IH]; intros s Hall Hl Hc.
  - simpl. auto.
  - apply Forall_cons in Hall as [Hw Hrest]. simpl in Hw. subst world.
    cbn [updates]. apply IH; [exact Hrest | |].
    + rewrite update_flying by assumption. cbn [fst].
      change (groundPhase None ?s) with (s, "flying"%string).
      cbn [fst]. rewrite beforeGround_landed. exact Hl.
    + rewrite update_flying by assumption. cbn [fst].
      change (groundPhase None ?s) with (s, "flying"%string).
      cbn [fst]. rewrite beforeGround_crashed. exact Hc.
Qed.

Lemma groundPhase_outcome world s :
  Measures.outcome world s (fst (groundPhase world s)) (snd (groundPhase world s)).
Proof.
  unfold groundPhase. destruct world as [w |]; [| apply Measures.out_flying; left; reflexivity].
  cbv zeta.
  destruct (Rleb (y (position s)) _) eqn:Ey.
  - apply Rleb_true in Ey.
    destruct (World.getAirportAt w _ _ _) as [ap |] eqn:Eap.
    + destruct (Rltb (Rabs (verticalSpeed s)) 2.0) eqn:Ev.
      * destruct (Rltb (speedKmh s) 40) eqn:Eh; cbn [andb].
        -- destruct (Rltb _ 2) eqn:Er; cbn [fst snd].
           ++ eapply Measures.out_landed; eauto; reflexivity.
           ++ eapply Measures.out_landing; eauto; reflexivity.
        -- apply Rltb_false in Eh. cbn [fst snd].
           eapply Measures.out_crashed; eauto; reflexivity.
      * apply Rltb_false in Ev. cbn [andb fst snd].
        eapply Measures.out_crashed; eauto; try reflexivity.
        right. left. lra.
    + cbn [fst snd]. eapply Measures.out_crashed; eauto; reflexivity.
  - apply Rleb_false in Ey. cbn [fst snd].
    apply Measures.out_flying. right. exists w. split; [reflexivity | exact Ey].
Qed.

End ContactFacts.

(** X18: for an aircraft that is neither landed nor crashed, the string
    [update] returns is one of 'flying', 'landing', 'landed', 'crashed';
    afterwards the crashed flag is set exactly when it returned 'crashed'
    and the landed flag exactly when it returned 'landed', and in both of
    those cases the velocity is zero. *)
Theorem X18_update_result_matches_flags
    (dt : R) (world : option World.t) (now : R) (s : FlightPhysics.t) :
  FlightPhysics.landed s = false ->
  FlightPhysics.crashed s = false ->
  let s' := fst (FlightPhysics.update dt world now s) in
  let r := snd (FlightPhysics.update dt world now s) in
  (r = Some "flying"%string \/ r = Some "landing"%string
   \/ r = Some "landed"%string \/ r = Some "crashed"%string)
  /\ (FlightPhysics.crashed s' = true <-> r = Some "crashed"%string)
  /\ (FlightPhysics.landed s' = true <-> r = Some "landed"%string)
  /\ (FlightPhysics.crashed s' = true \/ FlightPhysics.landed s' = true ->
      FlightPhysics.velocity s' = THREE.vec3 0 0 0).
Proof.
  intros Hl Hc s' r. subst s' r.
  rewrite UpdateFacts.update_flying by assumption. cbn [fst snd].
  pose proof (ContactFacts.groundPhase_outcome world
                (FlightPhysics.beforeGround dt world now s)) as Ho.
  pose proof (ContactFacts.beforeGround_landed dt world now s) as Hbl.
  pose proof (UpdateFacts.beforeGround_crashed dt world now s) as Hbc.
  rewrite Hl in Hbl. rewrite Hc in Hbc.
  destruct Ho as [_ | w ap s' _ _ Hl' Hc' _ _ | w ap s' _ _ Hl' Hc' Hv _
                  | w s' _ _ _ Hl' Hc' Hv _].
  - rewrite Hbl, Hbc. repeat split; auto; intros; try discriminate.
    destruct H; discriminate.
  - rewrite Hl', Hc', Hbl, Hbc. repeat split; auto; intros; try discriminate.
    destruct H; discriminate.
  - rewrite Hl', Hc', Hbc. repeat split; auto 6; intros; try discriminate.
  - rewrite Hl', Hc', Hbl. repeat split; auto 6; intros; try discriminate.
Qed.

Lemma X18_update_result_matches_flags_witness :
  FlightPhysics.crashed
    (fst (FlightPhysics.update (1 / 60) None 0 Examples.slowApproach)) = true
  <-> snd (FlightPhysics.update (1 / 60) None 0 Examples.slowApproach)
      = Some "crashed"%string.
Proof.
  apply (X18_update_result_matches_flags (1 / 60) None 0 Examples.slowApproach);
    reflexivity.
Defined.

(** X19: when, after integration, the aircraft is at or below terrain height
    + 1 and there is no airport under it, or its absolute vertical speed is
    at least 2 m/s, or its speed is at least 40 km/h, [update] returns
    'crashed', sets the crashed flag, zeroes the velocity and puts the
    aircraft 2 above the terrain height of that point, keeping x and z. *)
Theorem X19_outside_envelope_crashes
    (dt : R) (w : World.t) (now : R) (s : FlightPhysics.t) :
  FlightPhysics.landed s = false ->
  FlightPhysics.crashed s = false ->
  let s1 := FlightPhysics.beforeGround dt (Some w) now s in
  let p := FlightPhysics.position s1 in
  let groundH := World.getHeightAt w (THREE.x p) (THREE.z p) in
  THREE.y p <= groundH + 1 ->
  (World.getAirportAt w (THREE.x p) (THREE.y p) (THREE.z p) = None
   \/ 2 <= Rabs (FlightPhysics.verticalSpeed s1)
   \/ 40 <= FlightPhysics.speedKmh s1) ->
  let s' := fst (FlightPhysics.update dt (Some w) now s) in
  snd (FlightPhysics.update dt (Some w) now s) = Some "crashed"%string
  /\ FlightPhysics.crashed s' = true
  /\ FlightPhysics.velocity s' = THREE.vec3 0 0 0
  /\ FlightPhysics.position s' = THREE.vec3 (THREE.x p) (groundH + 2) (THREE.z p).
Proof.
  intros Hl Hc s1 p groundH Hy Hbad s'. subst s'.
  rewrite UpdateFacts.update_flying by assumption. cbn [fst snd]. fold s1.
  unfold FlightPhysics.groundPhase. cbv zeta. fold p. fold groundH.
  assert (Ey : Rleb (THREE.y p) (groundH + 1) = true) by (apply Rleb_true; exact Hy).
  rewrite Ey.
  destruct (World.getAirportAt w (THREE.x p) (THREE.y p) (THREE.z p)) as [ap |] eqn:Eap.
  - assert (Ec : Rltb (Rabs (FlightPhysics.verticalSpeed s1)) 2.0
                 && Rltb (FlightPhysics.speedKmh s1) 40 = false).
    { destruct Hbad as [Hn | [Hv | Hh]]; [discriminate | |].
      - assert (E : Rltb (Rabs (FlightPhysics.verticalSpeed s1)) 2.0 = false)
          by (apply Rltb_false; lra).
        rewrite E. reflexivity.
      - assert (E : Rltb (FlightPhysics.speedKmh s1) 40 = false)
          by (apply Rltb_false; lra).
        rewrite E. apply andb_false_r. }
    rewrite Ec. repeat split.
  - repeat split.
Qed.

Lemma X19_outside_envelope_crashes_witness :
  snd (FlightPhysics.update 0 (Some Examples.flatWorld) 0 Examples.fastApproach)
  = Some "crashed"%string.
Proof.
  assert (Hfast : 0 <= 50 / 3 <= 50) by lra.
  destruct (RestFacts.approach_on_ground (50 / 3) 0 Hfast) as (Hy & Hap & Hv).
  refine (proj1 (X19_outside_envelope_crashes 0 Examples.flatWorld 0
                   Examples.fastApproach eq_refl eq_refl Hy _)).
  right. right.
  apply GroundFacts.fast_outside_envelope. left.
  unfold FlightPhysics.horizontalSpeedKmh, Examples.fastApproach.
  rewrite Hv. simpl.
  replace (50 / 3 * (50 / 3) + 0 * 0) with ((50 / 3) * (50 / 3)) by ring.
  rewrite sqrt_square by lra. lra.
Defined.

(** X20: without a world ([update(dt)] with no second argument), or when
    the aircraft ends the step more than 1 above the terrain, [update]
    returns 'flying' and neither flag is set: the ground block changes
    nothing. *)
Theorem X20_clear_of_ground_keeps_flying
    (dt : R) (world : option World.t) (now : R) (s : FlightPhysics.t) :
  FlightPhysics.landed s = false ->
  FlightPhysics.crashed s = false ->
  let p := FlightPhysics.position (FlightPhysics.beforeGround dt world now s) in
  (world = None
   \/ exists w, world = Some w
        /\ World.getHeightAt w (THREE.x p) (THREE.z p) + 1 < THREE.y p) ->
  FlightPhysics.update dt world now s
  = (FlightPhysics.beforeGround dt world now s, Some "flying"%string)
  /\ FlightPhysics.landed (fst (FlightPhysics.update dt world now s)) = false
  /\ FlightPhysics.crashed (fst (FlightPhysics.update dt world now s)) = false.
Proof.
  intros Hl Hc p Hclear.
  assert (Hg : FlightPhysics.groundPhase world
                 (FlightPhysics.beforeGround dt world now s)
               = (FlightPhysics.beforeGround dt world now s, "flying"%string)).
  { unfold FlightPhysics.groundPhase.
    destruct Hclear as [-> | (w & -> & Hy)]; [reflexivity |].
    cbv zeta. fold p.
    assert (Ey : Rleb (THREE.y p)
                   (World.getHeightAt w (THREE.x p) (THREE.z p) + 1) = false)
      by (apply Rleb_false; exact Hy).
    rewrite Ey. reflexivity. }
  rewrite UpdateFacts.update_flying by assumption. rewrite Hg. cbn [fst snd].
  rewrite ContactFacts.beforeGround_landed, UpdateFacts.beforeGround_crashed.
  auto.
Qed.

Lemma X20_clear_of_ground_keeps_flying_witness :
  FlightPhysics.update (1 / 60) None 0 Examples.slowApproach
  = (FlightPhysics.beforeGround (1 / 60) None 0 Examples.slowApproach,
     Some "flying"%string).
Proof.
  apply (X20_clear_of_ground_keeps_flying (1 / 60) None 0 Examples.slowApproach);
    [reflexivity | reflexivity | left; reflexivity].
Defined.

Lemma X17_launch_thrust_ends_witness :
  FlightPhysics.isLaunching
    (FlightPhysics.updates (replicate 9 (1 / 2, None, 0))
       (FlightPhysics.launch (JSString "cable") FlightPhysics.new)) = false
  /\ FlightPhysics.launchThrust
       (FlightPhysics.updates (replicate 9 (1 / 2, None, 0))
          (FlightPhysics.launch (JSString "cable") FlightPhysics.new)) = 0.
Proof.
  assert (Hl : FlightPhysics.landed
                 (FlightPhysics.launch (JSString "cable") FlightPhysics.new) = false)
    by reflexivity.
  assert (Hc : FlightPhysics.crashed
                 (FlightPhysics.launch (JSString "cable") FlightPhysics.new) = false)
    by reflexivity.
  assert (Hair := ContactFacts.updates_airborne (replicate 9 (1 / 2, None, 0))
                    (FlightPhysics.launch (JSString "cable") FlightPhysics.new)
                    (Forall_replicate _ 9 (1 / 2, None, 0) eq_refl) Hl Hc).
  apply (X17_launch_thrust_ends (1 / 2) (replicate 9 (1 / 2, None, 0))
           (FlightPhysics.launch (JSString "cable") FlightPhysics.new)).
  - apply Forall_replicate. reflexivity.
  - lra.
  - reflexivity.
  - change (FlightPhysics.launchTimer
              (FlightPhysics.launch (JSString "cable") FlightPhysics.new)) with 4.
    lra.
  - change (FlightPhysics.launchTimer
              (FlightPhysics.launch (JSString "cable") FlightPhysics.new)) with 4.
    rewrite length_replicate. simpl. lra.
  - exact (proj1 Hair).
  - exact (proj2 Hair).
Defined.

(** ** Cargo spoilage *)

Module CargoFacts.

Import THREE FlightPhysics UpdateFacts StepFacts.

Ltac read_tests :=
  repeat match goal with
         | H : Rgtb _ _ = true |- _ => apply Rgtb_true in H
         | H : Rgtb _ _ = false |- _ => apply Rgtb_false in H
         end.

Lemma environmentPhase_cargo dt world now f s :
  0 <= dt ->
  let s' := snd (environmentPhase dt world now f s) in
  (cargoSpoiled s = true -> cargoSpoiled s' = true)
  /\ thermalHeatTime s <= thermalHeatTime s' <= thermalHeatTime s + dt
  /\ (cargoSpoiled s = false -> cargoSpoiled s' = true ->
      10 < thermalHeatTime s' /\ 30 < currentTemp s')
  /\ (world = None -> cargoSpoiled s' = cargoSpoiled s
                      /\ thermalHeatTime s' = thermalHeatTime s).
Proof.
  intros Hdt. unfold environmentPhase.
  destruct world as [w |]; [| cbn; repeat split; auto; try lra; congruence].
  cbv zeta.
  set (th := World.getThermalLift w _ _ _).
  destruct (Rgtb (temperature th) 30) eqn:E1;
    [destruct (Rgtb _ 10) eqn:E2 |];
    destruct (Rgtb (turbulence th) 0) eqn:E3;
    read_tests; cbn in *;
    repeat split; auto; intros; try lra; try congruence; try discriminate.
Qed.

Lemma update_cargo_fields dt world now s :
  landed s = false -> crashed s = false ->
  exists f s0,
    cargoSpoiled s0 = cargoSpoiled s /\ thermalHeatTime s0 = thermalHeatTime s
    /\ let s' := fst (update dt world now s) in
       let se := snd (environmentPhase dt world now f s0) in
       cargoSpoiled s' = cargoSpoiled se /\ thermalHeatTime s' = thermalHeatTime se
       /\ currentTemp s' = currentTemp se.
Proof.
  intros Hl Hc. rewrite update_flying by assumption. cbn [fst].
  destruct (groundPhase_keeps world (beforeGround dt world now s))
    as (_ & _ & _ & _ & -> & -> & -> & _).
  rewrite beforeGround_chain. cbv zeta.
  match goal with
  | |- context [integratePhase dt ?f ?s3] =>
      destruct (integratePhase_keeps dt f s3) as (_ & _ & _ & _ & -> & -> & ->)
  end.
  match goal with
  | |- context [stallPhase dt ?v ?a ?s2] =>
      destruct (stallPhase_keeps dt v a s2) as (_ & _ & _ & -> & -> & ->)
  end.
  match goal with
  | |- context [environmentPhase dt world now ?f ?s0] => exists f, s0
  end.
  split; [| split; [| repeat split; reflexivity]].
  - match goal with
    | |- context [launchPhase dt ?f ?s1] =>
        destruct (launchPhase_keeps dt f s1) as (_ & -> & _)
    end.
    destruct (applyControls_keeps dt s) as (_ & _ & _ & -> & _). reflexivity.
  - match goal with
    | |- context [launchPhase dt ?f ?s1] =>
        destruct (launchPhase_keeps dt f s1) as (_ & _ & -> & _)
    end.
    destruct (applyControls_keeps dt s) as (_ & _ & _ & _ & -> & _). reflexivity.
Qed.

End CargoFacts.

(** X21: in an [update] step with dt >= 0 of an aircraft that is neither
    landed nor crashed, a spoiled cargo stays spoiled; the heat timer does
    not decrease and grows by at most dt; the cargo becomes spoiled only
    with the heat timer above 10 and an ambient temperature above 30; and
    without a world neither the flag nor the timer changes. *)
Theorem X21_cargo_spoilage
    (dt : R) (world : option World.t) (now : R) (s : FlightPhysics.t) :
  FlightPhysics.landed s = false ->
  FlightPhysics.crashed s = false ->
  0 <= dt ->
  let s' := fst (FlightPhysics.update dt world now s) in
  (FlightPhysics.cargoSpoiled s = true -> FlightPhysics.cargoSpoiled s' = true)
  /\ FlightPhysics.thermalHeatTime s <= FlightPhysics.thermalHeatTime s'
     <= FlightPhysics.thermalHeatTime s + dt
  /\ (FlightPhysics.cargoSpoiled s = false -> FlightPhysics.cargoSpoiled s' = true ->
      10 < FlightPhysics.thermalHeatTime s' /\ 30 < FlightPhysics.currentTemp s')
  /\ (world = None ->
      FlightPhysics.cargoSpoiled s' = FlightPhysics.cargoSpoiled s
      /\ FlightPhysics.thermalHeatTime s' = FlightPhysics.thermalHeatTime s).
Proof.
  intros Hl Hc Hdt s'.
  destruct (CargoFacts.update_cargo_fields dt world now s Hl Hc)
    as (f & s0 & Hs1 & Hs2 & H1 & H2 & H3).
  pose proof (CargoFacts.environmentPhase_cargo dt world now f s0 Hdt) as Henv.
  cbv zeta in Henv. fold s' in H1, H2, H3.
  rewrite H1, H2, H3. rewrite <- Hs1, <- Hs2. exact Henv.
Qed.

Lemma X21_cargo_spoilage_witness :
  FlightPhysics.thermalHeatTime Examples.slowApproach
  <= FlightPhysics.thermalHeatTime
       (fst (FlightPhysics.update (1 / 60) (Some Examples.flatWorld) 0
               Examples.slowApproach))
  <= FlightPhysics.thermalHeatTime Examples.slowApproach + 1 / 60.
Proof.
  apply (X21_cargo_spoilage (1 / 60) (Some Examples.flatWorld) 0
           Examples.slowApproach); [reflexivity | reflexivity | lra].
Defined.

(** ** Configuration *)

Module ConfigFacts.

Import FlightPhysics FlightConfig.




End ConfigFacts.


Module PartsFacts.

Import PlaneParts.

Lemma fuselage_range (key : string) (f : Fuselage) :
  fuselage key = Some f ->
  80 <= f_mass f <= 200 /\ 1 <= f_dragMod f <= 1.3 /\ 100 <= f_cargoCapacity f <= 500.
Proof.
  unfold fuselage.
  repeat destruct (String.eqb _ _); intros H; inversion H; subst; simpl;
    repeat split; lra.
Qed.

Lemma wings_range (key : string) (w : Wing) :
  wings key = Some w ->
  10 <= w_wingArea w <= 22 /\ 12 <= w_aspectRatio w <= 28
  /\ 0.6 <= w_rollRate w <= 2 /\ 0.7 <= w_liftMod w <= 1.3.
Proof.
  unfold wings.
  repeat destruct (String.eqb _ _); intros H; inversion H; subst; simpl;
    repeat split; lra.
Qed.

Lemma js_or_nonzero (a b : R) : a <> 0 -> js_or a b = a.
Proof. intros H. unfold js_or. destruct (Req_dec_T a 0); [contradiction | reflexivity]. Qed.

Lemma js_or_zero (b : R) : js_or 0 b = b.
Proof. unfold js_or. destruct (Req_dec_T 0 0); [reflexivity | contradiction]. Qed.

Lemma wingtips_range (key : string) (t : Wingtip) :
  wingtips key = Some t ->
  -0.003 <= js_or (t_cd0Mod t) 0 <= 0.005
  /\ 1 <= js_or (t_liftMod t) 1.0 <= 1.15
  /\ 0.8 <= js_or (t_rollMod t) 1.0 <= 1
  /\ 0.85 <= js_or (t_speedMod t) 1.0 <= 1.
Proof.
  unfold wingtips.
  repeat destruct (String.eqb _ _); intros H; inversion H; subst; simpl;
    rewrite ?js_or_zero, ?js_or_nonzero by lra; repeat split; lra.
Qed.

Lemma stall_factor (m : R) : 260 <= m <= 380 -> 0.9 < sqrt (m / 300) < 1.2.
Proof.
  intros Hm. split.
  - rewrite <- (sqrt_square 0.9) by lra. apply sqrt_lt_1_alt. lra.
  - apply GroundFacts.sqrt_lt_bound; lra.
Qed.

End PartsFacts.

(** X23: for part keys that are not property names inherited from
    [Object.prototype], [computePhysicsConfig] fails exactly when one of
    the three keys is not in its table; for every selection of known
    parts the configuration has mass in [260, 380], no cargo mass, wing
    area in [10, 22], aspect ratio in [12, 28], cd0 in [0.0119, 0.0261]
    (0.012 to 0.026 over exact numbers, with room for the rounding of the
    sum and the product; the 0.008 floor never applies), efficiency in
    [0.85, 0.95], and a stall speed in (13.75, 18.34) that is below the
    maximum speed, which is at least 59. *)
Theorem X23_part_configurations (planeConfig : PlaneParts.PlaneConfig) :
  plainKey (PlaneParts.pc_fuselage planeConfig) = true ->
  plainKey (PlaneParts.pc_wings planeConfig) = true ->
  plainKey (PlaneParts.pc_wingtips planeConfig) = true ->
  (PlaneParts.computePhysicsConfig planeConfig = None <->
   PlaneParts.fuselage (PlaneParts.pc_fuselage planeConfig) = None
   \/ PlaneParts.wings (PlaneParts.pc_wings planeConfig) = None
   \/ PlaneParts.wingtips (PlaneParts.pc_wingtips planeConfig) = None)
  /\ (forall pc, PlaneParts.computePhysicsConfig planeConfig = Some pc ->
        let c := PlaneParts.physics pc in
        260 <= FlightPhysics.mass c <= 380
        /\ FlightPhysics.cargoMass c = 0
        /\ 10 <= FlightPhysics.wingArea c <= 22
        /\ 12 <= FlightPhysics.aspectRatio c <= 28
        /\ 0.0119 <= FlightPhysics.cd0 c <= 0.0261
        /\ 0.85 <= FlightPhysics.e c <= 0.95
        /\ 13.75 < FlightPhysics.stallSpeed c < 18.34
        /\ 59 <= FlightPhysics.maxSpeed c
        /\ FlightPhysics.stallSpeed c < FlightPhysics.maxSpeed c).
Proof.
  intros _ _ _. unfold PlaneParts.computePhysicsConfig.
  destruct (PlaneParts.fuselage _) as [fuse |] eqn:Ef;
    destruct (PlaneParts.wings _) as [wing |] eqn:Ew;
    destruct (PlaneParts.wingtips _) as [tips |] eqn:Et;
    (split; [split; [intros H; try discriminate; auto
                    | intros [H | [H | H]]; try discriminate; auto] |]);
    intros pc Hpc; try discriminate.
  injection Hpc as <-. cbn.
  destruct (PartsFacts.fuselage_range _ _ Ef) as (Hm & Hd & _).
  destruct (PartsFacts.wings_range _ _ Ew) as (Ha & Har & _).
  destruct (PartsFacts.wingtips_range _ _ Et) as (Hc & Hl & _ & Hs).
  pose proof (PartsFacts.stall_factor (180 + PlaneParts.f_mass fuse) ltac:(lra))
    as Hsq.
  set (q := sqrt ((180 + PlaneParts.f_mass fuse) / 300)) in *.
  set (cm := js_or (PlaneParts.t_cd0Mod tips) 0) in *.
  set (lm := js_or (PlaneParts.t_liftMod tips) 1.0) in *.
  set (sm := js_or (PlaneParts.t_speedMod tips) 1.0) in *.
  assert (Hcd : 0.012 <= (0.015 + cm) * PlaneParts.f_dragMod fuse <= 0.026) by nra.
  rewrite Rmax_right by lra.
  assert (He : 0.85 <= Rmin 0.95 (0.85 * lm) <= 0.95).
  { split; [apply Rmin_glb; lra | apply Rmin_l]. }
  repeat split; try lra; try nra.
Qed.

Lemma X23_part_configurations_witness :
  exists pc,
    PlaneParts.computePhysicsConfig
      (PlaneParts.mkPlaneConfig "freighter" "long" "drooped") = Some pc
    /\ FlightPhysics.stallSpeed (PlaneParts.physics pc)
       < FlightPhysics.maxSpeed (PlaneParts.physics pc).
Proof.
  eexists. split; [reflexivity |].
  apply (proj2 (X23_part_configurations
                  (PlaneParts.mkPlaneConfig "freighter" "long" "drooped")
                  eq_refl eq_refl eq_refl) _ eq_refl).
Defined.

(** ** Markets *)

Module MarketFacts.

Import Economy.

Lemma find_isPort (aid : nat) (ps : list Port) (p : Port) :
  find (isPort aid) ps = Some p -> isPort aid p = true.
Proof.
  induction ps as [| q ps IH]; simpl; [discriminate |].
  destruct (isPort aid q) eqn:E; [intros [= <-]; exact E | exact IH].
Qed.

Lemma find_replacePort (aid : nat) (ps : list Port) (p p' : Port) :
  find (isPort aid) ps = Some p -> isPort aid p' = true ->
  find (isPort aid) (replacePort aid p' ps) = Some p'.
Proof.
  intros Hf Hp'. induction ps as [| q ps IH]; simpl in *; [discriminate |].
  destruct (isPort aid q) eqn:E; simpl.
  - rewrite Hp'. reflexivity.
  - rewrite E. apply IH. exact Hf.
Qed.

Lemma replacePort_back (aid : nat) (ps : list Port) (p p' : Port) :
  find (isPort aid) ps = Some p -> isPort aid p' = true ->
  replacePort aid p (replacePort aid p' ps) = ps.
Proof.
  intros Hf Hp'. induction ps as [| q ps IH]; simpl in *; [discriminate |].
  destruct (isPort aid q) eqn:E; simpl.
  - injection Hf as ->. rewrite Hp'. reflexivity.
  - rewrite E. f_equal. apply IH. exact Hf.
Qed.

Lemma replacePort_Forall (P : Port -> Prop) (aid : nat) (ps : list Port) (p' : Port) :
  Forall P ps -> P p' -> Forall P (replacePort aid p' ps).
Proof.
  intros H Hp'. induction H as [| q ps Hq Hps IH]; simpl; [constructor |].
  destruct (isPort aid q); constructor; assumption.
Qed.

Lemma find_Forall (P : Port -> Prop) (aid : nat) (ps : list Port) (p : Port) :
  Forall P ps -> find (isPort aid) ps = Some p -> P p.
Proof.
  intros H. induction H as [| q ps Hq Hps IH]; simpl; [discriminate |].
  destruct (isPort aid q); [intros [= <-]; exact Hq | exact IH].
Qed.

(** The four ways [buyCommodity] returns. *)
Lemma buy_cases (aid : nat) (cid : string) (money : R) (e : t) :
  (buyCommodity aid cid money e = (e, None)
   /\ (findPort e aid = None
       \/ (exists ap, findPort e aid = Some ap
             /\ (market ap !! cid = None
                 \/ exists item, market ap !! cid = Some item
                      /\ ((stock item <= 0)%Z \/ money < buyPrice item)))))
  \/ exists ap item,
       findPort e aid = Some ap /\ market ap !! cid = Some item
       /\ (0 < stock item)%Z /\ buyPrice item <= money
       /\ buyCommodity aid cid money e
          = (set_airports
               (replacePort aid
                  (mkPort (airport ap)
                          (<[ cid := set_stock (stock item - 1) item ]> (market ap)))
                  (airports e)) e,
             Some (mkPurchase cid (c_name (commodity item)) (buyPrice item)
                     (weight (commodity item)) (volume (commodity item)))).
Proof.
  unfold buyCommodity.
  destruct (findPort e aid) as [ap |] eqn:Ef; [| left; auto].
  destruct (market ap !! cid) as [item |] eqn:Em; [| left; split; eauto].
  destruct (stock item <=? 0)%Z eqn:Es.
  { apply Z.leb_le in Es. left. split; [reflexivity |]. right.
    exists ap. split; [reflexivity |]. right. exists item. auto. }
  apply Z.leb_gt in Es.
  destruct (Rltb money (buyPrice item)) eqn:Ep.
  { apply Rltb_true in Ep. left. split; [reflexivity |]. right.
    exists ap. split; [reflexivity |]. right. exists item. auto. }
  apply Rltb_false in Ep.
  right. exists ap, item. repeat split; auto.
Qed.

End MarketFacts.

(** X24: for a commodity id that is not a property name inherited from
    [Object.prototype], [buyCommodity] returns null and leaves the economy
    unchanged when the airport id is unknown, the airport does not list
    the commodity, the stock is 0 or less, or the money is below the buy
    price; otherwise it
    charges exactly the buy price (at most the money offered), lowers that
    one stock by 1 and leaves every other entry of that market as it was. *)
Theorem X24_buy_commodity
    (airportId : nat) (commodityId : string) (money : R) (e : Economy.t) :
  plainKey commodityId = true ->
  let e' := fst (Economy.buyCommodity airportId commodityId money e) in
  let r := snd (Economy.buyCommodity airportId commodityId money e) in
  (r = None -> e' = e)
  /\ (r <> None <->
      exists item, Economy.getMarket airportId e !! commodityId = Some item
                   /\ Economy.findPort e airportId <> None
                   /\ (0 < Economy.stock item)%Z /\ Economy.buyPrice item <= money)
  /\ (forall p, r = Some p ->
        exists item,
          Economy.getMarket airportId e !! commodityId = Some item
          /\ Economy.pu_cost p = Economy.buyPrice item
          /\ Economy.pu_cost p <= money
          /\ Economy.getMarket airportId e' !! commodityId
             = Some (Economy.set_stock (Economy.stock item - 1) item)
          /\ (forall other, other <> commodityId ->
                Economy.getMarket airportId e' !! other
                = Economy.getMarket airportId e !! other)).
Proof.
  intros _ e' r. subst e' r. unfold Economy.getMarket.
  destruct (MarketFacts.buy_cases airportId commodityId money e)
    as [[-> Hwhy] | (ap & item & Hf & Hm & Hs & Hp & ->)]; cbn [fst snd].
  - split; [reflexivity |]. split.
    + split; [congruence |].
      intros (item & Hm & Hport & Hs & Hp).
      destruct Hwhy as [Hn | (ap & Hf & Hwhy)]; [congruence |].
      rewrite Hf in Hm.
      destruct Hwhy as [Hn | (item' & Hm' & Hbad)]; [congruence |].
      assert (item' = item) by congruence. subst item'.
      destruct Hbad; [lia | lra].
    + intros p Hp. discriminate.
  - split; [discriminate |]. split.
    + split; [| discriminate].
      intros _. exists item. rewrite Hf. repeat split; auto.
    + intros p [= <-]. exists item. rewrite Hf.
      unfold Economy.findPort in *. cbn [Economy.airports Economy.set_airports].
      rewrite (MarketFacts.find_replacePort airportId _ ap _ Hf)
        by (apply (MarketFacts.find_isPort _ _ _ Hf)).
      cbn [Economy.market Economy.pu_cost].
      repeat split; auto.
      * apply lookup_insert_eq.
      * intros other Hne. apply lookup_insert_ne. congruence.
Qed.

Lemma X24_buy_commodity_witness :
  snd (Economy.buyCommodity 0 "fish" 100
         (Economy.mk
            [Economy.mkPort Examples.home
               {[ "fish"%string :=
                    Economy.mkItem
                      (Economy.mkCommodity "fish" "Fresh Fish" 50 2 3 false)
                      60 40 3 8 ]}] [] [] None))
  <> None.
Proof.
  apply (proj1 (proj2 (X24_buy_commodity 0 "fish" 100
                         (Economy.mk
                            [Economy.mkPort Examples.home
                               {[ "fish"%string :=
                                    Economy.mkItem
                                      (Economy.mkCommodity "fish" "Fresh Fish"
                                                           50 2 3 false)
                                      60 40 3 8 ]}] [] [] None)
                         eq_refl))).
  eexists. split; [apply lookup_singleton_eq |].
  split; [discriminate |]. split; [simpl; lia | simpl; lra].
Defined.

Module TradeFacts.

Import Economy MarketFacts.

Lemma set_stock_back (n : Z) (i : MarketItem) :
  set_stock (stock i) (set_stock n i) = i.
Proof. destruct i. reflexivity. Qed.

Lemma set_stock_undo (i : MarketItem) :
  set_stock (stock (set_stock (stock i + 1) i) - 1) (set_stock (stock i + 1) i) = i.
Proof.
  destruct i as [c b sp st ms]. unfold set_stock.
  cbn [commodity buyPrice sellPrice stock maxStock].
  replace (st + 1 - 1)%Z with st by lia. reflexivity.
Qed.

Lemma set_airports_same (e : t) : set_airports (airports e) e = e.
Proof. destruct e. reflexivity. Qed.

Lemma port_eta (p : Port) : mkPort (airport p) (market p) = p.
Proof. destruct p. reflexivity. Qed.

Lemma sell_listed (aid : nat) (cid : string) (e : t) (ap : Port) (item : MarketItem) :
  findPort e aid = Some ap -> market ap !! cid = Some item ->
  sellCommodity aid cid e
  = (set_airports
       (replacePort aid
          (mkPort (airport ap) (<[ cid := set_stock (stock item + 1) item ]> (market ap)))
          (airports e)) e,
     Some (mkSale cid (sellPrice item))).
Proof. intros Hf Hm. unfold sellCommodity. rewrite Hf, Hm. reflexivity. Qed.

Lemma same_port (aid : nat) (ap : Port) (m : gmap string MarketItem) :
  isPort aid ap = true -> isPort aid (mkPort (airport ap) m) = true.
Proof. intros H. exact H. Qed.

End TradeFacts.

(** X25: at a known airport that lists the commodity (under an id that
    is not a property name inherited from [Object.prototype]) with a stock
    that is not negative, selling one unit and buying it back with enough money
    returns the economy to exactly the state it was in; the sale pays the
    sell price and the purchase costs the buy price. *)
Theorem X25_sell_then_buy_restores
    (airportId : nat) (commodityId : string) (money : R) (e : Economy.t)
    (ap : Economy.Port) (item : Economy.MarketItem) :
  plainKey commodityId = true ->
  Economy.findPort e airportId = Some ap ->
  Economy.market ap !! commodityId = Some item ->
  (0 <= Economy.stock item)%Z ->
  Economy.buyPrice item <= money ->
  let sold := Economy.sellCommodity airportId commodityId e in
  let bought := Economy.buyCommodity airportId commodityId money (fst sold) in
  snd sold = Some (Economy.mkSale commodityId (Economy.sellPrice item))
  /\ (exists p, snd bought = Some p /\ Economy.pu_cost p = Economy.buyPrice item)
  /\ fst bought = e.
Proof.
  intros _ Hf Hm Hs Hp sold bought. subst bought sold.
  rewrite (TradeFacts.sell_listed _ _ _ _ _ Hf Hm). cbn [fst snd].
  set (item1 := Economy.set_stock (Economy.stock item + 1) item).
  set (ap1 := Economy.mkPort (Economy.airport ap) (<[ commodityId := item1 ]> (Economy.market ap))).
  set (e1 := Economy.set_airports
               (Economy.replacePort airportId ap1 (Economy.airports e)) e).
  pose proof (MarketFacts.find_isPort _ _ _ Hf) as Hid.
  assert (Hf1 : Economy.findPort e1 airportId = Some ap1).
  { unfold Economy.findPort, e1. cbn [Economy.airports Economy.set_airports].
    apply (MarketFacts.find_replacePort airportId _ ap); [exact Hf | exact Hid]. }
  assert (Hm1 : Economy.market ap1 !! commodityId = Some item1).
  { unfold ap1. cbn [Economy.market]. apply lookup_insert_eq. }
  split; [reflexivity |].
  unfold Economy.buyCommodity. rewrite Hf1, Hm1.
  assert (Es : (Economy.stock item1 <=? 0)%Z = false).
  { apply Z.leb_gt. unfold item1. cbn. lia. }
  assert (Ep : Rltb money (Economy.buyPrice item1) = false).
  { apply Rltb_false. unfold item1. cbn. exact Hp. }
  rewrite Es, Ep. cbv zeta. cbn [fst snd]. split.
  - eexists. split; [reflexivity | reflexivity].
  - unfold e1, ap1. cbn [Economy.airports Economy.set_airports Economy.airport
                           Economy.market].
    rewrite insert_insert_eq.
    unfold item1. rewrite TradeFacts.set_stock_undo.
    rewrite (insert_id _ _ _ Hm), TradeFacts.port_eta.
    rewrite (MarketFacts.replacePort_back airportId _ ap (Economy.mkPort _ _) Hf Hid).
    destruct e. reflexivity.
Qed.

Lemma X25_sell_then_buy_restores_witness :
  let item := Economy.mkItem (Economy.mkCommodity "fish" "Fresh Fish" 50 2 3 false)
                             60 40 3 8 in
  let ap := Economy.mkPort Examples.home {[ "fish"%string := item ]} in
  let e := Economy.mk [ap] [] [] None in
  fst (Economy.buyCommodity 0 "fish" 100 (fst (Economy.sellCommodity 0 "fish" e))) = e.
Proof.
  intros item ap e.
  apply (X25_sell_then_buy_restores 0 "fish" 100 e ap item).
  - reflexivity.
  - reflexivity.
  - unfold ap. cbn [Economy.market]. apply lookup_singleton_eq.
  - simpl. lia.
  - simpl. lra.
Defined.

(** X26: a purchase or a sale (of a commodity id that is not a property
    name inherited from [Object.prototype]) never makes a stock negative:
    if no market holds a negative stock before [buyCommodity] or [sellCommodity], none
    does after.  A sale raises the stock by 1 whatever [maxStock] is. *)
Theorem X26_stock_never_negative
    (airportId : nat) (commodityId : string) (money : R) (e : Economy.t) :
  plainKey commodityId = true ->
  Economy.stocked e ->
  Economy.stocked (fst (Economy.buyCommodity airportId commodityId money e))
  /\ Economy.stocked (fst (Economy.sellCommodity airportId commodityId e))
  /\ (forall item,
        Economy.getMarket airportId e !! commodityId = Some item ->
        Economy.getMarket airportId
          (fst (Economy.sellCommodity airportId commodityId e)) !! commodityId
        = Some (Economy.set_stock (Economy.stock item + 1) item)).
Proof.
  intros _ Hst. unfold Economy.stocked in *.
  split; [| split].
  - destruct (MarketFacts.buy_cases airportId commodityId money e)
      as [[-> _] | (ap & item & Hf & Hm & Hs & Hp & ->)]; cbn [fst]; [exact Hst |].
    cbn [Economy.airports Economy.set_airports].
    apply MarketFacts.replacePort_Forall; [exact Hst |].
    cbn [Economy.market]. apply map_Forall_insert_2.
    + cbn. lia.
    + exact (MarketFacts.find_Forall _ _ _ _ Hst Hf).
  - unfold Economy.sellCommodity.
    destruct (Economy.findPort e airportId) as [ap |] eqn:Hf; [| exact Hst].
    destruct (Economy.market ap !! commodityId) as [item |] eqn:Hm; [| exact Hst].
    cbv zeta. cbn [fst Economy.airports Economy.set_airports].
    apply MarketFacts.replacePort_Forall; [exact Hst |].
    cbn [Economy.market]. apply map_Forall_insert_2.
    + cbn. pose proof (MarketFacts.find_Forall _ _ _ _ Hst Hf) as Hap.
      specialize (Hap commodityId item Hm). cbn in Hap. lia.
    + exact (MarketFacts.find_Forall _ _ _ _ Hst Hf).
  - intros item Hm. unfold Economy.getMarket in *.
    destruct (Economy.findPort e airportId) as [ap |] eqn:Hf;
      [| rewrite lookup_empty in Hm; discriminate].
    rewrite (TradeFacts.sell_listed _ _ _ _ _ Hf Hm). cbn [fst].
    unfold Economy.findPort in *. cbn [Economy.airports Economy.set_airports].
    rewrite (MarketFacts.find_replacePort airportId _ ap _ Hf)
      by (apply (MarketFacts.find_isPort _ _ _ Hf)).
    cbn [Economy.market]. apply lookup_insert_eq.
Qed.

Lemma X26_stock_never_negative_witness :
  Economy.stocked
    (fst (Economy.buyCommodity 0 "fish" 100
            (Economy.mk [Economy.mkPort Examples.home ∅] [] [] None))).
Proof.
  apply (X26_stock_never_negative 0 "fish" 100
           (Economy.mk [Economy.mkPort Examples.home ∅] [] [] None));
    [reflexivity |].
  unfold Economy.stocked. cbn [Economy.airports].
  apply Forall_cons. split; [| apply Forall_nil; exact I].
  cbn [Economy.market]. apply map_Forall_empty.
Defined.

(** ** Missions *)

Module MissionFacts.

Import Economy.

Lemma find_test (e : t) (f : Mission -> bool) (rs : list nat) (r : nat) :
  find (test e f) rs = Some r ->
  r ∈ rs /\ exists m, store e !! r = Some m /\ f m = true.
Proof.
  intros H. apply find_some in H as [Hin Ht].
  split; [apply list_elem_of_In; exact Hin |].
  unfold test in Ht. destruct (store e !! r) as [m |]; [| discriminate].
  exists m. auto.
Qed.

(** The two ways [acceptMission] returns. *)
Lemma accept_cases (id : string) (e : t) :
  acceptMission id e = (e, false)
  \/ exists r m,
       r ∈ missions e /\ store e !! r = Some m /\ m_id m = id
       /\ m_accepted m = false /\ activeMission e = None
       /\ acceptMission id e
          = (mk (airports e) (<[ r := set_accepted true m ]> (store e))
                (missions e) (Some r), true).
Proof.
  unfold acceptMission.
  destruct (find _ (missions e)) as [r |] eqn:Ef; [| left; reflexivity].
  destruct (find_test _ _ _ _ Ef) as (Hin & m & Hm & Hid).
  apply String.eqb_eq in Hid.
  rewrite Hm.
  destruct (m_accepted m) eqn:Ea; [left; reflexivity |].
  destruct (activeMission e) eqn:Eact; [left; reflexivity |].
  right. exists r, m. repeat split; auto.
Qed.

Lemma set_accepted_id b m : m_id (set_accepted b m) = m_id m.
Proof. reflexivity. Qed.

End MissionFacts.

(** X27: only one mission is active at a time.  [acceptMission] returns
    false and changes nothing when a mission is already active, when no
    listed mission has the id, or when the mission is already accepted;
    when it returns true no mission was active, the first listed mission
    with that id becomes the active one and is marked accepted, the list
    and every other mission object are unchanged, and any further
    [acceptMission] returns false. *)
Theorem X27_one_active_mission (missionId other : string) (e : Economy.t) :
  let e' := fst (Economy.acceptMission missionId e) in
  (Economy.activeMission e <> None ->
   Economy.acceptMission missionId e = (e, false))
  /\ (snd (Economy.acceptMission missionId e) = false -> e' = e)
  /\ (snd (Economy.acceptMission missionId e) = true ->
      exists r m,
        Economy.activeMission e = None
        /\ r ∈ Economy.missions e
        /\ Economy.store e !! r = Some m
        /\ Economy.m_id m = missionId
        /\ Economy.m_accepted m = false
        /\ Economy.activeMission e' = Some r
        /\ Economy.store e' !! r = Some (Economy.set_accepted true m)
        /\ Economy.missions e' = Economy.missions e
        /\ (forall r', r' <> r -> Economy.store e' !! r' = Economy.store e !! r')
        /\ Economy.acceptMission other e' = (e', false)).
Proof.
  intros e'. subst e'.
  destruct (MissionFacts.accept_cases missionId e)
    as [-> | (r & m & Hin & Hm & Hid & Hacc & Hact & ->)]; cbn [fst snd].
  - repeat split; auto. discriminate.
  - split; [intros Hne; congruence |]. split; [discriminate |].
    intros _. exists r, m.
    assert (Hlt : (r < List.length (Economy.store e))%nat)
      by (eapply lookup_lt_Some; exact Hm).
    repeat split; auto.
    + apply list_lookup_insert_eq. exact Hlt.
    + intros r' Hne. apply list_lookup_insert_ne. congruence.
    + set (e1 := Economy.mk _ _ _ _).
      destruct (MissionFacts.accept_cases other e1)
        as [-> | (r2 & m2 & _ & _ & _ & _ & Hact2 & _)]; [reflexivity |].
      discriminate.
Qed.

Module MissionInvariant.

Import Economy.

Lemma accept_wellFormed id e : wellFormed e -> wellFormed (fst (acceptMission id e)).
Proof.
  intros [Hrefs Hact].
  destruct (MissionFacts.accept_cases id e)
    as [-> | (r & m & Hin & Hm & Hid & Hacc & Hnone & ->)]; cbn [fst];
    [split; assumption |].
  split; cbn [store missions activeMission].
  - rewrite length_insert. exact Hrefs.
  - exists (set_accepted true m). split; [| reflexivity].
    apply list_lookup_insert_eq. eapply lookup_lt_Some; exact Hm.
Qed.

Lemma filter_refs (P : nat -> Prop) `{!forall r, Decision (P r)} (n : nat) (rs : list nat) :
  Forall (fun r => (r < n)%nat) rs -> Forall (fun r => (r < n)%nat) (filter P rs).
Proof.
  rewrite !Forall_forall. intros Hall r Hr.
  apply list_elem_of_filter in Hr as [_ Hr]. apply Hall. exact Hr.
Qed.

Lemma update_wellFormed dt now e : wellFormed e -> wellFormed (fst (update dt now e)).
Proof.
  intros H. pose proof H as [Hrefs Hact]. unfold update.
  destruct (activeMission e) as [r |] eqn:Ea.
  - destruct Hact as (m & Hm & Hacc). rewrite Hm.
    assert (Hlt : (r < List.length (store e))%nat)
      by (eapply lookup_lt_Some; exact Hm).
    destruct (hasTimeLimit m).
    + cbv zeta.
      set (m' := set_timeRemaining (Some (default 0 (m_timeRemaining m) - dt)) m).
      assert (Hm' : <[ r := m' ]> (store e) !! r = Some m')
        by (apply list_lookup_insert_eq; exact Hlt).
      destruct (Rleb _ 0); cbn [fst]; split; simpl.
      * rewrite length_insert. exact Hrefs.
      * rewrite ?Ea. exists m'. split; [exact Hm' | exact Hacc].
      * apply filter_refs. rewrite length_insert. exact Hrefs.
      * rewrite ?Ea. exists m'. split; [exact Hm' | exact Hacc].
    + cbn [fst]. split; simpl.
      * apply filter_refs. exact Hrefs.
      * rewrite Ea. exists m. auto.
  - cbn [fst]. split; simpl.
    + apply filter_refs. exact Hrefs.
    + rewrite Ea. exact I.
Qed.

Lemma complete_wellFormed aid e : wellFormed e -> wellFormed (fst (completeMission aid e)).
Proof.
  intros H. pose proof H as [Hrefs _]. unfold completeMission.
  destruct (activeMission e) as [r |]; [| exact H].
  destruct (store e !! r) as [m |]; [| exact H].
  destruct (negb _); cbn [fst]; [exact H |].
  split; simpl; [| exact I].
  unfold dropId. apply filter_refs. exact Hrefs.
Qed.

Lemma fail_wellFormed reason e : wellFormed e -> wellFormed (fst (failMission reason e)).
Proof.
  intros H. pose proof H as [Hrefs _]. unfold failMission.
  destruct (activeMission e) as [r |]; [| exact H].
  destruct (store e !! r) as [m |]; [| exact H].
  cbn [fst]. split; simpl; [| exact I].
  unfold dropId. apply filter_refs. exact Hrefs.
Qed.

End MissionInvariant.

(** X28: the mission operations keep the economy well formed: if every
    listed reference points to a mission object and the active mission, if
    any, is marked accepted, the same holds after [acceptMission],
    [update], [completeMission] and [failMission]. *)
Theorem X28_missions_stay_well_formed
    (e : Economy.t) (missionId reason : string) (airportId : nat) (dt now : R) :
  Economy.wellFormed e ->
  Economy.wellFormed (fst (Economy.acceptMission missionId e))
  /\ Economy.wellFormed (fst (Economy.update dt now e))
  /\ Economy.wellFormed (fst (Economy.completeMission airportId e))
  /\ Economy.wellFormed (fst (Economy.failMission reason e)).
Proof.
  intros H. split; [| split; [| split]].
  - apply MissionInvariant.accept_wellFormed; exact H.
  - apply MissionInvariant.update_wellFormed; exact H.
  - apply MissionInvariant.complete_wellFormed; exact H.
  - apply MissionInvariant.fail_wellFormed; exact H.
Qed.

Lemma X28_missions_stay_well_formed_witness :
  Economy.wellFormed
    (fst (Economy.acceptMission "m_1_0"
            (Economy.mk [] [Economy.mkMission "m_1_0" 0 1 100 50 None None 5 false]
                        [0%nat] None))).
Proof.
  apply (X28_missions_stay_well_formed
           (Economy.mk [] [Economy.mkMission "m_1_0" 0 1 100 50 None None 5 false]
                       [0%nat] None) "m_1_0" "" 0 0 0).
  split; simpl; [| exact I].
  apply Forall_cons. split; [lia | apply Forall_nil; exact I].
Defined.

Module MissionEnd.

Import Economy.

Lemma dropId_spec (e : t) (id : string) (r : nat) :
  r ∈ dropId e id
  <-> r ∈ missions e /\ exists m, store e !! r = Some m /\ m_id m <> id.
Proof.
  unfold dropId. rewrite list_elem_of_filter. unfold test.
  split.
  - intros [Ht Hin]. split; [exact Hin |].
    destruct (store e !! r) as [m |]; [| discriminate].
    exists m. split; [reflexivity |].
    apply negb_true_iff, String.eqb_neq in Ht. exact Ht.
  - intros [Hin (m & Hm & Hne)]. split; [| exact Hin].
    rewrite Hm. apply negb_true_iff, String.eqb_neq. exact Hne.
Qed.

End MissionEnd.

(** X29: [completeMission] returns null and changes nothing when no
    mission is active or the active mission's destination is another
    airport; at the destination it pays the mission's reward, and
    [failMission] with an active mission always charges its penalty; both
    then clear the active mission and remove from the list every mission
    with that id, and only those. *)
Theorem X29_mission_ends (airportId : nat) (reason : string) (e : Economy.t) :
  (Economy.activeMission e = None ->
   Economy.completeMission airportId e = (e, None)
   /\ Economy.failMission reason e = (e, None))
  /\ (forall ref m,
        Economy.activeMission e = Some ref -> Economy.store e !! ref = Some m ->
        (Economy.m_toAirport m <> airportId ->
         Economy.completeMission airportId e = (e, None))
        /\ (Economy.m_toAirport m = airportId ->
            snd (Economy.completeMission airportId e)
            = Some (Economy.mission_complete (Economy.m_reward m) m)
            /\ fst (Economy.completeMission airportId e)
               = fst (Economy.failMission reason e))
        /\ snd (Economy.failMission reason e)
           = Some (Economy.mission_failed m (Some (Economy.m_penalty m)) reason)
        /\ let e' := fst (Economy.failMission reason e) in
           Economy.activeMission e' = None
           /\ Economy.store e' = Economy.store e
           /\ Economy.airports e' = Economy.airports e
           /\ (ref ∉ Economy.missions e')
           /\ (forall r, r ∈ Economy.missions e' <->
                 r ∈ Economy.missions e
                 /\ exists m', Economy.store e !! r = Some m'
                               /\ Economy.m_id m' <> Economy.m_id m)).
Proof.
  split.
  - intros Hn. unfold Economy.completeMission, Economy.failMission.
    rewrite Hn. split; reflexivity.
  - intros ref m Ha Hm.
    unfold Economy.completeMission, Economy.failMission. rewrite Ha, Hm.
    split; [| split; [| split]].
    + intros Hne. apply Nat.eqb_neq in Hne. rewrite Hne. reflexivity.
    + intros Heq. apply Nat.eqb_eq in Heq. rewrite Heq. cbn. split; reflexivity.
    + reflexivity.
    + cbn [fst Economy.activeMission Economy.store Economy.airports Economy.missions].
      split; [reflexivity |]. split; [reflexivity |]. split; [reflexivity |].
      split.
      * intros Hin. apply MissionEnd.dropId_spec in Hin as [_ (m' & Hm' & Hne)].
        rewrite Hm in Hm'. injection Hm' as <-. contradiction.
      * intros r. apply MissionEnd.dropId_spec.
Qed.

(** X30: [update] never clears the active mission.  With a time limit
    (neither null nor 0) the remaining time drops by dt; when it reaches 0
    or less the call returns 'mission_failed' with reason 'timeout' and
    leaves the list of missions as it is.  When the call returns null the
    list loses only missions, and in a well-formed economy the active
    mission, being accepted, is never among those lost. *)
Theorem X30_mission_timer (dt now : R) (e : Economy.t) (ref : nat) (m : Economy.Mission) :
  Economy.wellFormed e ->
  Economy.activeMission e = Some ref ->
  Economy.store e !! ref = Some m ->
  let e' := fst (Economy.update dt now e) in
  let r := snd (Economy.update dt now e) in
  let m' := Economy.set_timeRemaining
              (Some (default 0 (Economy.m_timeRemaining m) - dt)) m in
  Economy.activeMission e' = Some ref
  /\ (Economy.hasTimeLimit m = true -> Economy.store e' !! ref = Some m')
  /\ (Economy.hasTimeLimit m = true ->
      default 0 (Economy.m_timeRemaining m) - dt <= 0 ->
      r = Some (Economy.mission_failed m' None "timeout")
      /\ Economy.missions e' = Economy.missions e)
  /\ (Economy.hasTimeLimit m = false -> r = None /\ Economy.store e' = Economy.store e)
  /\ (r = None ->
      (forall r', r' ∈ Economy.missions e' -> r' ∈ Economy.missions e)
      /\ (ref ∈ Economy.missions e -> ref ∈ Economy.missions e')).
Proof.
  intros [Hrefs Hact] Ha Hm e' r m'. subst e' r.
  rewrite Ha in Hact. destruct Hact as (m0 & Hm0 & Hacc).
  assert (m0 = m) by congruence. subst m0.
  assert (Hlt : (ref < List.length (Economy.store e))%nat)
    by (eapply lookup_lt_Some; exact Hm).
  assert (Hm' : <[ ref := m' ]> (Economy.store e) !! ref = Some m')
    by (apply list_lookup_insert_eq; exact Hlt).
  unfold Economy.update. rewrite Ha, Hm.
  destruct (Economy.hasTimeLimit m) eqn:Et.
  - cbv zeta. fold m'.
    change (default 0 (Economy.m_timeRemaining m'))
      with (default 0 (Economy.m_timeRemaining m) - dt).
    destruct (Rleb _ 0) eqn:El; cbn [fst snd].
    + repeat split; auto; try discriminate.
    + apply Rleb_false in El. simpl.
      repeat split; auto; try discriminate; try lra.
      * intros r' Hr'. apply list_elem_of_filter in Hr' as [_ Hr']. exact Hr'.
      * intros Hin. apply list_elem_of_filter. split; [| exact Hin].
        unfold Economy.test. simpl. rewrite Hm'.
        change (Economy.m_accepted m') with (Economy.m_accepted m).
        rewrite Hacc. reflexivity.
  - cbn [fst snd]. simpl. rewrite Ha.
    repeat split; auto; try discriminate.
    + intros r' Hr'. apply list_elem_of_filter in Hr' as [_ Hr']. exact Hr'.
    + intros Hin. apply list_elem_of_filter. split; [| exact Hin].
      unfold Economy.test. rewrite Hm, Hacc. reflexivity.
Qed.

Lemma X30_mission_timer_witness :
  let m := Economy.mkMission "m_1_0" 0 1 100 50 (Some 90) (Some 90) 5 true in
  Economy.activeMission
    (fst (Economy.update 1 0 (Economy.mk [] [m] [0%nat] (Some 0%nat))))
  = Some 0%nat.
Proof.
  intros m.
  apply (X30_mission_timer 1 0 (Economy.mk [] [m] [0%nat] (Some 0%nat)) 0 m).
  - split; simpl.
    + apply Forall_cons. split; [lia | apply Forall_nil; exact I].
    + exists m. split; reflexivity.
  - reflexivity.
  - reflexivity.
Defined.
